(** * unfc: platform selection, record codec and listener registries

    A shallow embedding of the TypeScript sources of the [unfc] package
    (the [Nfc] facade, the [WebNfc], [IosBridgeNfc] and [AndroidBridgeNfc]
    backends, and the [IosDetection] / [AndroidDetection] capability
    detectors), followed by the properties established about them.

    Conventions of the embedding.
    - A JavaScript string is the [string] of the bytes of its UTF-8
      encoding.  The regular expressions of the detectors only mention ASCII
      characters, so a byte-wise reading of the user agent is faithful.  A
      [string] that is not well-formed UTF-8 stands for no JavaScript string
      (one with an unpaired surrogate has no UTF-8 encoding); where the
      contents of a string matter, well-formedness is a hypothesis.
    - JavaScript numbers produced by the version parsers are modelled by exact
      rationals ([Q]): [parseInt(a) + parseInt(b) / 10].  The code computes
      in double precision, which is exact for the integers below 2^53 only;
      what is proved of versions for every numeral is the outcome of the
      comparisons with the integer thresholds, which rounding cannot change.
    - The listener registries are indexed by the event names of the declared
      type, ["nfcStatusChanged"] and ["tagDetected"].
    - An [async] method is a function from the receiver's state (and from the
      outcome of the platform calls it awaits) to a completion
      ([Resolved] / [Rejected]) and the next state.
    - Callbacks are opaque: a callback has an identity and either returns or
      throws when invoked; every invocation is recorded in a trace. *)

From Stdlib Require Import Ascii String QArith.
From stdpp Require Import gmap strings list fin_maps.

(** ** JavaScript string and regular-expression primitives *)

Module Js.

Definition is_digit (c : ascii) : bool :=
  let n := nat_of_ascii c in (48 <=? n)%nat && (n <=? 57)%nat.

Definition is_upper (c : ascii) : bool :=
  let n := nat_of_ascii c in (65 <=? n)%nat && (n <=? 90)%nat.

(** Case folding of the [i] flag, restricted to the ASCII letters. *)
Definition fold_case (c : ascii) : ascii :=
  if is_upper c then ascii_of_nat (nat_of_ascii c + 32) else c.

Fixpoint lowercase (s : string) : string :=
  match s with
  | EmptyString => EmptyString
  | String c s' => String (fold_case c) (lowercase s')
  end.

(** [s.startsWith(p)] *)
Definition startsWith (p s : string) : bool := String.prefix p s.

(** [s.includes(p)] *)
Fixpoint includes (p s : string) : bool :=
  String.prefix p s ||
  match s with
  | EmptyString => false
  | String _ s' => includes p s'
  end.

(** [/p/i.test(s)] for a literal pattern [p]. *)
Definition test_i (p s : string) : bool :=
  includes (lowercase p) (lowercase s).

(** [s] with the literal [p] removed from its front, when [s] starts with [p]. *)
Fixpoint strip_prefix (p s : string) : option string :=
  match p, s with
  | EmptyString, _ => Some s
  | String a p', String b s' =>
      if Ascii.eqb a b then strip_prefix p' s' else None
  | String _ _, EmptyString => None
  end.

(** The longest run of decimal digits at the front of [s] (a greedy [\d*]),
    and what follows it. *)
Fixpoint span_digits (s : string) : string * string :=
  match s with
  | String c s' =>
      if is_digit c
      then let '(d, r) := span_digits s' in (String c d, r)
      else (EmptyString, s)
  | EmptyString => (EmptyString, EmptyString)
  end.

Definition starts_with_digit (s : string) : bool :=
  match s with
  | String c _ => is_digit c
  | EmptyString => false
  end.

(** [s.match(re)] for an unanchored [re]: the match attempt [m] is tried at
    every position from the left and the first success wins. *)
Fixpoint regex_search {A} (m : string -> option A) (s : string) : option A :=
  match m s with
  | Some x => Some x
  | None =>
      match s with
      | EmptyString => None
      | String _ s' => regex_search m s'
      end
  end.

(** No position inside [pre] starts a match of [m] in [pre ++ rest]. *)
Fixpoint no_match_in {A} (m : string -> option A) (pre rest : string) : bool :=
  match pre with
  | EmptyString => true
  | String _ pre' =>
      match m (pre +:+ rest) with
      | Some _ => false
      | None => no_match_in m pre' rest
      end
  end.

Definition digit_value (c : ascii) : Z := Z.of_nat (nat_of_ascii c) - 48.

Fixpoint parse_digits (acc : Z) (s : string) : Z :=
  match s with
  | EmptyString => acc
  | String c s' => parse_digits (10 * acc + digit_value c) s'
  end.

(** [parseInt(s, 10)] on a non-empty string of decimal digits: the integer
    that the numeral denotes. *)
Definition parseInt (s : string) : Z := parse_digits 0 s.

(** [a || b] on strings: the empty string is falsy. *)
Definition or_else (a b : string) : string :=
  match a with
  | EmptyString => b
  | _ => a
  end.

(** [a || b] where [a] may be [undefined]. *)
Definition opt_or_else (a : option string) (b : string) : string :=
  match a with
  | Some s => or_else s b
  | None => b
  end.

Definition truthy (a : option string) : bool :=
  match a with
  | Some (String _ _) => true
  | _ => false
  end.

(** The byte [c] lies between [lo] and [hi]. *)
Definition in_range (lo hi : nat) (c : ascii) : bool :=
  (lo <=? nat_of_ascii c)%nat && (nat_of_ascii c <=? hi)%nat.

(** U+FEFF and U+FFFD in UTF-8. *)
Definition byte_order_mark : string :=
  String "239" (String "187" (String "191" EmptyString)).

Definition replacement_character : string :=
  String "239" (String "191" (String "189" EmptyString)).

(** The range of the byte that may follow the lead byte [b1] of a sequence
    of three or four bytes: it excludes the overlong forms, the surrogates
    and what lies above U+10FFFF. *)
Definition second_byte_range (b1 : ascii) : nat * nat :=
  let n := nat_of_ascii b1 in
  (if (n =? 224)%nat then 160 else if (n =? 240)%nat then 144 else 128,
   if (n =? 237)%nat then 159 else if (n =? 244)%nat then 143 else 191)%nat.

(** The UTF-8 decoder of the platform, its output again in UTF-8: a
    well-formed sequence is kept; a byte that can neither start nor continue
    a sequence, and a sequence that is cut short, become U+FFFD, and the
    byte that cut a sequence short is read again. *)
Fixpoint utf8_decode (bytes : string) : string :=
  match bytes with
  | EmptyString => EmptyString
  | String b1 r1 =>
      if in_range 0 127 b1 then String b1 (utf8_decode r1)
      else if in_range 194 223 b1 then
        match r1 with
        | String b2 r2 =>
            if in_range 128 191 b2
            then String b1 (String b2 (utf8_decode r2))
            else replacement_character +:+ utf8_decode r1
        | EmptyString => replacement_character
        end
      else if in_range 224 239 b1 then
        match r1 with
        | String b2 r2 =>
            let '(lo, hi) := second_byte_range b1 in
            if in_range lo hi b2 then
              match r2 with
              | String b3 r3 =>
                  if in_range 128 191 b3
                  then String b1 (String b2 (String b3 (utf8_decode r3)))
                  else replacement_character +:+ utf8_decode r2
              | EmptyString => replacement_character
              end
            else replacement_character +:+ utf8_decode r1
        | EmptyString => replacement_character
        end
      else if in_range 240 244 b1 then
        match r1 with
        | String b2 r2 =>
            let '(lo, hi) := second_byte_range b1 in
            if in_range lo hi b2 then
              match r2 with
              | String b3 r3 =>
                  if in_range 128 191 b3 then
                    match r3 with
                    | String b4 r4 =>
                        if in_range 128 191 b4
                        then String b1 (String b2 (String b3 (String b4
                               (utf8_decode r4))))
                        else replacement_character +:+ utf8_decode r3
                    | EmptyString => replacement_character
                    end
                  else replacement_character +:+ utf8_decode r2
              | EmptyString => replacement_character
              end
            else replacement_character +:+ utf8_decode r1
        | EmptyString => replacement_character
        end
      else replacement_character +:+ utf8_decode r1
  end.

(** [bytes] is well-formed UTF-8: the encoding of a string of Unicode
    scalar values. *)
Fixpoint well_formed_utf8 (bytes : string) : bool :=
  match bytes with
  | EmptyString => true
  | String b1 r1 =>
      if in_range 0 127 b1 then well_formed_utf8 r1
      else if in_range 194 223 b1 then
        match r1 with
        | String b2 r2 => in_range 128 191 b2 && well_formed_utf8 r2
        | EmptyString => false
        end
      else if in_range 224 239 b1 then
        match r1 with
        | String b2 (String b3 r3) =>
            let '(lo, hi) := second_byte_range b1 in
            in_range lo hi b2 && in_range 128 191 b3 && well_formed_utf8 r3
        | _ => false
        end
      else if in_range 240 244 b1 then
        match r1 with
        | String b2 (String b3 (String b4 r4)) =>
            let '(lo, hi) := second_byte_range b1 in
            in_range lo hi b2 && in_range 128 191 b3 && in_range 128 191 b4
            && well_formed_utf8 r4
        | _ => false
        end
      else false
  end.

(** [new TextDecoder().decode(bytes)]: the encoding is UTF-8, errors are
    replaced ([fatal: false]), and a byte order mark at the front of the
    output is dropped ([ignoreBOM: false]). *)
Definition TextDecoder_decode (bytes : string) : string :=
  let output := utf8_decode bytes in
  match strip_prefix byte_order_mark output with
  | Some rest => rest
  | None => output
  end.

End Js.

(** ** ios-detection.ts *)

Module IosDetection.

Record IosSupportInfo := {
  isIos : bool;
  version : option Q;
  supportsNfc : bool;
  requiresNative : bool
}.

(** One attempt of [/OS (\d+)_(\d+)_?(\d+)?/] at the front of [s]; the result
    holds capture groups 1 and 2.  The two trailing items are optional and
    cannot make the attempt fail. *)
Definition match_version_at (s : string) : option (string * string) :=
  match Js.strip_prefix "OS " s with
  | None => None
  | Some r =>
      let '(major, r1) := Js.span_digits r in
      match major, r1 with
      | String _ _, String "_" r2 =>
          let '(minor, _) := Js.span_digits r2 in
          match minor with
          | String _ _ => Some (major, minor)
          | EmptyString => None
          end
      | _, _ => None
      end
  end.

Definition versionMatch (userAgent : string) : option (string * string) :=
  Js.regex_search match_version_at userAgent.

Definition getIosSupportInfo (userAgent : string) : IosSupportInfo :=
  let isIos :=
    Js.test_i "iphone" userAgent || Js.test_i "ipad" userAgent
    || Js.test_i "ipod" userAgent in
  if negb isIos then
    {| isIos := false; version := None; supportsNfc := false;
       requiresNative := false |}
  else
    let version :=
      match versionMatch userAgent with
      | Some (g1, g2) =>
          Some (inject_Z (Js.parseInt g1) + inject_Z (Js.parseInt g2) / 10)%Q
      | None => None
      end in
    let supportsNfc :=
      match version with
      | Some v => Qle_bool 11 v
      | None => false
      end in
    {| isIos := isIos; version := version; supportsNfc := supportsNfc;
       requiresNative := true |}.

Definition hasNfcHardware (userAgent : string) : bool :=
  let iosInfo := getIosSupportInfo userAgent in
  if isIos iosInfo then supportsNfc iosInfo
  else Js.test_i "android" userAgent.

Definition getIosNfcGuidance (userAgent : string) : string :=
  let iosInfo := getIosSupportInfo userAgent in
  if negb (isIos iosInfo) then ""
  else if negb (supportsNfc iosInfo) then
    "Your iOS device does not support NFC or is running an iOS version below 11.0."
  else
    "NFC on iOS requires a native app. The web browser cannot directly access NFC hardware on iOS devices.".

End IosDetection.

(** ** android-detection.ts *)

Module AndroidDetection.

Record AndroidSupportInfo := {
  isAndroid : bool;
  version : option Q;
  supportsNfc : bool;
  supportsWebNfc : bool
}.

(** One attempt of [/Android (\d+)(?:\.(\d+))?/] at the front of [s]; group 2
    is [None] when the optional part did not take part in the match. *)
Definition match_version_at (s : string) : option (string * option string) :=
  match Js.strip_prefix "Android " s with
  | None => None
  | Some r =>
      let '(major, r1) := Js.span_digits r in
      match major with
      | EmptyString => None
      | String _ _ =>
          match r1 with
          | String "." r2 =>
              let '(minor, _) := Js.span_digits r2 in
              match minor with
              | String _ _ => Some (major, Some minor)
              | EmptyString => Some (major, None)
              end
          | _ => Some (major, None)
          end
      end
  end.

Definition versionMatch (userAgent : string)
  : option (string * option string) :=
  Js.regex_search match_version_at userAgent.

(** One attempt of [/Chrome\/(\d+)/]. *)
Definition match_chrome_at (s : string) : option string :=
  match Js.strip_prefix "Chrome/" s with
  | None => None
  | Some r =>
      match fst (Js.span_digits r) with
      | EmptyString => None
      | d => Some d
      end
  end.

Definition getAndroidSupportInfo (userAgent : string) : AndroidSupportInfo :=
  let isAndroid := Js.test_i "android" userAgent in
  if negb isAndroid then
    {| isAndroid := false; version := None; supportsNfc := false;
       supportsWebNfc := false |}
  else
    let version :=
      match versionMatch userAgent with
      | Some (g1, g2) =>
          Some (inject_Z (Js.parseInt g1)
                + inject_Z (Js.parseInt (Js.opt_or_else g2 "0")) / 10)%Q
      | None => None
      end in
    let supportsNfc :=
      match version with
      | Some v => Qle_bool 4 v
      | None => false
      end in
    let isChrome :=
      Js.test_i "chrome" userAgent || Js.test_i "chromium" userAgent in
    let chromeVersion :=
      match Js.regex_search match_chrome_at userAgent with
      | Some d => Js.parseInt d
      | None => 0%Z
      end in
    let supportsWebNfc := isChrome && (89 <=? chromeVersion)%Z in
    {| isAndroid := isAndroid; version := version;
       supportsNfc := supportsNfc; supportsWebNfc := supportsWebNfc |}.

Definition shouldUseNativeBridge (userAgent : string) : bool :=
  let androidInfo := getAndroidSupportInfo userAgent in
  if negb (isAndroid androidInfo) then false
  else
    let isWebView :=
      (Js.test_i "capacitor" userAgent || Js.test_i "cordova" userAgent)
      || (Js.test_i "android" userAgent && Js.test_i "wv" userAgent) in
    isWebView && supportsNfc androidInfo.

Definition hasNativeNfcSupport (userAgent : string) : bool :=
  let androidInfo := getAndroidSupportInfo userAgent in
  isAndroid androidInfo && supportsNfc androidInfo.

(** [NDEFReader] is ['NDEFReader' in window]. *)
Definition hasWebNfcSupport (userAgent : string) (NDEFReader : bool) : bool :=
  let androidInfo := getAndroidSupportInfo userAgent in
  isAndroid androidInfo && supportsWebNfc androidInfo && NDEFReader.

Definition getAndroidNfcGuidance (userAgent : string) : string :=
  let androidInfo := getAndroidSupportInfo userAgent in
  if negb (isAndroid androidInfo) then ""
  else if negb (supportsNfc androidInfo) then
    "Your Android device does not support NFC or is running an Android version below 4.0."
  else
    "To enable NFC on your Android device, go to Settings > Connected devices > Connection preferences > NFC and turn it on.".

End AndroidDetection.

(** ** definitions.ts *)

Inductive NfcErrorType :=
  | NOT_SUPPORTED | NOT_ENABLED | PERMISSION_DENIED | NO_TAG | TAG_ERROR
  | IO_ERROR | TIMEOUT | CANCELLED | UNEXPECTED_ERROR.

Module NfcTnf.
Definition EMPTY : Z := 0.
Definition WELL_KNOWN : Z := 1.
Definition MIME_MEDIA : Z := 2.
Definition ABSOLUTE_URI : Z := 3.
Definition EXTERNAL_TYPE : Z := 4.
Definition UNKNOWN : Z := 5.
Definition UNCHANGED : Z := 6.
Definition RESERVED : Z := 7.
End NfcTnf.

Module NfcRtd.
Definition TEXT : string := "T".
Definition URI : string := "U".
End NfcRtd.

Module NdefRecord.
Record t := {
  id : string;
  tnf : Z;
  type : string;
  payload : option string;
  languageCode : option string;
  uri : option string;
  text : option string
}.
End NdefRecord.

Record NdefMessage := { records : list NdefRecord.t }.

Module TagDetectedEvent.
Record t := {
  id : string;
  techTypes : list string;
  messages : list NdefMessage
}.
End TagDetectedEvent.

Record IsEnabledResult := { enabled : bool }.

Record StartScanSessionOptions := {
  once : option bool;
  scanSoundEnabled : option bool;
  alertMessageEnabled : option bool
}.

Record WriteOptions := { message : NdefMessage }.

(** ** Values thrown and promises settled *)

(** A thrown JavaScript value, seen through the three properties the code
    reads or writes; [None] is a property that is absent. *)
Module JsError.
Record t := {
  name : option string;
  message : option string;
  code : option NfcErrorType
}.
End JsError.

(** [new Error(msg)] *)
Definition new_Error (msg : string) : JsError.t :=
  {| JsError.name := Some "Error"; JsError.message := Some msg;
     JsError.code := None |}.

(** How an [async] call completes. *)
Inductive Completion (A : Type) :=
  | Resolved (a : A)
  | Rejected (e : JsError.t).
Arguments Resolved {A} a.
Arguments Rejected {A} e.

(** How a synchronous call into the platform completes. *)
Inductive CallOutcome :=
  | Returns
  | Throws (e : JsError.t).

(** ** Callbacks and the record of their invocations *)

Inductive Payload :=
  | TagPayload (tag : TagDetectedEvent.t)
  | StatusPayload (status : IsEnabledResult).

(** A function value held in a listener registry.  [UserFn n throws] is the
    caller's function number [n], which throws when called iff [throws];
    [StatusMonitor] is the arrow function that [Nfc.monitorNfcStatus] hands
    to the backend. *)
Inductive Callback :=
  | UserFn (ident : nat) (throws : bool)
  | StatusMonitor.

#[global] Instance Callback_eq_dec : EqDecision Callback.
Proof. solve_decision. Defined.

Record Invocation := { callee : Callback; argument : Payload }.

Section Calls.

(** What calling [StatusMonitor] does (it never throws). *)
Variable monitor : Payload -> list Invocation.

(** [listener(data)]: the invocations it causes, and whether it threw. *)
Definition call (listener : Callback) (data : Payload)
  : list Invocation * bool :=
  match listener with
  | UserFn _ throws => ([{| callee := listener; argument := data |}], throws)
  | StatusMonitor => (monitor data, false)
  end.

(** [for (const listener of ls) { listener(data); }]: the loop is left at
    the first listener that throws. *)
Fixpoint call_each (ls : list Callback) (data : Payload)
  : list Invocation * bool :=
  match ls with
  | [] => ([], false)
  | listener :: ls' =>
      let '(t, threw) := call listener data in
      if threw then (t, true)
      else let '(t', threw') := call_each ls' data in (t ++ t', threw')
  end.

End Calls.

(** A status monitor that is not wired to anything. *)
Definition no_monitor : Payload -> list Invocation := fun _ => [].

(** The number of times [f] was called in a trace. *)
Definition calls_of (f : Callback) (trace : list Invocation) : nat :=
  length (filter (fun i => callee i = f) trace).

(** The handle returned by [addListener]: its [remove] closes over the event
    name and the function that were registered. *)
Record PluginListenerHandle := {
  h_eventName : string;
  h_listenerFunc : Callback
}.

(** The listener registries of the three backends:
    [{ [key: string]: Array<(...args) => void> }], under the event names of
    the declared type.  (For a name that every object inherits, such as
    ["toString"], the object answers with the inherited member; the methods
    are declared for the two event names only.) *)
Module Registry.

Definition get (eventName : string) (r : gmap string (list Callback))
  : list Callback :=
  default [] (r !! eventName).

(** [if (!r[e]) r[e] = []; r[e].push(f)] *)
Definition push (eventName : string) (f : Callback)
    (r : gmap string (list Callback)) : gmap string (list Callback) :=
  <[eventName := get eventName r ++ [f]]> r.

(** [if (r[e]) r[e] = r[e].filter(l => l !== f)] *)
Definition removeListener (eventName : string) (f : Callback)
    (r : gmap string (list Callback)) : gmap string (list Callback) :=
  match r !! eventName with
  | Some ls => <[eventName := filter (fun l => l <> f) ls]> r
  | None => r
  end.

End Registry.

(** ** The globals the code reads *)

(** [window.nativeNfcBridge]: which of its optional functions exist. *)
Module NativeIosBridge.
Record t := {
  isNfcEnabled : bool;
  startNfcScan : bool;
  stopNfcScan : bool;
  writeNfcTag : bool;
  openSettings : bool
}.
(** [{}] *)
Definition empty : t := Build_t false false false false false.
End NativeIosBridge.

(** [window.nativeAndroidNfcBridge]: which of its optional functions exist. *)
Module NativeAndroidBridge.
Record t := {
  isNfcEnabled : bool;
  startNfcScan : bool;
  stopNfcScan : bool;
  writeNfcTag : bool;
  makeNfcTagReadOnly : bool;
  formatNfcTag : bool;
  eraseNfcTag : bool;
  shareNfcData : bool;
  stopNfcSharing : bool;
  openNfcSettings : bool
}.
Definition empty : t :=
  Build_t false false false false false false false false false false.
End NativeAndroidBridge.

(** The browser environment at the time a constructor runs ([window] and
    [navigator] exist). *)
Module Window.
Record t := {
  userAgent : string;                               (* navigator.userAgent *)
  nativeNfcBridge : option NativeIosBridge.t;
  nativeAndroidNfcBridge : option NativeAndroidBridge.t;
  NDEFReader : bool                                 (* 'NDEFReader' in window *)
}.
End Window.

(** ** web.ts: the browser radio backend *)

Module WebNfc.

(** An instance of the platform's [NDEFReader]. *)
Record NDEFReaderObj := {
  instance : nat;
  has_abort : bool          (* whether the object has an [abort] member *)
}.

(** A record of a reading event.  [data] is the record's [DataView], held
    as the text [TextDecoder.decode] returns for it ([decode] replaces
    malformed input and does not throw); [None] is a missing [data]. *)
Record NDEFRecord := {
  recordType : string;
  data : option string;
  lang : option string
}.

Record NDEFReadingEvent := {
  serialNumber : option string;
  message : option (list NDEFRecord)        (* event.message.records *)
}.

(** What [write] hands to the platform for one record. *)
Record NDEFRecordInit := {
  init_recordType : string;
  init_data : string;
  init_lang : option string
}.

Record t := {
  scanSessionActive : bool;
  scanOnce : bool;
  listeners : gmap string (list Callback);
  ndefReader : option NDEFReaderObj;
  nfcSupported : bool;
  iosInfo : IosDetection.IosSupportInfo
}.

Definition set_scanSessionActive (b : bool) (s : t) : t :=
  {| scanSessionActive := b; scanOnce := scanOnce s;
     listeners := listeners s; ndefReader := ndefReader s;
     nfcSupported := nfcSupported s; iosInfo := iosInfo s |}.

Definition set_scanOnce (b : bool) (s : t) : t :=
  {| scanSessionActive := scanSessionActive s; scanOnce := b;
     listeners := listeners s; ndefReader := ndefReader s;
     nfcSupported := nfcSupported s; iosInfo := iosInfo s |}.

Definition set_listeners (l : gmap string (list Callback)) (s : t) : t :=
  {| scanSessionActive := scanSessionActive s; scanOnce := scanOnce s;
     listeners := l; ndefReader := ndefReader s;
     nfcSupported := nfcSupported s; iosInfo := iosInfo s |}.

Definition set_ndefReader (r : option NDEFReaderObj) (s : t) : t :=
  {| scanSessionActive := scanSessionActive s; scanOnce := scanOnce s;
     listeners := listeners s; ndefReader := r;
     nfcSupported := nfcSupported s; iosInfo := iosInfo s |}.

(** The constructor, i.e. the field initialisers and [detectNfcSupport]. *)
Definition new (w : Window.t) : t :=
  let info := IosDetection.getIosSupportInfo (Window.userAgent w) in
  {| scanSessionActive := false; scanOnce := false; listeners := ∅;
     ndefReader := None;
     nfcSupported :=
       if IosDetection.isIos info then false else Window.NDEFReader w;
     iosInfo := info |}.

Definition createCompatibilityError (s : t) : JsError.t :=
  if IosDetection.isIos (iosInfo s) then
    new_Error "iOS browsers don't support the Web NFC API. To use NFC on iOS, you need a native app implementation."
  else
    new_Error "Web NFC API is not supported in this browser. NFC Web API requires Chrome 89+ on Android with NFC hardware, running over HTTPS.".

Definition isEnabled (s : t) : Completion IsEnabledResult * t :=
  if IosDetection.isIos (iosInfo s) then (Resolved {| enabled := false |}, s)
  else (Resolved {| enabled := nfcSupported s |}, s).

Definition mapRecordTypeToTnf (recordType : string) : Z :=
  if String.eqb recordType "" then 0
  else if String.eqb recordType "text" || String.eqb recordType "url" then 1
  else if Js.includes "/" recordType then 2
  else if Js.startsWith "urn:" recordType then 3
  else 4.

(** The body of the loop of [parseNdefReading]: one native record to one
    unified record. *)
Definition toUnifiedRecord (record : NDEFRecord) : NdefRecord.t :=
  let recordType := recordType record in
  let '(payload, text, uri) :=
    match data record with
    | Some decoded =>
        if String.eqb recordType "text" then (decoded, decoded, "")
        else if String.eqb recordType "url" then (decoded, "", decoded)
        else (decoded, "", "")
    | None => ("", "", "")
    end in
  {| NdefRecord.id := "";
     NdefRecord.tnf := mapRecordTypeToTnf recordType;
     NdefRecord.type := Js.or_else recordType "";
     NdefRecord.payload := Some payload;
     NdefRecord.languageCode := Some (Js.opt_or_else (lang record) "en");
     NdefRecord.uri := Some uri;
     NdefRecord.text := Some text |}.

Definition parseNdefReading (event : NDEFReadingEvent) : TagDetectedEvent.t :=
  let messages :=
    match message event with
    | Some native =>
        match map toUnifiedRecord native with
        | [] => []
        | rs => [ {| records := rs |} ]
        end
    | None => []
    end in
  {| TagDetectedEvent.id := Js.opt_or_else (serialNumber event) "";
     TagDetectedEvent.techTypes := ["ndef"];
     TagDetectedEvent.messages := messages |}.

(** The callback of [options.message.records.map] in [write]: one unified
    record to the options of one native record. *)
Definition fromUnifiedRecord (record : NdefRecord.t) : NDEFRecordInit :=
  if String.eqb (NdefRecord.type record) "T" then
    {| init_recordType := "text";
       init_data :=
         Js.opt_or_else (NdefRecord.payload record)
           (Js.opt_or_else (NdefRecord.text record) "");
       init_lang :=
         if Js.truthy (NdefRecord.languageCode record)
         then NdefRecord.languageCode record else None |}
  else if String.eqb (NdefRecord.type record) "U" then
    {| init_recordType := "url";
       init_data :=
         Js.opt_or_else (NdefRecord.payload record)
           (Js.opt_or_else (NdefRecord.uri record) "");
       init_lang := None |}
  else
    {| init_recordType := NdefRecord.type record;
       init_data := Js.opt_or_else (NdefRecord.payload record) "";
       init_lang := None |}.

(** The native record that the write path built from [init], as the read
    path takes it: the record type and the language as they are, and for
    [data] the bytes of the string that was written, which
    [parseNdefReading] decodes with [new TextDecoder()]. *)
Definition read_back (init : NDEFRecordInit) : NDEFRecord :=
  {| recordType := init_recordType init;
     data := Some (Js.TextDecoder_decode (init_data init));
     lang := init_lang init |}.

Definition stopScanSession (abort : CallOutcome) (s : t)
  : Completion unit * t :=
  let s := set_scanSessionActive false s in
  match ndefReader s with
  | Some reader =>
      if has_abort reader then
        match abort with
        | Returns => (Resolved tt, s)
        | Throws _ => (Resolved tt, s)          (* caught and logged *)
        end
      else (Resolved tt, s)
  | None => (Resolved tt, s)
  end.

(** What the platform does during [startScanSession]. *)
Inductive ScanOutcome :=
  | ConstructorThrows (e : JsError.t)        (* [new NDEFReader()] throws *)
  | ScanRejects (reader : NDEFReaderObj) (e : JsError.t)
  | ScanResolves (reader : NDEFReaderObj).

(** The [catch] clause of [startScanSession]. *)
Definition startScanError (error : JsError.t) : JsError.t :=
  if bool_decide (JsError.name error = Some "NotAllowedError") then
    new_Error "NFC permission denied. Please allow NFC scanning when prompted."
  else if bool_decide (JsError.name error = Some "NotSupportedError") then
    new_Error "NFC is not supported on this device or browser."
  else
    new_Error ("Failed to start NFC scan: "
               +:+ Js.opt_or_else (JsError.message error) "Unknown error").

Definition startScanSession (options : option StartScanSessionOptions)
    (platform : ScanOutcome) (s : t) : Completion unit * t :=
  if IosDetection.isIos (iosInfo s) then
    (Rejected (new_Error "NFC reading is not supported in web browsers on iOS. To use NFC on iOS, you need a native app implementation."), s)
  else if negb (nfcSupported s) then
    (Rejected (createCompatibilityError s), s)
  else
    let s := set_scanSessionActive true s in
    let s := set_scanOnce (default false (options ≫= once)) s in
    match platform with
    | ConstructorThrows e =>
        (Rejected (startScanError e), set_scanSessionActive false s)
    | ScanRejects reader e =>
        (Rejected (startScanError e),
         set_scanSessionActive false (set_ndefReader (Some reader) s))
    | ScanResolves reader =>
        (Resolved tt, set_ndefReader (Some reader) s)
    end.

(** The ["reading"] listener that [startScanSession] attaches to a reader.
    It reads the fields of [this] when the event arrives, so every reader
    that was ever started shares this one behaviour. *)
Definition onReading (monitor : Payload -> list Invocation)
    (abort : CallOutcome) (event : NDEFReadingEvent) (s : t)
  : t * list Invocation :=
  if negb (scanSessionActive s) then (s, [])
  else
    let tag := parseNdefReading event in
    let '(trace, threw) :=
      call_each monitor (Registry.get "tagDetected" (listeners s))
        (TagPayload tag) in
    if threw then (s, trace)                    (* caught and logged *)
    else if scanOnce s then (snd (stopScanSession abort s), trace)
    else (s, trace).

Definition addListener (eventName : string) (listenerFunc : Callback) (s : t)
  : Completion PluginListenerHandle * t :=
  (Resolved {| h_eventName := eventName; h_listenerFunc := listenerFunc |},
   set_listeners (Registry.push eventName listenerFunc (listeners s)) s).

Definition removeListener (eventName : string) (listenerFunc : Callback)
    (s : t) : t :=
  set_listeners
    (Registry.removeListener eventName listenerFunc (listeners s)) s.

(** [handle.remove()] *)
Definition remove (h : PluginListenerHandle) (s : t) : Completion unit * t :=
  (Resolved tt, removeListener (h_eventName h) (h_listenerFunc h) s).

Definition removeAllListeners (s : t) : Completion unit * t :=
  (Resolved tt, set_listeners ∅ s).

(** [openSettings], with the texts it passes to [alert] (a browser: [alert]
    is a function); [userAgent] is [navigator.userAgent] at the time of the
    call. *)
Definition openSettings (userAgent : string) (s : t)
  : Completion unit * t * list string :=
  if IosDetection.isIos (iosInfo s) then
    (Resolved tt, s, [IosDetection.getIosNfcGuidance userAgent])
  else if negb (nfcSupported s) then
    (Rejected (createCompatibilityError s), s, [])
  else if Js.test_i "android" userAgent then
    (Resolved tt, s,
     ["Please enable NFC in your device settings: Settings > Connected devices > Connection preferences > NFC"])
  else (Resolved tt, s, ["Please ensure NFC is enabled on your device."]).

(** What the platform does during [write] and [format]. *)
Inductive WriteOutcome :=
  | WriterConstructorThrows (e : JsError.t)   (* [new NDEFReader()] throws *)
  | WriteRejects (e : JsError.t)
  | WriteResolves.

(** The record list that [write] hands to the platform's [write]. *)
Definition writeRecords (options : WriteOptions) : list NDEFRecordInit :=
  let 'Build_WriteOptions unified := options in
  map fromUnifiedRecord (records unified).

(** The [catch] clause of [write]. *)
Definition writeError (error : JsError.t) : JsError.t :=
  if bool_decide (JsError.name error = Some "NotAllowedError") then
    new_Error "NFC write permission denied. Please allow when prompted."
  else if bool_decide (JsError.name error = Some "NotSupportedError") then
    new_Error "NFC write is not supported on this device or browser."
  else
    new_Error ("Failed to write to NFC tag: "
               +:+ Js.opt_or_else (JsError.message error) "Unknown error").

Definition write (options : WriteOptions) (platform : WriteOutcome) (s : t)
  : Completion unit * t :=
  if negb (nfcSupported s) then (Rejected (createCompatibilityError s), s)
  else
    match platform with
    | WriterConstructorThrows e => (Rejected (writeError e), s)
    | WriteRejects e => (Rejected (writeError e), s)
    | WriteResolves => (Resolved tt, s)
    end.

Definition makeReadOnly (s : t) : Completion unit * t :=
  if negb (nfcSupported s) then (Rejected (createCompatibilityError s), s)
  else
    (Rejected (new_Error "makeReadOnly is not supported in the Web NFC API"),
     s).

(** The [catch] clause of [format]. *)
Definition formatError (error : JsError.t) : JsError.t :=
  new_Error ("Failed to format NFC tag: "
             +:+ Js.opt_or_else (JsError.message error) "Unknown error").

(** [format] writes the empty record list. *)
Definition format (platform : WriteOutcome) (s : t) : Completion unit * t :=
  if negb (nfcSupported s) then (Rejected (createCompatibilityError s), s)
  else
    match platform with
    | WriterConstructorThrows e => (Rejected (formatError e), s)
    | WriteRejects e => (Rejected (formatError e), s)
    | WriteResolves => (Resolved tt, s)
    end.

Definition erase (platform : WriteOutcome) (s : t) : Completion unit * t :=
  format platform s.

Definition share (s : t) : Completion unit * t :=
  if negb (nfcSupported s) then (Rejected (createCompatibilityError s), s)
  else
    (Rejected (new_Error "NFC sharing is not supported in the Web NFC API"), s).

Definition stopSharing (s : t) : Completion unit * t :=
  if negb (nfcSupported s) then (Rejected (createCompatibilityError s), s)
  else
    (Rejected (new_Error "NFC sharing is not supported in the Web NFC API"), s).

End WebNfc.

(** ** Messages posted by a native host *)

(** [event.data] of a ["message"] event when it is an object: its [type], its
    [tag] when that is present and truthy, and [!!enabled] when [enabled] is
    not [undefined]. *)
Record NativeMessage := {
  msg_type : string;
  msg_tag : option TagDetectedEvent.t;
  msg_enabled : option bool
}.

(** [None] is an [event.data] that is falsy or not an object. *)
Record MessageEvent := { msg_data : option NativeMessage }.

(** The body shared by the two [handleNativeMessage] methods, which differ in
    nothing but the class they belong to. *)
Definition dispatchNativeMessage (monitor : Payload -> list Invocation)
    (listeners : gmap string (list Callback)) (event : MessageEvent)
  : list Invocation :=
  match msg_data event with
  | None => []
  | Some d =>
      let '(t1, threw) :=
        match String.eqb (msg_type d) "nfcTagDetected", msg_tag d with
        | true, Some tag =>
            call_each monitor (Registry.get "tagDetected" listeners)
              (TagPayload tag)
        | _, _ => ([], false)
        end in
      if threw then t1
      else
        match String.eqb (msg_type d) "nfcStatusChanged", msg_enabled d with
        | true, Some b =>
            t1 ++ fst (call_each monitor
                         (Registry.get "nfcStatusChanged" listeners)
                         (StatusPayload {| enabled := b |}))
        | _, _ => t1
        end
  end.

(** ** ios-bridge.ts *)

Module IosBridgeNfc.

Record t := {
  bridge : NativeIosBridge.t;
  listeners : gmap string (list Callback);
  isBridgeAvailable : bool
}.

Definition set_listeners (l : gmap string (list Callback)) (s : t) : t :=
  {| bridge := bridge s; listeners := l;
     isBridgeAvailable := isBridgeAvailable s |}.

Definition new (w : Window.t) : t :=
  let bridge := default NativeIosBridge.empty (Window.nativeNfcBridge w) in
  {| bridge := bridge; listeners := ∅;
     isBridgeAvailable :=
       NativeIosBridge.isNfcEnabled bridge
       && NativeIosBridge.startNfcScan bridge |}.

Definition handleNativeMessage (monitor : Payload -> list Invocation)
    (event : MessageEvent) (s : t) : t * list Invocation :=
  (s, dispatchNativeMessage monitor (listeners s) event).

(** A ["message"] event on [window]: the constructor subscribed
    [handleNativeMessage] only when the bridge was available. *)
Definition onMessage (monitor : Payload -> list Invocation)
    (event : MessageEvent) (s : t) : t * list Invocation :=
  if isBridgeAvailable s then handleNativeMessage monitor event s
  else (s, []).

(** [native] is how the promise of [bridge.isNfcEnabled()] settles. *)
Definition isEnabled (native : Completion bool) (s : t)
  : Completion IsEnabledResult * t :=
  if negb (isBridgeAvailable s) then (Resolved {| enabled := false |}, s)
  else
    match native with
    | Resolved enabled => (Resolved {| enabled := enabled |}, s)
    | Rejected _ => (Resolved {| enabled := false |}, s)
    end.

Definition startScanSession (options : option StartScanSessionOptions)
    (native : Completion unit) (s : t) : Completion unit * t :=
  if negb (isBridgeAvailable s) then
    (Rejected (new_Error "NFC scan cannot be started - bridge not available"),
     s)
  else
    match native with
    | Resolved _ => (Resolved tt, s)
    | Rejected error => (Rejected error, s)
    end.

Definition stopScanSession (native : Completion unit) (s : t)
  : Completion unit * t :=
  if negb (isBridgeAvailable s) || negb (NativeIosBridge.stopNfcScan (bridge s))
  then (Resolved tt, s)
  else
    match native with
    | Resolved _ => (Resolved tt, s)
    | Rejected _ => (Resolved tt, s)            (* caught and logged *)
    end.

Definition addListener (eventName : string) (listenerFunc : Callback) (s : t)
  : Completion PluginListenerHandle * t :=
  (Resolved {| h_eventName := eventName; h_listenerFunc := listenerFunc |},
   set_listeners (Registry.push eventName listenerFunc (listeners s)) s).

Definition removeListener (eventName : string) (listenerFunc : Callback)
    (s : t) : t :=
  set_listeners
    (Registry.removeListener eventName listenerFunc (listeners s)) s.

Definition remove (h : PluginListenerHandle) (s : t) : Completion unit * t :=
  (Resolved tt, removeListener (h_eventName h) (h_listenerFunc h) s).

Definition removeAllListeners (s : t) : Completion unit * t :=
  (Resolved tt, set_listeners ∅ s).

Definition openSettings (native : Completion unit) (s : t)
  : Completion unit * t :=
  if negb (isBridgeAvailable s) || negb (NativeIosBridge.openSettings (bridge s))
  then
    (Rejected (new_Error "NFC settings cannot be opened - bridge not available"),
     s)
  else
    match native with
    | Resolved _ => (Resolved tt, s)
    | Rejected error => (Rejected error, s)
    end.

Definition write (native : Completion unit) (s : t) : Completion unit * t :=
  if negb (isBridgeAvailable s) || negb (NativeIosBridge.writeNfcTag (bridge s))
  then
    (Rejected (new_Error "NFC write is not supported - bridge not available"),
     s)
  else
    match native with
    | Resolved _ => (Resolved tt, s)
    | Rejected error => (Rejected error, s)
    end.

Definition makeReadOnly (s : t) : Completion unit * t :=
  (Rejected (new_Error "makeReadOnly is not implemented in the iOS bridge"), s).

Definition format (s : t) : Completion unit * t :=
  (Rejected (new_Error "format is not implemented in the iOS bridge"), s).

Definition erase (s : t) : Completion unit * t :=
  (Rejected (new_Error "erase is not implemented in the iOS bridge"), s).

Definition share (s : t) : Completion unit * t :=
  (Rejected (new_Error "share is not supported in iOS"), s).

Definition stopSharing (s : t) : Completion unit * t :=
  (Rejected (new_Error "share is not supported in iOS"), s).

End IosBridgeNfc.

(** ** android-bridge.ts *)

Module AndroidBridgeNfc.

Record t := {
  bridge : NativeAndroidBridge.t;
  listeners : gmap string (list Callback);
  isBridgeAvailable : bool
}.

Definition set_listeners (l : gmap string (list Callback)) (s : t) : t :=
  {| bridge := bridge s; listeners := l;
     isBridgeAvailable := isBridgeAvailable s |}.

Definition new (w : Window.t) : t :=
  let bridge :=
    default NativeAndroidBridge.empty (Window.nativeAndroidNfcBridge w) in
  {| bridge := bridge; listeners := ∅;
     isBridgeAvailable :=
       NativeAndroidBridge.isNfcEnabled bridge
       && NativeAndroidBridge.startNfcScan bridge |}.

Definition handleNativeMessage (monitor : Payload -> list Invocation)
    (event : MessageEvent) (s : t) : t * list Invocation :=
  (s, dispatchNativeMessage monitor (listeners s) event).

Definition onMessage (monitor : Payload -> list Invocation)
    (event : MessageEvent) (s : t) : t * list Invocation :=
  if isBridgeAvailable s then handleNativeMessage monitor event s
  else (s, []).

Definition isEnabled (native : Completion bool) (s : t)
  : Completion IsEnabledResult * t :=
  if negb (isBridgeAvailable s) then (Resolved {| enabled := false |}, s)
  else
    match native with
    | Resolved enabled => (Resolved {| enabled := enabled |}, s)
    | Rejected _ => (Resolved {| enabled := false |}, s)
    end.

Definition startScanSession (options : option StartScanSessionOptions)
    (native : Completion unit) (s : t) : Completion unit * t :=
  if negb (isBridgeAvailable s) then
    (Rejected (new_Error "NFC scan cannot be started - bridge not available"),
     s)
  else
    match native with
    | Resolved _ => (Resolved tt, s)
    | Rejected error => (Rejected error, s)
    end.

Definition stopScanSession (native : Completion unit) (s : t)
  : Completion unit * t :=
  if negb (isBridgeAvailable s)
     || negb (NativeAndroidBridge.stopNfcScan (bridge s))
  then (Resolved tt, s)
  else
    match native with
    | Resolved _ => (Resolved tt, s)
    | Rejected _ => (Resolved tt, s)            (* caught and logged *)
    end.

Definition addListener (eventName : string) (listenerFunc : Callback) (s : t)
  : Completion PluginListenerHandle * t :=
  (Resolved {| h_eventName := eventName; h_listenerFunc := listenerFunc |},
   set_listeners (Registry.push eventName listenerFunc (listeners s)) s).

Definition removeListener (eventName : string) (listenerFunc : Callback)
    (s : t) : t :=
  set_listeners
    (Registry.removeListener eventName listenerFunc (listeners s)) s.

Definition remove (h : PluginListenerHandle) (s : t) : Completion unit * t :=
  (Resolved tt, removeListener (h_eventName h) (h_listenerFunc h) s).

Definition removeAllListeners (s : t) : Completion unit * t :=
  (Resolved tt, set_listeners ∅ s).

Definition openSettings (native : Completion unit) (s : t) : Completion unit * t :=
  if negb (isBridgeAvailable s)
     || negb (NativeAndroidBridge.openNfcSettings (bridge s))
  then (Rejected (new_Error "NFC settings cannot be opened - bridge not available"), s)
  else
    match native with
    | Resolved _ => (Resolved tt, s)
    | Rejected error => (Rejected error, s)
    end.

Definition write (native : Completion unit) (s : t) : Completion unit * t :=
  if negb (isBridgeAvailable s)
     || negb (NativeAndroidBridge.writeNfcTag (bridge s))
  then (Rejected (new_Error "NFC write is not supported - bridge not available"), s)
  else
    match native with
    | Resolved _ => (Resolved tt, s)
    | Rejected error => (Rejected error, s)
    end.

Definition makeReadOnly (native : Completion unit) (s : t) : Completion unit * t :=
  if negb (isBridgeAvailable s)
     || negb (NativeAndroidBridge.makeNfcTagReadOnly (bridge s))
  then (Rejected (new_Error "makeReadOnly is not implemented in the Android bridge"), s)
  else
    match native with
    | Resolved _ => (Resolved tt, s)
    | Rejected error => (Rejected error, s)
    end.

Definition format (native : Completion unit) (s : t) : Completion unit * t :=
  if negb (isBridgeAvailable s)
     || negb (NativeAndroidBridge.formatNfcTag (bridge s))
  then (Rejected (new_Error "format is not implemented in the Android bridge"), s)
  else
    match native with
    | Resolved _ => (Resolved tt, s)
    | Rejected error => (Rejected error, s)
    end.

Definition erase (native : Completion unit) (s : t) : Completion unit * t :=
  if negb (isBridgeAvailable s)
     || negb (NativeAndroidBridge.eraseNfcTag (bridge s))
  then (Rejected (new_Error "erase is not implemented in the Android bridge"), s)
  else
    match native with
    | Resolved _ => (Resolved tt, s)
    | Rejected error => (Rejected error, s)
    end.

Definition share (native : Completion unit) (s : t) : Completion unit * t :=
  if negb (isBridgeAvailable s)
     || negb (NativeAndroidBridge.shareNfcData (bridge s))
  then (Rejected (new_Error "share is not implemented in the Android bridge"), s)
  else
    match native with
    | Resolved _ => (Resolved tt, s)
    | Rejected error => (Rejected error, s)
    end.

Definition stopSharing (native : Completion unit) (s : t) : Completion unit * t :=
  if negb (isBridgeAvailable s)
     || negb (NativeAndroidBridge.stopNfcSharing (bridge s))
  then (Rejected (new_Error "stopSharing is not implemented in the Android bridge"), s)
  else
    match native with
    | Resolved _ => (Resolved tt, s)
    | Rejected error => (Rejected error, s)
    end.

End AndroidBridgeNfc.

(** ** nfc.ts: the facade *)

Module Nfc.

(** The value of [this.implementation]. *)
Inductive NfcPlugin :=
  | Web (impl : WebNfc.t)
  | IosBridge (impl : IosBridgeNfc.t)
  | AndroidBridge (impl : AndroidBridgeNfc.t).

Inductive BackendKind := WebKind | IosBridgeKind | AndroidBridgeKind.

Definition kind (p : NfcPlugin) : BackendKind :=
  match p with
  | Web _ => WebKind
  | IosBridge _ => IosBridgeKind
  | AndroidBridge _ => AndroidBridgeKind
  end.

(** [listeners] is a [Map<string, Set<Function>>]; a [Set] is held as the
    list of its members in insertion order. *)
Record t := {
  implementation : NfcPlugin;
  listeners : gmap string (list Callback);
  iosInfo : IosDetection.IosSupportInfo;
  androidInfo : AndroidDetection.AndroidSupportInfo
}.

Definition set_implementation (p : NfcPlugin) (s : t) : t :=
  {| implementation := p; listeners := listeners s;
     iosInfo := iosInfo s; androidInfo := androidInfo s |}.

Definition set_listeners (l : gmap string (list Callback)) (s : t) : t :=
  {| implementation := implementation s; listeners := l;
     iosInfo := iosInfo s; androidInfo := androidInfo s |}.

(** [Set.prototype.add] and [Set.prototype.delete] *)
Definition set_add (f : Callback) (fs : list Callback) : list Callback :=
  if bool_decide (f ∈ fs) then fs else fs ++ [f].

Definition set_delete (f : Callback) (fs : list Callback) : list Callback :=
  filter (fun l => l <> f) fs.

(** What the platform does during one call of a facade method: the settling
    of whichever platform call the bound backend makes. *)
Record Platform := {
  scan : WebNfc.ScanOutcome;
  abort : CallOutcome;
  native_enabled : Completion bool;
  native : Completion unit
}.

(** *** Calls through [this.implementation] *)

Definition impl_addListener (eventName : string) (f : Callback)
    (p : NfcPlugin) : Completion PluginListenerHandle * NfcPlugin :=
  match p with
  | Web w =>
      let '(r, w') := WebNfc.addListener eventName f w in (r, Web w')
  | IosBridge b =>
      let '(r, b') := IosBridgeNfc.addListener eventName f b in
      (r, IosBridge b')
  | AndroidBridge b =>
      let '(r, b') := AndroidBridgeNfc.addListener eventName f b in
      (r, AndroidBridge b')
  end.

(** [handle.remove()] for a handle made by the bound backend. *)
Definition impl_remove (h : PluginListenerHandle) (p : NfcPlugin)
  : Completion unit * NfcPlugin :=
  match p with
  | Web w => let '(r, w') := WebNfc.remove h w in (r, Web w')
  | IosBridge b => let '(r, b') := IosBridgeNfc.remove h b in (r, IosBridge b')
  | AndroidBridge b =>
      let '(r, b') := AndroidBridgeNfc.remove h b in (r, AndroidBridge b')
  end.

Definition impl_removeAllListeners (p : NfcPlugin)
  : Completion unit * NfcPlugin :=
  match p with
  | Web w => let '(r, w') := WebNfc.removeAllListeners w in (r, Web w')
  | IosBridge b =>
      let '(r, b') := IosBridgeNfc.removeAllListeners b in (r, IosBridge b')
  | AndroidBridge b =>
      let '(r, b') := AndroidBridgeNfc.removeAllListeners b in
      (r, AndroidBridge b')
  end.

Definition impl_isEnabled (pf : Platform) (p : NfcPlugin)
  : Completion IsEnabledResult * NfcPlugin :=
  match p with
  | Web w => let '(r, w') := WebNfc.isEnabled w in (r, Web w')
  | IosBridge b =>
      let '(r, b') := IosBridgeNfc.isEnabled (native_enabled pf) b in
      (r, IosBridge b')
  | AndroidBridge b =>
      let '(r, b') := AndroidBridgeNfc.isEnabled (native_enabled pf) b in
      (r, AndroidBridge b')
  end.

Definition impl_startScanSession (options : option StartScanSessionOptions)
    (pf : Platform) (p : NfcPlugin) : Completion unit * NfcPlugin :=
  match p with
  | Web w =>
      let '(r, w') := WebNfc.startScanSession options (scan pf) w in
      (r, Web w')
  | IosBridge b =>
      let '(r, b') := IosBridgeNfc.startScanSession options (native pf) b in
      (r, IosBridge b')
  | AndroidBridge b =>
      let '(r, b') :=
        AndroidBridgeNfc.startScanSession options (native pf) b in
      (r, AndroidBridge b')
  end.

Definition impl_stopScanSession (pf : Platform) (p : NfcPlugin)
  : Completion unit * NfcPlugin :=
  match p with
  | Web w => let '(r, w') := WebNfc.stopScanSession (abort pf) w in (r, Web w')
  | IosBridge b =>
      let '(r, b') := IosBridgeNfc.stopScanSession (native pf) b in
      (r, IosBridge b')
  | AndroidBridge b =>
      let '(r, b') := AndroidBridgeNfc.stopScanSession (native pf) b in
      (r, AndroidBridge b')
  end.

Definition impl_listeners (p : NfcPlugin) : gmap string (list Callback) :=
  match p with
  | Web w => WebNfc.listeners w
  | IosBridge b => IosBridgeNfc.listeners b
  | AndroidBridge b => AndroidBridgeNfc.listeners b
  end.

(** *** The methods of the class *)

(** [this.androidInfo.useNativeBridge].  The field holds the object built by
    [AndroidDetection.getAndroidSupportInfo], whose properties are
    [isAndroid], [version], [supportsNfc] and [supportsWebNfc]; reading any
    other property of it yields [undefined]. *)
Definition androidInfo_useNativeBridge
    (info : AndroidDetection.AndroidSupportInfo) : option bool := None.

(** [monitorNfcStatus], up to its [await]: the backend's [addListener]
    has run. *)
Definition monitorNfcStatus (s : t) : t :=
  set_implementation
    (snd (impl_addListener "nfcStatusChanged" StatusMonitor
            (implementation s))) s.

(** The constructor. *)
Definition new (w : Window.t) : t :=
  let iosInfo := IosDetection.getIosSupportInfo (Window.userAgent w) in
  let androidInfo :=
    AndroidDetection.getAndroidSupportInfo (Window.userAgent w) in
  let implementation :=
    if IosDetection.isIos iosInfo
       && bool_decide (Window.nativeNfcBridge w <> None)
    then IosBridge (IosBridgeNfc.new w)
    else if AndroidDetection.isAndroid androidInfo
            && default false (androidInfo_useNativeBridge androidInfo)
    then AndroidBridge (AndroidBridgeNfc.new w)
    else Web (WebNfc.new w) in
  monitorNfcStatus
    {| implementation := implementation; listeners := ∅;
       iosInfo := iosInfo; androidInfo := androidInfo |}.

(** [notifyListeners]: every member of the set is called inside its own
    [try]; a member that throws does not stop the loop. *)
Definition notifyListeners (listeners : gmap string (list Callback))
    (eventName : string) (data : Payload) : list Invocation :=
  match listeners !! eventName with
  | Some fs => flat_map (fun f => fst (call no_monitor f data)) fs
  | None => []
  end.

(** What the arrow function of [monitorNfcStatus] does when the backend
    calls it. *)
Definition monitor (s : t) : Payload -> list Invocation :=
  notifyListeners (listeners s) "nfcStatusChanged".

Definition isEnabled (pf : Platform) (s : t)
  : Completion IsEnabledResult * t :=
  let '(r, p') := impl_isEnabled pf (implementation s) in
  match r with
  | Resolved result => (Resolved result, set_implementation p' s)
  | Rejected _ => (Resolved {| enabled := false |}, set_implementation p' s)
  end.

(** [error.message?.includes(needle)] *)
Definition message_includes (needle : string) (error : JsError.t) : bool :=
  match JsError.message error with
  | Some m => Js.includes needle m
  | None => false
  end.

(** The [code] that the [catch] clause of [startScanSession] assigns. *)
Definition codeFor (error : JsError.t) : NfcErrorType :=
  if message_includes "not supported" error
     || bool_decide (JsError.name error = Some "NotSupportedError")
  then NOT_SUPPORTED
  else if message_includes "permission" error
          || bool_decide (JsError.name error = Some "NotAllowedError")
  then PERMISSION_DENIED
  else if message_includes "not enabled" error then NOT_ENABLED
  else UNEXPECTED_ERROR.

(** The [catch] clause of [startScanSession]. *)
Definition nfcError (error : JsError.t) : JsError.t :=
  {| JsError.name := Some "Error";
     JsError.message :=
       Some (Js.opt_or_else (JsError.message error)
               "Failed to start NFC scan");
     JsError.code := Some (codeFor error) |}.

Definition startScanSession (options : option StartScanSessionOptions)
    (pf : Platform) (s : t) : Completion unit * t :=
  let '(r, p') := impl_startScanSession options pf (implementation s) in
  match r with
  | Resolved _ => (Resolved tt, set_implementation p' s)
  | Rejected error => (Rejected (nfcError error), set_implementation p' s)
  end.

Definition stopScanSession (pf : Platform) (s : t) : Completion unit * t :=
  let '(r, p') := impl_stopScanSession pf (implementation s) in
  (r, set_implementation p' s).

Definition addListener (eventName : string) (listenerFunc : Callback)
    (s : t) : Completion PluginListenerHandle * t :=
  let registry :=
    <[eventName :=
        set_add listenerFunc (default [] (listeners s !! eventName))]>
      (listeners s) in
  let '(r, p') :=
    impl_addListener eventName listenerFunc (implementation s) in
  let s' := set_implementation p' (set_listeners registry s) in
  match r with
  | Resolved _ =>
      (Resolved {| h_eventName := eventName;
                   h_listenerFunc := listenerFunc |}, s')
  | Rejected e => (Rejected e, s')
  end.

(** [remove] of the handle that [addListener] returns. *)
Definition remove (h : PluginListenerHandle) (s : t) : Completion unit * t :=
  let registry :=
    match listeners s !! h_eventName h with
    | Some fs =>
        <[h_eventName h := set_delete (h_listenerFunc h) fs]> (listeners s)
    | None => listeners s
    end in
  let '(r, p') := impl_remove h (implementation s) in
  (r, set_implementation p' (set_listeners registry s)).

Definition removeAllListeners (s : t) : Completion unit * t :=
  let '(r, p') := impl_removeAllListeners (implementation s) in
  (r, set_implementation p' (set_listeners ∅ s)).

(** *** Events reaching the bound backend *)

(** A ["message"] event on [window]. *)
Definition onMessage (event : MessageEvent) (s : t) : t * list Invocation :=
  match implementation s with
  | Web _ => (s, [])
  | IosBridge b =>
      let '(b', trace) := IosBridgeNfc.onMessage (monitor s) event b in
      (set_implementation (IosBridge b') s, trace)
  | AndroidBridge b =>
      let '(b', trace) := AndroidBridgeNfc.onMessage (monitor s) event b in
      (set_implementation (AndroidBridge b') s, trace)
  end.

(** A ["reading"] event of a reader started by the radio backend. *)
Definition onReading (abort : CallOutcome) (event : WebNfc.NDEFReadingEvent)
    (s : t) : t * list Invocation :=
  match implementation s with
  | Web w =>
      let '(w', trace) := WebNfc.onReading (monitor s) abort event w in
      (set_implementation (Web w') s, trace)
  | _ => (s, [])
  end.

(** *** The methods that only forward *)

(** [radio] is what the platform does for the radio backend, [native] how
    the promise of the bridge function settles. *)
Definition write (options : WriteOptions) (radio : WebNfc.WriteOutcome)
    (native : Completion unit) (s : t) : Completion unit * t :=
  match implementation s with
  | Web w =>
      let '(r, w') := WebNfc.write options radio w in
      (r, set_implementation (Web w') s)
  | IosBridge b =>
      let '(r, b') := IosBridgeNfc.write native b in
      (r, set_implementation (IosBridge b') s)
  | AndroidBridge b =>
      let '(r, b') := AndroidBridgeNfc.write native b in
      (r, set_implementation (AndroidBridge b') s)
  end.

Definition makeReadOnly (native : Completion unit) (s : t)
  : Completion unit * t :=
  match implementation s with
  | Web w =>
      let '(r, w') := WebNfc.makeReadOnly w in
      (r, set_implementation (Web w') s)
  | IosBridge b =>
      let '(r, b') := IosBridgeNfc.makeReadOnly b in
      (r, set_implementation (IosBridge b') s)
  | AndroidBridge b =>
      let '(r, b') := AndroidBridgeNfc.makeReadOnly native b in
      (r, set_implementation (AndroidBridge b') s)
  end.

Definition format (radio : WebNfc.WriteOutcome) (native : Completion unit)
    (s : t) : Completion unit * t :=
  match implementation s with
  | Web w =>
      let '(r, w') := WebNfc.format radio w in
      (r, set_implementation (Web w') s)
  | IosBridge b =>
      let '(r, b') := IosBridgeNfc.format b in
      (r, set_implementation (IosBridge b') s)
  | AndroidBridge b =>
      let '(r, b') := AndroidBridgeNfc.format native b in
      (r, set_implementation (AndroidBridge b') s)
  end.

Definition erase (radio : WebNfc.WriteOutcome) (native : Completion unit)
    (s : t) : Completion unit * t :=
  match implementation s with
  | Web w =>
      let '(r, w') := WebNfc.erase radio w in
      (r, set_implementation (Web w') s)
  | IosBridge b =>
      let '(r, b') := IosBridgeNfc.erase b in
      (r, set_implementation (IosBridge b') s)
  | AndroidBridge b =>
      let '(r, b') := AndroidBridgeNfc.erase native b in
      (r, set_implementation (AndroidBridge b') s)
  end.

Definition share (native : Completion unit) (s : t) : Completion unit * t :=
  match implementation s with
  | Web w =>
      let '(r, w') := WebNfc.share w in (r, set_implementation (Web w') s)
  | IosBridge b =>
      let '(r, b') := IosBridgeNfc.share b in
      (r, set_implementation (IosBridge b') s)
  | AndroidBridge b =>
      let '(r, b') := AndroidBridgeNfc.share native b in
      (r, set_implementation (AndroidBridge b') s)
  end.

Definition stopSharing (native : Completion unit) (s : t)
  : Completion unit * t :=
  match implementation s with
  | Web w =>
      let '(r, w') := WebNfc.stopSharing w in
      (r, set_implementation (Web w') s)
  | IosBridge b =>
      let '(r, b') := IosBridgeNfc.stopSharing b in
      (r, set_implementation (IosBridge b') s)
  | AndroidBridge b =>
      let '(r, b') := AndroidBridgeNfc.stopSharing native b in
      (r, set_implementation (AndroidBridge b') s)
  end.

End Nfc.

(** ** utils.ts *)

Module NfcUtils.

(** [createTextRecord(text, languageCode = "en")]; [None] is an argument
    that is omitted or [undefined]. *)
Definition createTextRecord (text : string) (languageCode : option string)
  : NdefRecord.t :=
  {| NdefRecord.id := "";
     NdefRecord.tnf := NfcTnf.WELL_KNOWN;
     NdefRecord.type := NfcRtd.TEXT;
     NdefRecord.payload := Some text;
     NdefRecord.languageCode := Some (default "en" languageCode);
     NdefRecord.uri := None;
     NdefRecord.text := Some text |}.

Definition createUriRecord (uri : string) : NdefRecord.t :=
  {| NdefRecord.id := "";
     NdefRecord.tnf := NfcTnf.WELL_KNOWN;
     NdefRecord.type := NfcRtd.URI;
     NdefRecord.payload := Some uri;
     NdefRecord.languageCode := None;
     NdefRecord.uri := Some uri;
     NdefRecord.text := None |}.

Definition createMessage (records : list NdefRecord.t) : NdefMessage :=
  {| records := records |}.

(** The body of the inner loop of [getTextFromTag]: what one record makes
    the function return, if anything. *)
Definition textOfRecord (record : NdefRecord.t) : option string :=
  if Js.truthy (NdefRecord.text record) then NdefRecord.text record
  else if (String.eqb (NdefRecord.type record) "T"
           || String.eqb (NdefRecord.type record) "text")
          && Js.truthy (NdefRecord.payload record)
  then NdefRecord.payload record
  else None.

(** The body of the inner loop of [getUrlFromTag]. *)
Definition urlOfRecord (record : NdefRecord.t) : option string :=
  if Js.truthy (NdefRecord.uri record) then NdefRecord.uri record
  else if (String.eqb (NdefRecord.type record) "U"
           || String.eqb (NdefRecord.type record) "url")
          && Js.truthy (NdefRecord.payload record)
  then NdefRecord.payload record
  else None.

(** The two nested loops: the first record, in message order and then in
    record order, for which [pick] returns something. *)
Fixpoint firstOfRecords (pick : NdefRecord.t -> option string)
    (rs : list NdefRecord.t) : option string :=
  match rs with
  | [] => None
  | r :: rs' =>
      match pick r with
      | Some x => Some x
      | None => firstOfRecords pick rs'
      end
  end.

Fixpoint firstOfMessages (pick : NdefRecord.t -> option string)
    (ms : list NdefMessage) : option string :=
  match ms with
  | [] => None
  | m :: ms' =>
      match firstOfRecords pick (records m) with
      | Some x => Some x
      | None => firstOfMessages pick ms'
      end
  end.

(** [None] is [null]. *)
Definition getTextFromTag (messages : list NdefMessage) : option string :=
  firstOfMessages textOfRecord messages.

Definition getUrlFromTag (messages : list NdefMessage) : option string :=
  firstOfMessages urlOfRecord messages.

Definition isWebNfcSupported (w : Window.t) : bool := Window.NDEFReader w.

Definition isNfcLikelyAvailable (userAgent : string) : bool :=
  Js.test_i "android" userAgent.

End NfcUtils.

(** ** simple.ts *)

Module SimpleNfc.

(** The call [this.scanCallback?.(content, type)] that the listener of
    [startReading] makes for a tag, as the pair of its arguments. *)
Definition tagListener (tag : TagDetectedEvent.t) : string * string :=
  let messages := TagDetectedEvent.messages tag in
  match NfcUtils.getUrlFromTag messages with
  | Some (String _ _ as url) => (url, "url")
  | _ =>
      match NfcUtils.getTextFromTag messages with
      | Some (String _ _ as text) => (text, "text")
      | _ =>
          match messages with
          | {| records := firstRecord :: _ |} :: _ =>
              (Js.opt_or_else (NdefRecord.payload firstRecord)
                 "Unknown content", "other")
          | _ => ("Empty tag", "other")
          end
      end
  end.

(** The argument that [writeText] passes to [Nfc.write]. *)
Definition writeText (text : string) : WriteOptions :=
  {| message :=
       {| records := [NfcUtils.createTextRecord text None] |} |}.

(** The argument that [writeUrl] passes to [Nfc.write]. *)
Definition writeUrl (url : string) : WriteOptions :=
  {| message := {| records := [NfcUtils.createUriRecord url] |} |}.

(** [isAvailable] on a facade. *)
Definition isAvailable (pf : Nfc.Platform) (nfc : Nfc.t)
  : Completion bool * Nfc.t :=
  match Nfc.isEnabled pf nfc with
  | (Resolved result, nfc') => (Resolved (enabled result), nfc')
  | (Rejected _, nfc') => (Resolved false, nfc')
  end.

End SimpleNfc.

(** * Vocabulary of the properties *)

(** An Android WebView into which the host has injected a complete
    [nativeAndroidNfcBridge], and no [nativeNfcBridge]. *)
Definition android_webview : Window.t :=
  {| Window.userAgent :=
       "Mozilla/5.0 (Linux; Android 10; Pixel 4 Build/QQ3A.200805.001; wv) AppleWebKit/537.36 (KHTML, like Gecko) Version/4.0 Chrome/90.0.4430.91 Mobile Safari/537.36";
     Window.nativeNfcBridge := None;
     Window.nativeAndroidNfcBridge :=
       Some (NativeAndroidBridge.Build_t true true true true true true true
               true true true);
     Window.NDEFReader := false |}.

(** A field of a record holds the content [c], or holds nothing: it is absent
    or the empty string. *)
Definition carries (field : option string) (c : string) : Prop :=
  field = None \/ field = Some "" \/ field = Some c.

(** A well-formed text record with content [c]: its type is ["T"], [c] is not
    empty, and [payload] and [text] hold [c] where they hold anything, one of
    them at least holding it (so does every record built by
    [NfcUtils.createTextRecord]). *)
Definition well_formed_text (r : NdefRecord.t) (c : string) : Prop :=
  NdefRecord.type r = NfcRtd.TEXT
  /\ c <> ""
  /\ carries (NdefRecord.payload r) c
  /\ carries (NdefRecord.text r) c
  /\ (NdefRecord.payload r = Some c \/ NdefRecord.text r = Some c).

(** The write-path mapping followed by the read-path mapping. *)
Definition round_trip (r : NdefRecord.t) : NdefRecord.t :=
  WebNfc.toUnifiedRecord (WebNfc.read_back (WebNfc.fromUnifiedRecord r)).

(** The situations in which the bound backend cannot determine availability:
    the radio backend on an iOS device or without the reader constructor, a
    bridge backend whose bridge object is missing or incomplete, or whose
    [isNfcEnabled] call fails. *)
Definition undetermined (pf : Nfc.Platform) (p : Nfc.NfcPlugin) : Prop :=
  match p with
  | Nfc.Web w =>
      IosDetection.isIos (WebNfc.iosInfo w) = true
      \/ WebNfc.nfcSupported w = false
  | Nfc.IosBridge b =>
      IosBridgeNfc.isBridgeAvailable b = false
      \/ exists e, Nfc.native_enabled pf = Rejected e
  | Nfc.AndroidBridge b =>
      AndroidBridgeNfc.isBridgeAvailable b = false
      \/ exists e, Nfc.native_enabled pf = Rejected e
  end.

(** A desktop browser without the reader constructor and without bridges. *)
Definition desktop : Window.t :=
  {| Window.userAgent :=
       "Mozilla/5.0 (X11; Linux x86_64) AppleWebKit/537.36 (KHTML, like Gecko) Chrome/120.0.0.0 Safari/537.36";
     Window.nativeNfcBridge := None;
     Window.nativeAndroidNfcBridge := None;
     Window.NDEFReader := false |}.

(** A platform on which every call fails. *)
Definition failing_platform : Nfc.Platform :=
  {| Nfc.scan := WebNfc.ConstructorThrows (new_Error "NDEFReader is not defined");
     Nfc.abort := Throws (new_Error "abort failed");
     Nfc.native_enabled := Rejected (new_Error "bridge failure");
     Nfc.native := Rejected (new_Error "bridge failure") |}.

(** One call of a method of a [WebNfc] object, or one reading event. *)
Inductive WebNfc_step : WebNfc.t -> WebNfc.t -> Prop :=
  | step_isEnabled s :
      WebNfc_step s (snd (WebNfc.isEnabled s))
  | step_startScanSession options platform s :
      WebNfc_step s (snd (WebNfc.startScanSession options platform s))
  | step_stopScanSession abort s :
      WebNfc_step s (snd (WebNfc.stopScanSession abort s))
  | step_onReading monitor abort event s :
      WebNfc_step s (fst (WebNfc.onReading monitor abort event s))
  | step_addListener eventName f s :
      WebNfc_step s (snd (WebNfc.addListener eventName f s))
  | step_remove h s :
      WebNfc_step s (snd (WebNfc.remove h s))
  | step_removeAllListeners s :
      WebNfc_step s (snd (WebNfc.removeAllListeners s)).

(** The states a [WebNfc] object goes through after its construction. *)
Inductive WebNfc_reachable : WebNfc.t -> Prop :=
  | reachable_new w : WebNfc_reachable (WebNfc.new w)
  | reachable_step s s' :
      WebNfc_reachable s -> WebNfc_step s s' -> WebNfc_reachable s'.

(** [startScanSession] gets past its two guards. *)
Definition can_scan (s : WebNfc.t) : bool :=
  negb (IosDetection.isIos (WebNfc.iosInfo s)) && WebNfc.nfcSupported s.

(** A session is active only on an object that can scan. *)
Definition active_implies_can_scan (s : WebNfc.t) : Prop :=
  WebNfc.scanSessionActive s = true -> can_scan s = true.

(** Chrome on an Android phone, with the reader constructor. *)
Definition chrome_android : Window.t :=
  {| Window.userAgent :=
       "Mozilla/5.0 (Linux; Android 13; Pixel 7) AppleWebKit/537.36 (KHTML, like Gecko) Chrome/120.0.0.0 Mobile Safari/537.36";
     Window.nativeNfcBridge := None;
     Window.nativeAndroidNfcBridge := None;
     Window.NDEFReader := true |}.

Definition once_true : option StartScanSessionOptions :=
  Some {| once := Some true; scanSoundEnabled := None;
          alertMessageEnabled := None |}.

Definition reader (n : nat) : WebNfc.NDEFReaderObj :=
  {| WebNfc.instance := n; WebNfc.has_abort := false |}.

(** A tag that carries one text record. *)
Definition hello_reading : WebNfc.NDEFReadingEvent :=
  {| WebNfc.serialNumber := Some "04:a2:2c:1b";
     WebNfc.message :=
       Some [ {| WebNfc.recordType := "text"; WebNfc.data := Some "hello";
                 WebNfc.lang := Some "en" |} ] |}.

(** A radio backend with one [tagDetected] listener and a running session. *)
Definition scanning (f : Callback) : WebNfc.t :=
  snd (WebNfc.startScanSession None (WebNfc.ScanResolves (reader 1))
         (snd (WebNfc.addListener "tagDetected" f (WebNfc.new chrome_android)))).

(** The scenario of C6 for a session whose single [tagDetected] listener is
    [f]: the session is started with [once: true]; the first reading event
    calls [f] once and leaves the session inactive; a later reading event
    does not call [f]. *)
Definition once_session_holds (f : Callback) : Prop :=
  forall (s : WebNfc.t) (options : StartScanSessionOptions)
         (r : WebNfc.NDEFReaderObj) (monitor : Payload -> list Invocation)
         (abort1 abort2 : CallOutcome)
         (event1 event2 : WebNfc.NDEFReadingEvent),
    Registry.get "tagDetected" (WebNfc.listeners s) = [f] ->
    once options = Some true ->
    fst (WebNfc.startScanSession (Some options) (WebNfc.ScanResolves r) s)
    = Resolved tt ->
    let started :=
      snd (WebNfc.startScanSession (Some options) (WebNfc.ScanResolves r) s) in
    let first := WebNfc.onReading monitor abort1 event1 started in
    let later := WebNfc.onReading monitor abort2 event2 (fst first) in
    calls_of f (snd first) = 1
    /\ WebNfc.scanSessionActive (fst first) = false
    /\ calls_of f (snd later) = 0.

(** An iOS WebView into which the host has injected a complete bridge. *)
Definition ios_webview : Window.t :=
  {| Window.userAgent :=
       "Mozilla/5.0 (iPhone; CPU iPhone OS 16_5 like Mac OS X) AppleWebKit/605.1.15 (KHTML, like Gecko) Mobile/15E148";
     Window.nativeNfcBridge :=
       Some (NativeIosBridge.Build_t true true true true true);
     Window.nativeAndroidNfcBridge := None;
     Window.NDEFReader := false |}.

(** The event name under which a payload is dispatched. *)
Definition event_of (p : Payload) : string :=
  match p with
  | TagPayload _ => "tagDetected"
  | StatusPayload _ => "nfcStatusChanged"
  end.

(** [f] was called in [trace] for an event named [eventName]. *)
Definition called_for (eventName : string) (f : Callback)
    (trace : list Invocation) : Prop :=
  exists i, i ∈ trace /\ callee i = f /\ event_of (argument i) = eventName.

(** The members of the facade's [Set] for an event name. *)
Definition facade_set (eventName : string) (s : Nfc.t) : list Callback :=
  default [] (Nfc.listeners s !! eventName).

(** The bound backend's array for an event name. *)
Definition backend_list (eventName : string) (s : Nfc.t) : list Callback :=
  Registry.get eventName (Nfc.impl_listeners (Nfc.implementation s)).

(** One call of a public method of the facade with a function of the
    caller's, one call of a handle's [remove], or one event. *)
Inductive Nfc_step : Nfc.t -> Nfc.t -> Prop :=
  | nfc_isEnabled pf s :
      Nfc_step s (snd (Nfc.isEnabled pf s))
  | nfc_startScanSession options pf s :
      Nfc_step s (snd (Nfc.startScanSession options pf s))
  | nfc_stopScanSession pf s :
      Nfc_step s (snd (Nfc.stopScanSession pf s))
  | nfc_addListener e ident throws s :
      Nfc_step s (snd (Nfc.addListener e (UserFn ident throws) s))
  | nfc_remove h s :
      Nfc_step s (snd (Nfc.remove h s))
  | nfc_removeAllListeners s :
      Nfc_step s (snd (Nfc.removeAllListeners s))
  | nfc_onMessage event s :
      Nfc_step s (fst (Nfc.onMessage event s))
  | nfc_onReading abort event s :
      Nfc_step s (fst (Nfc.onReading abort event s)).

Inductive Nfc_reachable : Nfc.t -> Prop :=
  | nfc_reachable_new w : Nfc_reachable (Nfc.new w)
  | nfc_reachable_step s s' :
      Nfc_reachable s -> Nfc_step s s' -> Nfc_reachable s'.

(** The arrow function of [monitorNfcStatus] is registered with the backend
    for [nfcStatusChanged] only. *)
Definition wired (s : Nfc.t) : Prop :=
  StatusMonitor ∉ backend_list "tagDetected" s.

(** A message by which the native host reports a tag. *)
Definition tag_message : MessageEvent :=
  {| msg_data :=
       Some {| msg_type := "nfcTagDetected";
               msg_tag :=
                 Some {| TagDetectedEvent.id := "04:a2:2c:1b";
                         TagDetectedEvent.techTypes := ["ndef"];
                         TagDetectedEvent.messages := [] |};
               msg_enabled := None |} |}.

(** A well-formed URI record with content [u], in the sense of
    [well_formed_text]. *)
Definition well_formed_uri (r : NdefRecord.t) (u : string) : Prop :=
  NdefRecord.type r = NfcRtd.URI
  /\ u <> ""
  /\ carries (NdefRecord.payload r) u
  /\ carries (NdefRecord.uri r) u
  /\ (NdefRecord.payload r = Some u \/ NdefRecord.uri r = Some u).

(** A reading event that carries, in their order, the records [inits] that
    the write path handed to [NDEFReader.write]. *)
Definition read_back_event (serial : option string)
    (inits : list WebNfc.NDEFRecordInit) : WebNfc.NDEFReadingEvent :=
  {| WebNfc.serialNumber := serial;
     WebNfc.message := Some (map WebNfc.read_back inits) |}.

(** What the radio backend reports for a reading event that carries the
    records written with [options]. *)
Definition written_then_read (serial : option string) (options : WriteOptions)
  : TagDetectedEvent.t :=
  WebNfc.parseNdefReading
    (read_back_event serial (WebNfc.writeRecords options)).

(** [s] consists of decimal digits. *)
Fixpoint digits (s : string) : bool :=
  match s with
  | EmptyString => true
  | String c s' => Js.is_digit c && digits s'
  end.

(** What follows a version number without a minor part: neither a digit nor
    a dot with a digit after it. *)
Definition ends_version (post : string) : bool :=
  match post with
  | String "." r => negb (Js.starts_with_digit r)
  | _ => negb (Js.starts_with_digit post)
  end.

(** A function of the caller's that returns normally. *)
Definition returning (f : Callback) : Prop := exists n, f = UserFn n false.

(** A function of the caller's, returning or throwing. *)
Definition user_function (f : Callback) : Prop :=
  exists n throws, f = UserFn n throws.

(** One call of each member of [ls], in order, with the same argument. *)
Definition invocations (ls : list Callback) (data : Payload)
  : list Invocation :=
  map (fun f => {| callee := f; argument := data |}) ls.

(** The message by which a native host reports the tag [tag]. *)
Definition tag_detected (tag : TagDetectedEvent.t) : MessageEvent :=
  {| msg_data :=
       Some {| msg_type := "nfcTagDetected"; msg_tag := Some tag;
               msg_enabled := None |} |}.

(** The message by which a native host reports a status change. *)
Definition status_changed (enabled : bool) : MessageEvent :=
  {| msg_data :=
       Some {| msg_type := "nfcStatusChanged"; msg_tag := None;
               msg_enabled := Some enabled |} |}.

(** One call of a method of the facade, among them those that only forward,
    or one event. *)
Inductive Nfc_call : Nfc.t -> Nfc.t -> Prop :=
  | call_step s s' : Nfc_step s s' -> Nfc_call s s'
  | call_write options radio native s :
      Nfc_call s (snd (Nfc.write options radio native s))
  | call_makeReadOnly native s :
      Nfc_call s (snd (Nfc.makeReadOnly native s))
  | call_format radio native s :
      Nfc_call s (snd (Nfc.format radio native s))
  | call_erase radio native s :
      Nfc_call s (snd (Nfc.erase radio native s))
  | call_share native s :
      Nfc_call s (snd (Nfc.share native s))
  | call_stopSharing native s :
      Nfc_call s (snd (Nfc.stopSharing native s)).

(** Whether the bound backend can reach NFC at all, as it found out in its
    constructor. *)
Definition availability (p : Nfc.NfcPlugin) : bool :=
  match p with
  | Nfc.Web w => can_scan w
  | Nfc.IosBridge b => IosBridgeNfc.isBridgeAvailable b
  | Nfc.AndroidBridge b => AndroidBridgeNfc.isBridgeAvailable b
  end.

(** The two registries hold the same functions of the caller's: what is in
    the facade's set for an event is in the backend's array for it, and what
    is in the backend's array is in the facade's set, the status monitor
    apart. *)
Definition registries_agree (s : Nfc.t) : Prop :=
  forall (e : string) (x : Callback),
    (x ∈ facade_set e s -> x ∈ backend_list e s)
    /\ (x ∈ backend_list e s ->
        x ∈ facade_set e s \/ (x = StatusMonitor /\ e = "nfcStatusChanged")).

(** A text that the decoder gives back as it is: the UTF-8 encoding of a
    string of Unicode scalar values that does not begin with U+FEFF. *)
Definition kept_by_decoder (c : string) : Prop :=
  Js.well_formed_utf8 c = true /\ Js.startsWith Js.byte_order_mark c = false.

(** The record [r'] has the content of the written record [r]: a well-formed
    text record is matched by a record of native type ["text"] with the same
    text, a well-formed URI record by one of native type ["url"] with the
    same URI. *)
Definition same_content (r r' : NdefRecord.t) : Prop :=
  exists c,
    NdefRecord.payload r' = Some c
    /\ ((well_formed_text r c /\ NdefRecord.type r' = "text"
         /\ NdefRecord.text r' = Some c)
        \/ (well_formed_uri r c /\ NdefRecord.type r' = "url"
            /\ NdefRecord.uri r' = Some c)).

(** The scenario of C6 as it goes for a session whose single [tagDetected]
    listener [f] throws: the first reading event calls [f] once and leaves
    the session active, and a later reading event calls [f] once more. *)
Definition once_session_goes_on (f : Callback) : Prop :=
  forall (s : WebNfc.t) (options : StartScanSessionOptions)
         (r : WebNfc.NDEFReaderObj) (monitor : Payload -> list Invocation)
         (abort1 abort2 : CallOutcome)
         (event1 event2 : WebNfc.NDEFReadingEvent),
    Registry.get "tagDetected" (WebNfc.listeners s) = [f] ->
    once options = Some true ->
    fst (WebNfc.startScanSession (Some options) (WebNfc.ScanResolves r) s)
    = Resolved tt ->
    let started :=
      snd (WebNfc.startScanSession (Some options) (WebNfc.ScanResolves r) s) in
    let first := WebNfc.onReading monitor abort1 event1 started in
    let later := WebNfc.onReading monitor abort2 event2 (fst first) in
    calls_of f (snd first) = 1
    /\ WebNfc.scanSessionActive (fst first) = true
    /\ calls_of f (snd later) = 1.

(** The event names for which [addListener] is declared. *)
Definition declared_event (eventName : string) : Prop :=
  eventName = "nfcStatusChanged" \/ eventName = "tagDetected".

(** One call of a public method of the facade as its declarations allow it,
    that is with a declared event name, or one event. *)
Inductive Nfc_typed_step : Nfc.t -> Nfc.t -> Prop :=
  | typed_isEnabled pf s :
      Nfc_typed_step s (snd (Nfc.isEnabled pf s))
  | typed_startScanSession options pf s :
      Nfc_typed_step s (snd (Nfc.startScanSession options pf s))
  | typed_stopScanSession pf s :
      Nfc_typed_step s (snd (Nfc.stopScanSession pf s))
  | typed_addListener e ident throws s :
      declared_event e ->
      Nfc_typed_step s (snd (Nfc.addListener e (UserFn ident throws) s))
  | typed_remove h s :
      declared_event (h_eventName h) ->
      Nfc_typed_step s (snd (Nfc.remove h s))
  | typed_removeAllListeners s :
      Nfc_typed_step s (snd (Nfc.removeAllListeners s))
  | typed_onMessage event s :
      Nfc_typed_step s (fst (Nfc.onMessage event s))
  | typed_onReading abort event s :
      Nfc_typed_step s (fst (Nfc.onReading abort event s)).

(** One call of a method of the facade as its declarations allow it, among
    them the methods that only forward, or one event. *)
Inductive Nfc_typed_call : Nfc.t -> Nfc.t -> Prop :=
  | typed_call_step s s' : Nfc_typed_step s s' -> Nfc_typed_call s s'
  | typed_write options radio native s :
      Nfc_typed_call s (snd (Nfc.write options radio native s))
  | typed_makeReadOnly native s :
      Nfc_typed_call s (snd (Nfc.makeReadOnly native s))
  | typed_format radio native s :
      Nfc_typed_call s (snd (Nfc.format radio native s))
  | typed_erase radio native s :
      Nfc_typed_call s (snd (Nfc.erase radio native s))
  | typed_share native s :
      Nfc_typed_call s (snd (Nfc.share native s))
  | typed_stopSharing native s :
      Nfc_typed_call s (snd (Nfc.stopSharing native s)).

(** The states a facade goes through when it is used as declared. *)
Inductive Nfc_typed_reachable : Nfc.t -> Prop :=
  | typed_reachable_new w : Nfc_typed_reachable (Nfc.new w)
  | typed_reachable_call s s' :
      Nfc_typed_reachable s -> Nfc_typed_call s s' -> Nfc_typed_reachable s'.

(** * Properties *)

(** ** Strings and regular expressions *)

Section RegexFacts.

Context {A : Type} (m : string -> option A).

Lemma regex_search_skip (pre rest : string) :
  Js.no_match_in m pre rest = true ->
  Js.regex_search m (pre +:+ rest) = Js.regex_search m rest.
Proof.
  induction pre as [|c pre IH]; intros H; [reflexivity|].
  simpl in H. change (String c pre +:+ rest) with (String c (pre +:+ rest)) in *.
  simpl. destruct (m (String c (pre +:+ rest))); [discriminate|].
  apply IH, H.
Qed.

Lemma regex_search_here (s : string) (x : A) :
  m s = Some x -> Js.regex_search m s = Some x.
Proof. intros H. destruct s; simpl; rewrite H; reflexivity. Qed.

End RegexFacts.

Lemma lowercase_app (a b : string) :
  Js.lowercase (a +:+ b) = Js.lowercase a +:+ Js.lowercase b.
Proof. induction a as [|c a IH]; simpl; [reflexivity|]. now rewrite IH. Qed.

Lemma includes_app_r (p a b : string) :
  Js.includes p b = true -> Js.includes p (a +:+ b) = true.
Proof.
  intros H. induction a as [|c a IH]; [exact H|].
  change (String c a +:+ b) with (String c (a +:+ b)).
  simpl. rewrite IH. apply orb_true_r.
Qed.

Lemma test_i_app_r (p a b : string) :
  Js.test_i p b = true -> Js.test_i p (a +:+ b) = true.
Proof.
  unfold Js.test_i. intros H. rewrite lowercase_app. now apply includes_app_r.
Qed.

Lemma span_digits_no_digit (s : string) :
  Js.starts_with_digit s = false -> Js.span_digits s = (EmptyString, s).
Proof. destruct s as [|c s]; simpl; [reflexivity|]. now intros ->. Qed.

(** ** Capability detection *)

Lemma android_match_14_2 (post : string) :
  Js.starts_with_digit post = false ->
  AndroidDetection.match_version_at ("Android 14.2" +:+ post)
  = Some ("14", Some "2").
Proof.
  intros H. unfold AndroidDetection.match_version_at.
  cbv [String.append]. simpl.
  rewrite (span_digits_no_digit _ H). reflexivity.
Qed.

Lemma ios_match_14_2_1 (post : string) :
  IosDetection.match_version_at ("OS 14_2_1" +:+ post) = Some ("14", "2").
Proof. reflexivity. Qed.

Lemma android_no_version (ua : string) :
  AndroidDetection.versionMatch ua = None ->
  AndroidDetection.version (AndroidDetection.getAndroidSupportInfo ua) = None
  /\ AndroidDetection.supportsNfc (AndroidDetection.getAndroidSupportInfo ua)
     = false.
Proof.
  intros H. unfold AndroidDetection.getAndroidSupportInfo.
  destruct (negb (Js.test_i "android" ua)); [split; reflexivity|].
  rewrite H. split; reflexivity.
Qed.

Lemma ios_no_version (ua : string) :
  IosDetection.versionMatch ua = None ->
  IosDetection.version (IosDetection.getIosSupportInfo ua) = None
  /\ IosDetection.supportsNfc (IosDetection.getIosSupportInfo ua) = false.
Proof.
  intros H. unfold IosDetection.getIosSupportInfo.
  destruct (negb _); [split; reflexivity|].
  rewrite H. split; reflexivity.
Qed.

(** C9. Version parsing of the two detectors.
    (a) When the first version token of the user agent is [Android 14.2],
    the Android detector reports the platform and the version 14.2.
    (b) When the user agent names an iOS device and its first version token
    is [OS 14_2_1], the iOS detector reports the version 14.2.
    (c), (d) When the platform is detected and the version expression has no
    match, [version] is [null] and [supportsNfc] is [false]. *)
Theorem version_parsing :
  (forall pre post : string,
     Js.no_match_in AndroidDetection.match_version_at pre
       ("Android 14.2" +:+ post) = true ->
     Js.starts_with_digit post = false ->
     let info :=
       AndroidDetection.getAndroidSupportInfo
         (pre +:+ "Android 14.2" +:+ post) in
     AndroidDetection.isAndroid info = true
     /\ exists v, AndroidDetection.version info = Some v /\ (v == 14.2)%Q)
  /\ (forall pre post : string,
        IosDetection.isIos
          (IosDetection.getIosSupportInfo (pre +:+ "OS 14_2_1" +:+ post))
        = true ->
        Js.no_match_in IosDetection.match_version_at pre
          ("OS 14_2_1" +:+ post) = true ->
        exists v,
          IosDetection.version
            (IosDetection.getIosSupportInfo (pre +:+ "OS 14_2_1" +:+ post))
          = Some v /\ (v == 14.2)%Q)
  /\ (forall ua : string,
        AndroidDetection.isAndroid (AndroidDetection.getAndroidSupportInfo ua)
        = true ->
        AndroidDetection.versionMatch ua = None ->
        AndroidDetection.version (AndroidDetection.getAndroidSupportInfo ua)
        = None
        /\ AndroidDetection.supportsNfc
             (AndroidDetection.getAndroidSupportInfo ua) = false)
  /\ (forall ua : string,
        IosDetection.isIos (IosDetection.getIosSupportInfo ua) = true ->
        IosDetection.versionMatch ua = None ->
        IosDetection.version (IosDetection.getIosSupportInfo ua) = None
        /\ IosDetection.supportsNfc (IosDetection.getIosSupportInfo ua)
           = false).
Proof.
  split; [|split; [|split]].
  - intros pre post Hpre Hpost info. subst info.
    unfold AndroidDetection.getAndroidSupportInfo.
    assert (Hand : Js.test_i "android" (pre +:+ "Android 14.2" +:+ post) = true).
    { apply test_i_app_r. reflexivity. }
    rewrite Hand. simpl negb. cbv iota.
    unfold AndroidDetection.versionMatch.
    rewrite (regex_search_skip _ _ _ Hpre).
    rewrite (regex_search_here _ _ _ (android_match_14_2 post Hpost)).
    split; [reflexivity|]. eexists. split; [reflexivity|]. reflexivity.
  - intros pre post Hios Hpre.
    unfold IosDetection.getIosSupportInfo in *.
    destruct (negb _) eqn:E; [discriminate Hios|].
    unfold IosDetection.versionMatch.
    rewrite (regex_search_skip _ _ _ Hpre).
    rewrite (regex_search_here _ _ _ (ios_match_14_2_1 post)).
    eexists. split; [reflexivity|]. reflexivity.
  - intros ua _ H. now apply android_no_version.
  - intros ua _ H. now apply ios_no_version.
Qed.

Lemma version_parsing_witness :
  (let info :=
     AndroidDetection.getAndroidSupportInfo
       ("Mozilla/5.0 (Linux; " +:+ "Android 14.2"
        +:+ "; Pixel 8) AppleWebKit/537.36 Chrome/120.0.0.0 Mobile Safari/537.36") in
   AndroidDetection.isAndroid info = true
   /\ exists v, AndroidDetection.version info = Some v /\ (v == 14.2)%Q)
  /\ (exists v,
        IosDetection.version
          (IosDetection.getIosSupportInfo
             ("Mozilla/5.0 (iPhone; CPU iPhone " +:+ "OS 14_2_1"
              +:+ " like Mac OS X) AppleWebKit/605.1.15 Mobile/15E148"))
        = Some v /\ (v == 14.2)%Q)
  /\ (AndroidDetection.version
        (AndroidDetection.getAndroidSupportInfo
           "Mozilla/5.0 (Linux; Android; Tablet) AppleWebKit/537.36") = None
      /\ AndroidDetection.supportsNfc
           (AndroidDetection.getAndroidSupportInfo
              "Mozilla/5.0 (Linux; Android; Tablet) AppleWebKit/537.36")
         = false)
  /\ (IosDetection.version
        (IosDetection.getIosSupportInfo "Mozilla/5.0 (iPad) AppleWebKit/605.1.15")
      = None
      /\ IosDetection.supportsNfc
           (IosDetection.getIosSupportInfo
              "Mozilla/5.0 (iPad) AppleWebKit/605.1.15") = false).
Proof.
  split; [|split; [|split]].
  - apply (proj1 version_parsing); vm_compute; reflexivity.
  - apply (proj1 (proj2 version_parsing)); vm_compute; reflexivity.
  - apply (proj1 (proj2 (proj2 version_parsing))); vm_compute; reflexivity.
  - apply (proj2 (proj2 (proj2 version_parsing))); vm_compute; reflexivity.
Defined.

(** ** Backend selection *)

Lemma kind_monitorNfcStatus (s : Nfc.t) :
  Nfc.kind (Nfc.implementation (Nfc.monitorNfcStatus s))
  = Nfc.kind (Nfc.implementation s).
Proof. destruct s as [[w|b|b] ? ? ?]; reflexivity. Qed.

(** The first branch of the constructor: an iOS user agent together with an
    injected [nativeNfcBridge] binds the iOS bridge. *)
Lemma new_binds_ios_bridge (w : Window.t) :
  IosDetection.isIos (IosDetection.getIosSupportInfo (Window.userAgent w))
  = true ->
  Window.nativeNfcBridge w <> None ->
  Nfc.kind (Nfc.implementation (Nfc.new w)) = Nfc.IosBridgeKind.
Proof.
  intros Hios Hb. unfold Nfc.new. rewrite kind_monitorNfcStatus. simpl.
  rewrite Hios. rewrite bool_decide_true by exact Hb. reflexivity.
Qed.

(** In every other environment the constructor binds the radio backend: the
    second branch is never taken. *)
Lemma new_otherwise_binds_web (w : Window.t) :
  IosDetection.isIos (IosDetection.getIosSupportInfo (Window.userAgent w))
  = false
  \/ Window.nativeNfcBridge w = None ->
  Nfc.kind (Nfc.implementation (Nfc.new w)) = Nfc.WebKind.
Proof.
  intros H. unfold Nfc.new. rewrite kind_monitorNfcStatus. simpl.
  unfold Nfc.androidInfo_useNativeBridge. simpl.
  rewrite andb_false_r.
  destruct H as [-> | ->]; [reflexivity|].
  rewrite bool_decide_false by (intros H; now apply H).
  rewrite andb_false_r. reflexivity.
Qed.

(** C1. In the Android WebView [android_webview] the detector sees Android
    and [shouldUseNativeBridge] answers [true], no iOS bridge object exists,
    and yet the constructor of the facade binds the radio backend, not the
    Android bridge backend. *)
Theorem new_android_webview_binds_web :
  AndroidDetection.isAndroid
    (AndroidDetection.getAndroidSupportInfo (Window.userAgent android_webview))
  = true
  /\ AndroidDetection.shouldUseNativeBridge (Window.userAgent android_webview)
     = true
  /\ Window.nativeNfcBridge android_webview = None
  /\ Nfc.kind (Nfc.implementation (Nfc.new android_webview)) = Nfc.WebKind.
Proof. repeat split; vm_compute; reflexivity. Qed.

(** ** The record codec of the radio backend *)

(** C2 as stated does not hold: the type ["T"] is classified EXTERNAL_TYPE. *)
Lemma mapRecordTypeToTnf_T_not_well_known :
  ~ (WebNfc.mapRecordTypeToTnf "" = NfcTnf.EMPTY
     /\ WebNfc.mapRecordTypeToTnf "T" = NfcTnf.WELL_KNOWN
     /\ WebNfc.mapRecordTypeToTnf "application/json" = NfcTnf.MIME_MEDIA
     /\ WebNfc.mapRecordTypeToTnf "urn:nfc:ext:example" = NfcTnf.ABSOLUTE_URI
     /\ WebNfc.mapRecordTypeToTnf "example.com:custom" = NfcTnf.EXTERNAL_TYPE).
Proof. intros (_ & H & _). vm_compute in H. discriminate H. Qed.

(** C2, amended. The classification is made on the native record type, whose
    text and URI keywords are ["text"] and ["url"]: these two are WELL_KNOWN,
    the unified short code ["T"] is EXTERNAL_TYPE, and the other listed
    inputs are classified as listed. *)
Theorem mapRecordTypeToTnf_listed_inputs :
  WebNfc.mapRecordTypeToTnf "" = NfcTnf.EMPTY
  /\ WebNfc.mapRecordTypeToTnf "text" = NfcTnf.WELL_KNOWN
  /\ WebNfc.mapRecordTypeToTnf "url" = NfcTnf.WELL_KNOWN
  /\ WebNfc.mapRecordTypeToTnf "T" = NfcTnf.EXTERNAL_TYPE
  /\ WebNfc.mapRecordTypeToTnf "application/json" = NfcTnf.MIME_MEDIA
  /\ WebNfc.mapRecordTypeToTnf "urn:nfc:ext:example" = NfcTnf.ABSOLUTE_URI
  /\ WebNfc.mapRecordTypeToTnf "example.com:custom" = NfcTnf.EXTERNAL_TYPE.
Proof. repeat split; reflexivity. Qed.

Lemma opt_or_else_carried (payload text : option string) (c : string) :
  c <> "" -> carries payload c -> carries text c ->
  payload = Some c \/ text = Some c ->
  Js.opt_or_else payload (Js.opt_or_else text "") = c.
Proof.
  intros Hc [-> | [-> | ->]] [-> | [-> | ->]] Hp; simpl;
    try (destruct c; [congruence | reflexivity]);
    destruct Hp; congruence.
Qed.

Lemma utf8_decode_well_formed (bytes : string) :
  Js.well_formed_utf8 bytes = true -> Js.utf8_decode bytes = bytes.
Proof.
  remember (String.length bytes) as n eqn:Hn.
  revert bytes Hn. induction n as [n IH] using lt_wf_ind.
  intros [|b1 r1] Hn; [reflexivity|].
  assert (Hrec : forall r, (String.length r < n)%nat ->
                 Js.well_formed_utf8 r = true -> Js.utf8_decode r = r).
  { intros r Hlt. exact (IH _ Hlt r eq_refl). }
  subst n. clear IH.
  cbn [Js.well_formed_utf8 Js.utf8_decode String.length] in *.
  destruct (Js.in_range 0 127 b1).
  { intros H. rewrite Hrec by (try lia; exact H). reflexivity. }
  destruct (Js.in_range 194 223 b1).
  { destruct r1 as [|b2 r2]; [discriminate|]. cbn [String.length] in Hrec.
    intros H. apply andb_true_iff in H as [-> H].
    rewrite Hrec by (try lia; exact H). reflexivity. }
  destruct (Js.in_range 224 239 b1).
  { destruct r1 as [|b2 [|b3 r3]]; try discriminate.
    cbn [String.length] in Hrec.
    destruct (Js.second_byte_range b1) as [lo hi].
    intros H. apply andb_true_iff in H as [H H3].
    apply andb_true_iff in H as [-> ->].
    rewrite Hrec by (try lia; exact H3). reflexivity. }
  destruct (Js.in_range 240 244 b1); [|discriminate].
  destruct r1 as [|b2 [|b3 [|b4 r4]]]; try discriminate.
  cbn [String.length] in Hrec.
  destruct (Js.second_byte_range b1) as [lo hi].
  intros H. apply andb_true_iff in H as [H H4].
  apply andb_true_iff in H as [H ->]. apply andb_true_iff in H as [-> ->].
  rewrite Hrec by (try lia; exact H4). reflexivity.
Qed.

Lemma strip_prefix_startsWith (p s : string) :
  Js.startsWith p s = false -> Js.strip_prefix p s = None.
Proof.
  unfold Js.startsWith. revert s.
  induction p as [|a p IH]; intros [|b s]; simpl;
    try discriminate; try reflexivity.
  destruct (ascii_dec a b) as [->|Hne].
  - rewrite Ascii.eqb_refl. apply IH.
  - intros _. apply Ascii.eqb_neq in Hne. now rewrite Hne.
Qed.

(** The decoder gives back a well-formed text without a byte order mark as
    it is. *)
Lemma TextDecoder_decode_kept (c : string) :
  kept_by_decoder c -> Js.TextDecoder_decode c = c.
Proof.
  intros [Hwf Hmark]. unfold Js.TextDecoder_decode.
  rewrite (utf8_decode_well_formed c Hwf).
  now rewrite (strip_prefix_startsWith _ _ Hmark).
Qed.

(** What comes back for a well-formed text record with content [c], whatever
    [c] is. *)
Lemma round_trip_text (r : NdefRecord.t) (c : string) :
  well_formed_text r c ->
  NdefRecord.text (round_trip r) = Some (Js.TextDecoder_decode c)
  /\ NdefRecord.payload (round_trip r) = Some (Js.TextDecoder_decode c)
  /\ NdefRecord.type (round_trip r) = "text"
  /\ (NdefRecord.languageCode r = None ->
      NdefRecord.languageCode (round_trip r) = Some "en").
Proof.
  intros (Ht & Hc & Hp & Hx & Hsome).
  unfold round_trip, WebNfc.fromUnifiedRecord. rewrite Ht.
  cbn [String.eqb Ascii.eqb Bool.eqb NfcRtd.TEXT].
  rewrite (opt_or_else_carried _ _ c Hc Hp Hx Hsome).
  unfold WebNfc.toUnifiedRecord, WebNfc.read_back.
  cbn [WebNfc.recordType WebNfc.data WebNfc.lang WebNfc.init_recordType
         WebNfc.init_data WebNfc.init_lang String.eqb Ascii.eqb Bool.eqb
         NdefRecord.text NdefRecord.payload NdefRecord.type
         NdefRecord.languageCode Js.or_else].
  split; [reflexivity|]. split; [reflexivity|]. split; [reflexivity|].
  intros ->. reflexivity.
Qed.

(** C3 as stated does not hold: the decoder of the read path drops a byte
    order mark at the front of the text, so the record that
    [createTextRecord] makes of U+FEFF followed by ["hello"] comes back with
    the text ["hello"]. *)
Lemma text_record_round_trip_loses_byte_order_mark :
  ~ (forall (r : NdefRecord.t) (c : string),
       well_formed_text r c ->
       NdefRecord.text (round_trip r) = Some c
       /\ NdefRecord.payload (round_trip r) = Some c
       /\ (NdefRecord.languageCode r = None ->
           NdefRecord.languageCode (round_trip r) = Some "en")).
Proof.
  intros H.
  destruct (H (NfcUtils.createTextRecord (Js.byte_order_mark +:+ "hello") None)
              (Js.byte_order_mark +:+ "hello")) as (Htext & _).
  - unfold well_formed_text, carries. simpl.
    split; [reflexivity|]. split; [discriminate|].
    split; [right; right; reflexivity|].
    split; [right; right; reflexivity | left; reflexivity].
  - vm_compute in Htext. discriminate Htext.
Qed.

(** C3, amended. A well-formed text record whose content [c] is well-formed
    Unicode text that does not begin with U+FEFF comes back from the write
    mapping followed by the read mapping with [text] and [payload] both
    equal to [c], and with [languageCode] equal to ["en"] when it had no
    language code. *)
Theorem text_record_round_trip (r : NdefRecord.t) (c : string) :
  well_formed_text r c ->
  kept_by_decoder c ->
  NdefRecord.text (round_trip r) = Some c
  /\ NdefRecord.payload (round_trip r) = Some c
  /\ (NdefRecord.languageCode r = None ->
      NdefRecord.languageCode (round_trip r) = Some "en").
Proof.
  intros Hr Hc.
  destruct (round_trip_text r c Hr) as (Ht & Hp & _ & Hl).
  rewrite (TextDecoder_decode_kept c Hc) in Ht, Hp.
  split; [exact Ht|]. split; [exact Hp | exact Hl].
Qed.

Lemma text_record_round_trip_witness :
  let r :=
    {| NdefRecord.id := ""; NdefRecord.tnf := NfcTnf.WELL_KNOWN;
       NdefRecord.type := "T"; NdefRecord.payload := Some "hello";
       NdefRecord.languageCode := None; NdefRecord.uri := None;
       NdefRecord.text := Some "hello" |} in
  NdefRecord.text (round_trip r) = Some "hello"
  /\ NdefRecord.payload (round_trip r) = Some "hello"
  /\ (NdefRecord.languageCode r = None ->
      NdefRecord.languageCode (round_trip r) = Some "en").
Proof.
  intros r. apply (text_record_round_trip r "hello").
  - unfold well_formed_text, carries. simpl.
    split; [reflexivity|]. split; [discriminate|].
    split; [right; right; reflexivity|].
    split; [right; right; reflexivity | left; reflexivity].
  - split; reflexivity.
Defined.

(** When [payload] and [text] disagree, it is [payload] that is written. *)
Remark round_trip_prefers_payload :
  let r :=
    {| NdefRecord.id := ""; NdefRecord.tnf := NfcTnf.WELL_KNOWN;
       NdefRecord.type := "T"; NdefRecord.payload := Some "raw";
       NdefRecord.languageCode := Some "fr"; NdefRecord.uri := None;
       NdefRecord.text := Some "hello" |} in
  NdefRecord.text (round_trip r) = Some "raw"
  /\ NdefRecord.languageCode (round_trip r) = Some "fr".
Proof. split; reflexivity. Qed.

(** ** isEnabled *)

Lemma WebNfc_isEnabled_resolves (s : WebNfc.t) :
  exists r, WebNfc.isEnabled s = (Resolved r, s).
Proof. unfold WebNfc.isEnabled. destruct (IosDetection.isIos _); eauto. Qed.

Lemma IosBridgeNfc_isEnabled_resolves (native : Completion bool)
    (s : IosBridgeNfc.t) :
  exists r, IosBridgeNfc.isEnabled native s = (Resolved r, s).
Proof.
  unfold IosBridgeNfc.isEnabled.
  destruct (negb _); [eauto|]. destruct native; eauto.
Qed.

Lemma AndroidBridgeNfc_isEnabled_resolves (native : Completion bool)
    (s : AndroidBridgeNfc.t) :
  exists r, AndroidBridgeNfc.isEnabled native s = (Resolved r, s).
Proof.
  unfold AndroidBridgeNfc.isEnabled.
  destruct (negb _); [eauto|]. destruct native; eauto.
Qed.

Lemma impl_isEnabled_resolves (pf : Nfc.Platform) (p : Nfc.NfcPlugin) :
  exists r, Nfc.impl_isEnabled pf p = (Resolved r, p).
Proof.
  destruct p as [w|b|b]; simpl.
  - destruct (WebNfc_isEnabled_resolves w) as [r ->]. eauto.
  - destruct (IosBridgeNfc_isEnabled_resolves (Nfc.native_enabled pf) b)
      as [r ->]. eauto.
  - destruct (AndroidBridgeNfc_isEnabled_resolves (Nfc.native_enabled pf) b)
      as [r ->]. eauto.
Qed.

Lemma impl_isEnabled_undetermined (pf : Nfc.Platform) (p : Nfc.NfcPlugin) :
  undetermined pf p ->
  Nfc.impl_isEnabled pf p = (Resolved {| enabled := false |}, p).
Proof.
  destruct p as [w|b|b]; simpl.
  - unfold WebNfc.isEnabled. intros [-> | H]; [reflexivity|].
    rewrite H. destruct (IosDetection.isIos _); reflexivity.
  - unfold IosBridgeNfc.isEnabled. intros [-> | [e ->]]; [reflexivity|].
    destruct (negb _); reflexivity.
  - unfold AndroidBridgeNfc.isEnabled. intros [-> | [e ->]]; [reflexivity|].
    destruct (negb _); reflexivity.
Qed.

(** C4. [isEnabled] resolves, on each of the three backends and on the
    facade, whatever the state and whatever the platform does; and when
    availability cannot be determined it resolves to [{enabled: false}]. *)
Theorem isEnabled_never_rejects
    (w : WebNfc.t) (i : IosBridgeNfc.t) (a : AndroidBridgeNfc.t) (s : Nfc.t)
    (pf : Nfc.Platform) :
  ((exists r, fst (WebNfc.isEnabled w) = Resolved r)
   /\ (exists r,
         fst (IosBridgeNfc.isEnabled (Nfc.native_enabled pf) i) = Resolved r)
   /\ (exists r,
         fst (AndroidBridgeNfc.isEnabled (Nfc.native_enabled pf) a)
         = Resolved r)
   /\ (exists r, fst (Nfc.isEnabled pf s) = Resolved r))
  /\ (undetermined pf (Nfc.Web w) ->
      fst (WebNfc.isEnabled w) = Resolved {| enabled := false |})
  /\ (undetermined pf (Nfc.IosBridge i) ->
      fst (IosBridgeNfc.isEnabled (Nfc.native_enabled pf) i)
      = Resolved {| enabled := false |})
  /\ (undetermined pf (Nfc.AndroidBridge a) ->
      fst (AndroidBridgeNfc.isEnabled (Nfc.native_enabled pf) a)
      = Resolved {| enabled := false |})
  /\ (undetermined pf (Nfc.implementation s) ->
      fst (Nfc.isEnabled pf s) = Resolved {| enabled := false |}).
Proof.
  split; [split; [|split; [|split]] | split; [|split; [|split]]].
  - destruct (WebNfc_isEnabled_resolves w) as [r ->]. eauto.
  - destruct (IosBridgeNfc_isEnabled_resolves (Nfc.native_enabled pf) i)
      as [r ->]. eauto.
  - destruct (AndroidBridgeNfc_isEnabled_resolves (Nfc.native_enabled pf) a)
      as [r ->]. eauto.
  - unfold Nfc.isEnabled.
    destruct (impl_isEnabled_resolves pf (Nfc.implementation s)) as [r ->].
    eauto.
  - intros H. apply (impl_isEnabled_undetermined pf) in H. simpl in H.
    destruct (WebNfc.isEnabled w). now inversion H.
  - intros H. apply (impl_isEnabled_undetermined pf) in H. simpl in H.
    destruct (IosBridgeNfc.isEnabled _ i). now inversion H.
  - intros H. apply (impl_isEnabled_undetermined pf) in H. simpl in H.
    destruct (AndroidBridgeNfc.isEnabled _ a). now inversion H.
  - intros H. unfold Nfc.isEnabled.
    rewrite (impl_isEnabled_undetermined pf _ H). reflexivity.
Qed.

Lemma isEnabled_never_rejects_witness :
  fst (WebNfc.isEnabled (WebNfc.new desktop)) = Resolved {| enabled := false |}
  /\ fst (IosBridgeNfc.isEnabled (Nfc.native_enabled failing_platform)
            (IosBridgeNfc.new desktop)) = Resolved {| enabled := false |}
  /\ fst (AndroidBridgeNfc.isEnabled (Nfc.native_enabled failing_platform)
            (AndroidBridgeNfc.new desktop)) = Resolved {| enabled := false |}
  /\ fst (Nfc.isEnabled failing_platform (Nfc.new desktop))
     = Resolved {| enabled := false |}.
Proof.
  pose proof (isEnabled_never_rejects (WebNfc.new desktop)
                (IosBridgeNfc.new desktop) (AndroidBridgeNfc.new desktop)
                (Nfc.new desktop) failing_platform) as (_ & Hw & Hi & Ha & Hs).
  split; [|split; [|split]].
  - apply Hw. right. reflexivity.
  - apply Hi. left. reflexivity.
  - apply Ha. left. reflexivity.
  - apply Hs. right. reflexivity.
Defined.

(** ** stopScanSession *)

(** C5. On each backend, from any state and whatever the platform does, two
    calls of [stopScanSession] in a row both resolve, and the second leaves
    the state the first produced. *)
Theorem stopScanSession_idempotent :
  (forall (abort1 abort2 : CallOutcome) (s : WebNfc.t),
     let first := WebNfc.stopScanSession abort1 s in
     let second := WebNfc.stopScanSession abort2 (snd first) in
     fst first = Resolved tt /\ fst second = Resolved tt
     /\ snd second = snd first)
  /\ (forall (native1 native2 : Completion unit) (s : IosBridgeNfc.t),
        let first := IosBridgeNfc.stopScanSession native1 s in
        let second := IosBridgeNfc.stopScanSession native2 (snd first) in
        fst first = Resolved tt /\ fst second = Resolved tt
        /\ snd second = snd first)
  /\ (forall (native1 native2 : Completion unit) (s : AndroidBridgeNfc.t),
        let first := AndroidBridgeNfc.stopScanSession native1 s in
        let second := AndroidBridgeNfc.stopScanSession native2 (snd first) in
        fst first = Resolved tt /\ fst second = Resolved tt
        /\ snd second = snd first).
Proof.
  split; [|split].
  - intros abort1 abort2 [active once ls [[n ab]|] sup info]; simpl;
      unfold WebNfc.stopScanSession; simpl;
      try destruct ab; try destruct abort1; try destruct abort2; simpl;
      repeat split.
  - intros native1 native2 s; simpl. unfold IosBridgeNfc.stopScanSession.
    destruct (negb _ || negb _) eqn:E; simpl.
    + rewrite E. repeat split.
    + destruct native1; simpl; rewrite E; destruct native2; repeat split.
  - intros native1 native2 s; simpl. unfold AndroidBridgeNfc.stopScanSession.
    destruct (negb _ || negb _) eqn:E; simpl.
    + rewrite E. repeat split.
    + destruct native1; simpl; rewrite E; destruct native2; repeat split.
Qed.

(** ** Scan sessions of the radio backend *)

Lemma stopScanSession_state (abort : CallOutcome) (s : WebNfc.t) :
  WebNfc.stopScanSession abort s
  = (Resolved tt, WebNfc.set_scanSessionActive false s).
Proof.
  unfold WebNfc.stopScanSession. simpl.
  destruct (WebNfc.ndefReader s) as [r|]; [|reflexivity].
  destruct (WebNfc.has_abort r); [|reflexivity].
  destruct abort; reflexivity.
Qed.

Lemma onReading_state (monitor : Payload -> list Invocation)
    (abort : CallOutcome) (event : WebNfc.NDEFReadingEvent) (s : WebNfc.t) :
  fst (WebNfc.onReading monitor abort event s) = s
  \/ fst (WebNfc.onReading monitor abort event s)
     = WebNfc.set_scanSessionActive false s.
Proof.
  unfold WebNfc.onReading.
  destruct (negb _); [now left|].
  destruct (call_each _ _ _) as [trace threw].
  destruct threw; [now left|].
  destruct (WebNfc.scanOnce s); [|now left].
  rewrite stopScanSession_state. now right.
Qed.

Lemma step_preserves_invariant (s s' : WebNfc.t) :
  WebNfc_step s s' -> active_implies_can_scan s -> active_implies_can_scan s'.
Proof.
  unfold active_implies_can_scan, can_scan.
  intros Hstep Hinv. destruct Hstep.
  - destruct (WebNfc_isEnabled_resolves s) as [r ->]. exact Hinv.
  - unfold WebNfc.startScanSession.
    destruct (IosDetection.isIos (WebNfc.iosInfo s)) eqn:Hios; simpl;
      [rewrite Hios; exact Hinv|].
    destruct (WebNfc.nfcSupported s) eqn:Hsup; simpl;
      [|rewrite Hios, Hsup; exact Hinv].
    destruct platform; simpl; rewrite ?Hios, ?Hsup; intros; reflexivity.
  - rewrite stopScanSession_state. simpl. discriminate.
  - destruct (onReading_state monitor abort event s) as [-> | ->];
      [exact Hinv | simpl; discriminate].
  - exact Hinv.
  - exact Hinv.
  - exact Hinv.
Qed.

Lemma reachable_invariant (s : WebNfc.t) :
  WebNfc_reachable s -> active_implies_can_scan s.
Proof.
  induction 1 as [w | s s' _ IH Hstep].
  - unfold active_implies_can_scan. simpl. discriminate.
  - exact (step_preserves_invariant s s' Hstep IH).
Qed.

Lemma onReading_inactive (monitor : Payload -> list Invocation)
    (abort : CallOutcome) (event : WebNfc.NDEFReadingEvent) (s : WebNfc.t) :
  WebNfc.scanSessionActive s = false ->
  WebNfc.onReading monitor abort event s = (s, []).
Proof. unfold WebNfc.onReading. now intros ->. Qed.

(** C10. On a [WebNfc] object in any state it can be in, a call of
    [startScanSession] that rejects leaves [scanSessionActive] false, and a
    reading event that arrives afterwards calls no listener and changes
    nothing.  When the object can scan, the rejections are those of the
    reader construction and of [scan()]. *)
Theorem failed_start_leaves_no_session
    (s : WebNfc.t) (options : option StartScanSessionOptions)
    (platform : WebNfc.ScanOutcome) (e : JsError.t) :
  WebNfc_reachable s ->
  fst (WebNfc.startScanSession options platform s) = Rejected e ->
  let s' := snd (WebNfc.startScanSession options platform s) in
  WebNfc.scanSessionActive s' = false
  /\ (forall monitor abort event,
        WebNfc.onReading monitor abort event s' = (s', []))
  /\ (can_scan s = true ->
      (exists e0, platform = WebNfc.ConstructorThrows e0)
      \/ (exists reader e0, platform = WebNfc.ScanRejects reader e0)).
Proof.
  intros Hreach Hrej s'.
  assert (Hflag : WebNfc.scanSessionActive s' = false).
  { pose proof (reachable_invariant s Hreach) as Hinv.
    unfold active_implies_can_scan, can_scan in Hinv.
    subst s'. revert Hrej. unfold WebNfc.startScanSession.
    destruct (IosDetection.isIos (WebNfc.iosInfo s)) eqn:Hios.
    - intros _. simpl. destruct (WebNfc.scanSessionActive s); [|reflexivity].
      now specialize (Hinv eq_refl).
    - destruct (WebNfc.nfcSupported s) eqn:Hsup; simpl.
      + destruct platform; simpl; [reflexivity | reflexivity | discriminate].
      + intros _. destruct (WebNfc.scanSessionActive s); [|reflexivity].
        now specialize (Hinv eq_refl). }
  split; [exact Hflag|]. split.
  - intros monitor abort event. now apply onReading_inactive.
  - unfold can_scan. intros Hcan. apply andb_true_iff in Hcan as [Hios Hsup].
    apply negb_true_iff in Hios.
    revert Hrej. unfold WebNfc.startScanSession. rewrite Hios, Hsup. simpl.
    destruct platform; simpl; [eauto | eauto | discriminate].
Qed.

Lemma scanning_reachable (f : Callback) : WebNfc_reachable (scanning f).
Proof.
  unfold scanning.
  eapply reachable_step; [|apply step_startScanSession].
  eapply reachable_step; [|apply step_addListener].
  apply reachable_new.
Qed.

Lemma failed_start_leaves_no_session_witness :
  let s := scanning (UserFn 1 false) in
  let platform :=
    WebNfc.ScanRejects (reader 2)
      {| JsError.name := Some "NotAllowedError";
         JsError.message := Some "NFC permission request denied.";
         JsError.code := None |} in
  let s' := snd (WebNfc.startScanSession None platform s) in
  WebNfc.scanSessionActive s = true
  /\ WebNfc.scanSessionActive s' = false
  /\ WebNfc.onReading no_monitor Returns hello_reading s' = (s', []).
Proof.
  intros s platform s'.
  destruct (failed_start_leaves_no_session s None platform
              (new_Error "NFC permission denied. Please allow NFC scanning when prompted.")
              (scanning_reachable (UserFn 1 false)) eq_refl)
    as (Hflag & Hevent & _).
  split; [reflexivity|]. split; [exact Hflag|]. apply Hevent.
Defined.

Lemma started_once (s : WebNfc.t) (options : StartScanSessionOptions)
    (r : WebNfc.NDEFReaderObj) :
  once options = Some true ->
  fst (WebNfc.startScanSession (Some options) (WebNfc.ScanResolves r) s)
  = Resolved tt ->
  snd (WebNfc.startScanSession (Some options) (WebNfc.ScanResolves r) s)
  = WebNfc.set_ndefReader (Some r)
      (WebNfc.set_scanOnce true (WebNfc.set_scanSessionActive true s)).
Proof.
  intros Honce. unfold WebNfc.startScanSession.
  destruct (IosDetection.isIos _); [discriminate|].
  destruct (negb _); [discriminate|].
  simpl. rewrite Honce. reflexivity.
Qed.

(** The scenario does not hold for every listener: one that throws is
    called by the first event, the session stays active, and the next event
    calls the listener again. *)
Lemma once_session_fails_for_throwing_listener :
  ~ (forall (ident : nat) (throws : bool),
       once_session_holds (UserFn ident throws)).
Proof.
  intros H.
  specialize (H 1 true
                (snd (WebNfc.addListener "tagDetected" (UserFn 1 true)
                        (WebNfc.new chrome_android)))
                {| once := Some true; scanSoundEnabled := None;
                   alertMessageEnabled := None |}
                (reader 1) no_monitor Returns Returns hello_reading
                hello_reading eq_refl eq_refl eq_refl).
  destruct H as (_ & Hflag & _). vm_compute in Hflag. discriminate Hflag.
Qed.

Lemma onReading_once_single (monitor : Payload -> list Invocation)
    (abort : CallOutcome) (event : WebNfc.NDEFReadingEvent) (s : WebNfc.t)
    (ident : nat) :
  WebNfc.scanSessionActive s = true ->
  WebNfc.scanOnce s = true ->
  Registry.get "tagDetected" (WebNfc.listeners s) = [UserFn ident false] ->
  WebNfc.onReading monitor abort event s
  = (WebNfc.set_scanSessionActive false s,
     [ {| callee := UserFn ident false;
          argument := TagPayload (WebNfc.parseNdefReading event) |} ]).
Proof.
  intros Hactive Honce Hls. unfold WebNfc.onReading.
  rewrite Hactive, Hls, Honce. simpl.
  rewrite stopScanSession_state. reflexivity.
Qed.

(** The scenario holds for every listener that returns normally. *)
Theorem once_session_with_returning_listener (ident : nat) :
  once_session_holds (UserFn ident false).
Proof.
  intros s options r monitor abort1 abort2 event1 event2 Hls Honce Hok.
  rewrite (started_once s options r Honce Hok). clear Hok. cbv zeta.
  rewrite (onReading_once_single monitor abort1 event1 _ ident)
    by (try reflexivity; exact Hls).
  cbn [fst snd]. split; [|split; [reflexivity|]].
  - unfold calls_of. rewrite filter_cons_True by reflexivity. reflexivity.
  - rewrite onReading_inactive by reflexivity. reflexivity.
Qed.

Lemma once_session_with_returning_listener_witness :
  let f := UserFn 1 false in
  let s :=
    snd (WebNfc.addListener "tagDetected" f (WebNfc.new chrome_android)) in
  let started :=
    snd (WebNfc.startScanSession once_true (WebNfc.ScanResolves (reader 1))
           s) in
  let first := WebNfc.onReading no_monitor Returns hello_reading started in
  let later := WebNfc.onReading no_monitor Returns hello_reading (fst first) in
  calls_of f (snd first) = 1
  /\ WebNfc.scanSessionActive (fst first) = false
  /\ calls_of f (snd later) = 0.
Proof.
  intros f s started first later.
  apply (once_session_with_returning_listener 1 s
           {| once := Some true; scanSoundEnabled := None;
              alertMessageEnabled := None |}
           (reader 1) no_monitor Returns Returns hello_reading hello_reading);
    reflexivity.
Defined.

Lemma onReading_throwing_single (monitor : Payload -> list Invocation)
    (abort : CallOutcome) (event : WebNfc.NDEFReadingEvent) (s : WebNfc.t)
    (ident : nat) :
  WebNfc.scanSessionActive s = true ->
  Registry.get "tagDetected" (WebNfc.listeners s) = [UserFn ident true] ->
  WebNfc.onReading monitor abort event s
  = (s, [ {| callee := UserFn ident true;
             argument := TagPayload (WebNfc.parseNdefReading event) |} ]).
Proof.
  intros Hactive Hls. unfold WebNfc.onReading.
  rewrite Hactive, Hls. reflexivity.
Qed.

(** C6. A session started with [once: true] whose single [tagDetected]
    listener throws is not stopped by the first tag: the first reading
    event calls the listener once and leaves [scanSessionActive] true, and a
    later reading event calls the listener once more, so that the scenario
    of the claim fails for it.  The call of [stopScanSession] comes after
    the loop over the listeners in the same [try] block, and the exception
    skips it. *)
Theorem once_session_with_throwing_listener (ident : nat) :
  once_session_goes_on (UserFn ident true)
  /\ ~ once_session_holds (UserFn ident true).
Proof.
  assert (Hgoes : once_session_goes_on (UserFn ident true)).
  { intros s options r monitor abort1 abort2 event1 event2 Hls Honce Hok.
    rewrite (started_once s options r Honce Hok). clear Hok. cbv zeta.
    rewrite (onReading_throwing_single monitor abort1 event1 _ ident)
      by (try reflexivity; exact Hls).
    cbn [fst snd].
    rewrite (onReading_throwing_single monitor abort2 event2 _ ident)
      by (try reflexivity; exact Hls).
    cbn [fst snd]. split; [|split; [reflexivity|]].
    - unfold calls_of. rewrite filter_cons_True by reflexivity. reflexivity.
    - unfold calls_of. rewrite filter_cons_True by reflexivity.
      reflexivity. }
  split; [exact Hgoes|]. intros Hholds.
  pose (s := snd (WebNfc.addListener "tagDetected" (UserFn ident true)
                    (WebNfc.new chrome_android))).
  pose (options := {| once := Some true; scanSoundEnabled := None;
                      alertMessageEnabled := None |}).
  destruct (Hgoes s options (reader 1) no_monitor Returns Returns
              hello_reading hello_reading eq_refl eq_refl eq_refl)
    as (_ & Hactive & _).
  destruct (Hholds s options (reader 1) no_monitor Returns Returns
              hello_reading hello_reading eq_refl eq_refl eq_refl)
    as (_ & Hstopped & _).
  rewrite Hactive in Hstopped. discriminate Hstopped.
Qed.

Lemma once_session_with_throwing_listener_witness :
  let f := UserFn 1 true in
  let s :=
    snd (WebNfc.addListener "tagDetected" f (WebNfc.new chrome_android)) in
  let started :=
    snd (WebNfc.startScanSession once_true (WebNfc.ScanResolves (reader 1))
           s) in
  let first := WebNfc.onReading no_monitor Returns hello_reading started in
  let later := WebNfc.onReading no_monitor Returns hello_reading (fst first) in
  calls_of f (snd first) = 1
  /\ WebNfc.scanSessionActive (fst first) = true
  /\ calls_of f (snd later) = 1.
Proof.
  intros f s started first later.
  apply (proj1 (once_session_with_throwing_listener 1) s
           {| once := Some true; scanSoundEnabled := None;
              alertMessageEnabled := None |}
           (reader 1) no_monitor Returns Returns hello_reading hello_reading);
    reflexivity.
Defined.

(** ** Error classification at the facade *)

(** The facade rejects exactly when the bound backend does, with the error
    built by the [catch] clause. *)
Lemma startScanSession_rejection (s : Nfc.t)
    (options : option StartScanSessionOptions) (pf : Nfc.Platform)
    (e : JsError.t) :
  fst (Nfc.impl_startScanSession options pf (Nfc.implementation s))
  = Rejected e ->
  fst (Nfc.startScanSession options pf s) = Rejected (Nfc.nfcError e).
Proof.
  unfold Nfc.startScanSession.
  destruct (Nfc.impl_startScanSession _ _ _) as [r p']. simpl.
  intros ->. reflexivity.
Qed.

Lemma new_implementation_web (w : Window.t) :
  Nfc.kind (Nfc.implementation (Nfc.new w)) = Nfc.WebKind ->
  Nfc.implementation (Nfc.new w)
  = Nfc.Web (snd (WebNfc.addListener "nfcStatusChanged" StatusMonitor
                    (WebNfc.new w))).
Proof.
  unfold Nfc.new. cbv zeta.
  destruct (IosDetection.isIos _ && bool_decide _); [discriminate|].
  destruct (AndroidDetection.isAndroid _ && _); [discriminate|].
  reflexivity.
Qed.




(** ** Listener registries *)

Section RegistryFacts.

Implicit Types (r : gmap string (list Callback)) (f x : Callback).
Implicit Types (e en : string) (ls : list Callback).

Lemma filter_other_twice f ls :
  filter (fun l => l <> f) (filter (fun l => l <> f) ls)
  = filter (fun l => l <> f) ls.
Proof.
  induction ls as [|y ls IH]; [reflexivity|].
  rewrite (filter_cons (fun l => l <> f) y ls).
  destruct (decide (y <> f)) as [Hy|Hy]; [|exact IH].
  rewrite (filter_cons (fun l => l <> f) y), decide_True by exact Hy.
  now rewrite IH.
Qed.

Lemma get_push en e f r x :
  x ∈ Registry.get en (Registry.push e f r)
  <-> x ∈ Registry.get en r \/ (en = e /\ x = f).
Proof.
  unfold Registry.push, Registry.get.
  destruct (decide (e = en)) as [->|Hne].
  - rewrite lookup_insert_eq. simpl. rewrite elem_of_app, list_elem_of_singleton.
    tauto.
  - rewrite lookup_insert_ne by exact Hne. split; [tauto|].
    intros [H | [-> _]]; [exact H | congruence].
Qed.

Lemma get_removeListener en e f r x :
  x ∈ Registry.get en (Registry.removeListener e f r)
  <-> x ∈ Registry.get en r /\ ~ (en = e /\ x = f).
Proof.
  unfold Registry.removeListener, Registry.get.
  destruct (r !! e) as [ls|] eqn:He.
  - destruct (decide (e = en)) as [->|Hne].
    + rewrite lookup_insert_eq, He. simpl. rewrite list_elem_of_filter. tauto.
    + rewrite lookup_insert_ne by exact Hne. split; [|tauto].
      intros H. split; [exact H|]. intros [-> _]. congruence.
  - split; [|tauto]. intros H. split; [exact H|]. intros [-> _].
    rewrite He in H. simpl in H. now apply elem_of_nil in H.
Qed.

Lemma removeListener_twice e f r :
  Registry.removeListener e f (Registry.removeListener e f r)
  = Registry.removeListener e f r.
Proof.
  unfold Registry.removeListener.
  destruct (r !! e) as [ls|] eqn:He.
  - rewrite lookup_insert_eq, insert_insert_eq. now rewrite filter_other_twice.
  - now rewrite He.
Qed.

End RegistryFacts.

(** Who is called when listeners are called. *)
Lemma call_each_callee (monitor : Payload -> list Invocation)
    (ls : list Callback) (data : Payload) (i : Invocation) :
  i ∈ fst (call_each monitor ls data) ->
  (callee i ∈ ls /\ argument i = data)
  \/ (StatusMonitor ∈ ls /\ i ∈ monitor data).
Proof.
  induction ls as [|f ls IH]; simpl; [intros H; now apply elem_of_nil in H|].
  destruct f as [n throws|]; simpl.
  - destruct throws; simpl.
    + rewrite list_elem_of_singleton. intros ->. left. simpl.
      split; [apply elem_of_cons; now left | reflexivity].
    + destruct (call_each monitor ls data) as [t' threw'] eqn:E. simpl in *.
      rewrite elem_of_cons. intros [-> | H].
      * left. simpl. split; [apply elem_of_cons; now left | reflexivity].
      * destruct (IH H) as [[H1 H2] | [H1 H2]].
        -- left. split; [apply elem_of_cons; now right | exact H2].
        -- right. split; [apply elem_of_cons; now right | exact H2].
  - destruct (call_each monitor ls data) as [t' threw'] eqn:E. simpl in *.
    rewrite elem_of_app. intros [H | H].
    + right. split; [apply elem_of_cons; now left | exact H].
    + destruct (IH H) as [[H1 H2] | [H1 H2]].
      * left. split; [apply elem_of_cons; now right | exact H2].
      * right. split; [apply elem_of_cons; now right | exact H2].
Qed.

Lemma notifyListeners_callee (listeners : gmap string (list Callback))
    (eventName : string) (data : Payload) (i : Invocation) :
  i ∈ Nfc.notifyListeners listeners eventName data ->
  callee i ∈ default [] (listeners !! eventName) /\ argument i = data.
Proof.
  unfold Nfc.notifyListeners.
  destruct (listeners !! eventName) as [fs|]; simpl;
    [|intros H; now apply elem_of_nil in H].
  induction fs as [|f fs IH]; simpl; [intros H; now apply elem_of_nil in H|].
  rewrite elem_of_app. intros [H | H].
  - destruct f as [n throws|]; simpl in H.
    + apply list_elem_of_singleton in H as ->. simpl.
      split; [apply elem_of_cons; now left | reflexivity].
    + now apply elem_of_nil in H.
  - destruct (IH H) as [H1 H2].
    split; [apply elem_of_cons; now right | exact H2].
Qed.

Lemma dispatchNativeMessage_callee (monitor : Payload -> list Invocation)
    (listeners : gmap string (list Callback)) (event : MessageEvent)
    (i : Invocation) :
  i ∈ dispatchNativeMessage monitor listeners event ->
  callee i ∈ Registry.get (event_of (argument i)) listeners
  \/ exists data,
       StatusMonitor ∈ Registry.get (event_of data) listeners
       /\ i ∈ monitor data.
Proof.
  unfold dispatchNativeMessage.
  destruct (msg_data event) as [d|]; [|intros H; now apply elem_of_nil in H].
  assert (Hcall : forall data,
             i ∈ fst (call_each monitor
                        (Registry.get (event_of data) listeners) data) ->
             callee i ∈ Registry.get (event_of (argument i)) listeners
             \/ exists data,
                  StatusMonitor ∈ Registry.get (event_of data) listeners
                  /\ i ∈ monitor data).
  { intros data H. destruct (call_each_callee _ _ _ _ H) as [[H1 H2]|[H1 H2]].
    - left. now rewrite H2.
    - right. now exists data. }
  destruct (String.eqb (msg_type d) "nfcTagDetected"), (msg_tag d) as [tag|];
    simpl.
  - destruct (call_each monitor _ (TagPayload tag)) as [t1 threw] eqn:E.
    assert (H1 : i ∈ t1 ->
                 callee i ∈ Registry.get (event_of (argument i)) listeners
                 \/ exists data,
                      StatusMonitor ∈ Registry.get (event_of data) listeners
                      /\ i ∈ monitor data).
    { intros H. apply (Hcall (TagPayload tag)). simpl. now rewrite E. }
    destruct threw; [exact H1|].
    destruct (String.eqb (msg_type d) "nfcStatusChanged"),
      (msg_enabled d) as [b|]; try exact H1.
    rewrite elem_of_app. intros [H | H]; [now apply H1|].
    now apply (Hcall (StatusPayload {| enabled := b |})).
  - destruct (String.eqb (msg_type d) "nfcStatusChanged"),
      (msg_enabled d) as [b|]; try (intros H; now apply elem_of_nil in H).
    simpl. now apply (Hcall (StatusPayload {| enabled := b |})).
  - destruct (String.eqb (msg_type d) "nfcStatusChanged"),
      (msg_enabled d) as [b|]; try (intros H; now apply elem_of_nil in H).
    simpl. now apply (Hcall (StatusPayload {| enabled := b |})).
  - destruct (String.eqb (msg_type d) "nfcStatusChanged"),
      (msg_enabled d) as [b|]; try (intros H; now apply elem_of_nil in H).
    simpl. now apply (Hcall (StatusPayload {| enabled := b |})).
Qed.

(** *** What each facade method does to the two registries *)

Lemma impl_listeners_addListener (e : string) (f : Callback)
    (p : Nfc.NfcPlugin) :
  Nfc.impl_addListener e f p
  = (Resolved {| h_eventName := e; h_listenerFunc := f |},
     snd (Nfc.impl_addListener e f p))
  /\ Nfc.impl_listeners (snd (Nfc.impl_addListener e f p))
     = Registry.push e f (Nfc.impl_listeners p)
  /\ Nfc.kind (snd (Nfc.impl_addListener e f p)) = Nfc.kind p.
Proof. destruct p; repeat split. Qed.

Lemma impl_listeners_remove (h : PluginListenerHandle) (p : Nfc.NfcPlugin) :
  Nfc.impl_remove h p = (Resolved tt, snd (Nfc.impl_remove h p))
  /\ Nfc.impl_listeners (snd (Nfc.impl_remove h p))
     = Registry.removeListener (h_eventName h) (h_listenerFunc h)
         (Nfc.impl_listeners p).
Proof. destruct p; repeat split. Qed.

Lemma impl_listeners_removeAllListeners (p : Nfc.NfcPlugin) :
  Nfc.impl_listeners (snd (Nfc.impl_removeAllListeners p)) = ∅.
Proof. destruct p; reflexivity. Qed.

Lemma impl_listeners_isEnabled (pf : Nfc.Platform) (p : Nfc.NfcPlugin) :
  Nfc.impl_listeners (snd (Nfc.impl_isEnabled pf p)) = Nfc.impl_listeners p.
Proof.
  destruct (impl_isEnabled_resolves pf p) as [r ->]. reflexivity.
Qed.

Lemma impl_listeners_startScanSession
    (options : option StartScanSessionOptions) (pf : Nfc.Platform)
    (p : Nfc.NfcPlugin) :
  Nfc.impl_listeners (snd (Nfc.impl_startScanSession options pf p))
  = Nfc.impl_listeners p.
Proof.
  destruct p as [w|b|b]; simpl.
  - unfold WebNfc.startScanSession.
    destruct (IosDetection.isIos _); [reflexivity|].
    destruct (negb _); [reflexivity|].
    destruct (Nfc.scan pf); reflexivity.
  - unfold IosBridgeNfc.startScanSession.
    destruct (negb _); [reflexivity|]. destruct (Nfc.native pf); reflexivity.
  - unfold AndroidBridgeNfc.startScanSession.
    destruct (negb _); [reflexivity|]. destruct (Nfc.native pf); reflexivity.
Qed.

Lemma impl_listeners_stopScanSession (pf : Nfc.Platform) (p : Nfc.NfcPlugin) :
  Nfc.impl_listeners (snd (Nfc.impl_stopScanSession pf p))
  = Nfc.impl_listeners p.
Proof.
  destruct p as [w|b|b]; simpl.
  - rewrite stopScanSession_state. reflexivity.
  - unfold IosBridgeNfc.stopScanSession.
    destruct (_ || _); [reflexivity|]. destruct (Nfc.native pf); reflexivity.
  - unfold AndroidBridgeNfc.stopScanSession.
    destruct (_ || _); [reflexivity|]. destruct (Nfc.native pf); reflexivity.
Qed.

Lemma backend_list_isEnabled (e : string) (pf : Nfc.Platform) (s : Nfc.t) :
  backend_list e (snd (Nfc.isEnabled pf s)) = backend_list e s.
Proof.
  unfold backend_list, Nfc.isEnabled.
  pose proof (impl_listeners_isEnabled pf (Nfc.implementation s)) as H.
  destruct (Nfc.impl_isEnabled pf (Nfc.implementation s)) as [[r|err] p'];
    simpl in *; now rewrite H.
Qed.

Lemma backend_list_startScanSession (e : string)
    (options : option StartScanSessionOptions) (pf : Nfc.Platform)
    (s : Nfc.t) :
  backend_list e (snd (Nfc.startScanSession options pf s)) = backend_list e s.
Proof.
  unfold backend_list, Nfc.startScanSession.
  pose proof (impl_listeners_startScanSession options pf
                (Nfc.implementation s)) as H.
  destruct (Nfc.impl_startScanSession options pf (Nfc.implementation s))
    as [[r|err] p']; simpl in *; now rewrite H.
Qed.

Lemma backend_list_stopScanSession (e : string) (pf : Nfc.Platform)
    (s : Nfc.t) :
  backend_list e (snd (Nfc.stopScanSession pf s)) = backend_list e s.
Proof.
  unfold backend_list, Nfc.stopScanSession.
  pose proof (impl_listeners_stopScanSession pf (Nfc.implementation s)) as H.
  destruct (Nfc.impl_stopScanSession pf (Nfc.implementation s)) as [r p'];
    simpl in *; now rewrite H.
Qed.

Lemma addListener_state (e : string) (f : Callback) (s : Nfc.t) :
  Nfc.addListener e f s
  = (Resolved {| h_eventName := e; h_listenerFunc := f |},
     Nfc.set_implementation (snd (Nfc.impl_addListener e f (Nfc.implementation s)))
       (Nfc.set_listeners
          (<[e := Nfc.set_add f (default [] (Nfc.listeners s !! e))]>
             (Nfc.listeners s)) s)).
Proof.
  unfold Nfc.addListener.
  destruct (impl_listeners_addListener e f (Nfc.implementation s)) as (-> & _).
  reflexivity.
Qed.

Lemma remove_state (h : PluginListenerHandle) (s : Nfc.t) :
  Nfc.remove h s
  = (Resolved tt,
     Nfc.set_implementation (snd (Nfc.impl_remove h (Nfc.implementation s)))
       (Nfc.set_listeners
          (match Nfc.listeners s !! h_eventName h with
           | Some fs =>
               <[h_eventName h := Nfc.set_delete (h_listenerFunc h) fs]>
                 (Nfc.listeners s)
           | None => Nfc.listeners s
           end) s)).
Proof.
  unfold Nfc.remove.
  destruct (impl_listeners_remove h (Nfc.implementation s)) as (-> & _).
  reflexivity.
Qed.

Lemma backend_list_addListener (en e : string) (f x : Callback) (s : Nfc.t) :
  x ∈ backend_list en (snd (Nfc.addListener e f s))
  <-> x ∈ backend_list en s \/ (en = e /\ x = f).
Proof.
  rewrite addListener_state. unfold backend_list. simpl.
  destruct (impl_listeners_addListener e f (Nfc.implementation s))
    as (_ & -> & _).
  apply get_push.
Qed.

Lemma backend_list_remove (en : string) (h : PluginListenerHandle)
    (x : Callback) (s : Nfc.t) :
  x ∈ backend_list en (snd (Nfc.remove h s))
  <-> x ∈ backend_list en s
      /\ ~ (en = h_eventName h /\ x = h_listenerFunc h).
Proof.
  rewrite remove_state. unfold backend_list. simpl.
  destruct (impl_listeners_remove h (Nfc.implementation s)) as (_ & ->).
  apply get_removeListener.
Qed.

Lemma facade_set_remove (en : string) (h : PluginListenerHandle)
    (x : Callback) (s : Nfc.t) :
  x ∈ facade_set en (snd (Nfc.remove h s))
  <-> x ∈ facade_set en s
      /\ ~ (en = h_eventName h /\ x = h_listenerFunc h).
Proof.
  rewrite remove_state. unfold facade_set. simpl.
  destruct (Nfc.listeners s !! h_eventName h) as [fs|] eqn:He.
  - destruct (decide (h_eventName h = en)) as [<-|Hne].
    + rewrite lookup_insert_eq, He. simpl. unfold Nfc.set_delete.
      rewrite list_elem_of_filter. tauto.
    + rewrite lookup_insert_ne by exact Hne. split; [|tauto].
      intros H. split; [exact H|]. intros [-> _]. congruence.
  - split; [|tauto]. intros H. split; [exact H|]. intros [-> _].
    rewrite He in H. simpl in H. now apply elem_of_nil in H.
Qed.

Lemma remove_twice (h : PluginListenerHandle) (s : Nfc.t) :
  snd (Nfc.remove h (snd (Nfc.remove h s))) = snd (Nfc.remove h s).
Proof.
  rewrite !remove_state. simpl.
  assert (Himpl :
            snd (Nfc.impl_remove h
                   (snd (Nfc.impl_remove h (Nfc.implementation s))))
            = snd (Nfc.impl_remove h (Nfc.implementation s))).
  { destruct (Nfc.implementation s) as [w|b|b]; simpl;
      [unfold WebNfc.removeListener | unfold IosBridgeNfc.removeListener
      | unfold AndroidBridgeNfc.removeListener]; simpl;
      now rewrite removeListener_twice. }
  rewrite Himpl. unfold Nfc.set_implementation, Nfc.set_listeners. simpl.
  f_equal.
  destruct (Nfc.listeners s !! h_eventName h) as [fs|] eqn:He.
  - rewrite lookup_insert_eq, insert_insert_eq. unfold Nfc.set_delete.
    now rewrite filter_other_twice.
  - now rewrite He.
Qed.

(** *** The states of a facade *)

Lemma onMessage_state (event : MessageEvent) (s : Nfc.t) :
  fst (Nfc.onMessage event s) = s.
Proof.
  unfold Nfc.onMessage. destruct s as [[w|b|b] ls ii ai]; simpl.
  - reflexivity.
  - unfold IosBridgeNfc.onMessage.
    destruct (IosBridgeNfc.isBridgeAvailable b); reflexivity.
  - unfold AndroidBridgeNfc.onMessage.
    destruct (AndroidBridgeNfc.isBridgeAvailable b); reflexivity.
Qed.

Lemma backend_list_onReading (e : string) (abort : CallOutcome)
    (event : WebNfc.NDEFReadingEvent) (s : Nfc.t) :
  backend_list e (fst (Nfc.onReading abort event s)) = backend_list e s.
Proof.
  unfold backend_list, Nfc.onReading.
  destruct (Nfc.implementation s) as [w|b|b] eqn:Hi; simpl;
    rewrite ?Hi; try reflexivity.
  pose proof (onReading_state (Nfc.monitor s) abort event w) as H.
  destruct (WebNfc.onReading (Nfc.monitor s) abort event w) as [w' trace].
  simpl in *. destruct H as [-> | ->]; reflexivity.
Qed.

Lemma step_preserves_wired (s s' : Nfc.t) :
  Nfc_step s s' -> wired s -> wired s'.
Proof.
  unfold wired. intros Hstep Hw. destruct Hstep.
  - now rewrite backend_list_isEnabled.
  - now rewrite backend_list_startScanSession.
  - now rewrite backend_list_stopScanSession.
  - rewrite backend_list_addListener. intros [H | [_ H]];
      [now apply Hw | discriminate H].
  - rewrite backend_list_remove. intros [H _]. now apply Hw.
  - unfold backend_list, Nfc.removeAllListeners.
    pose proof (impl_listeners_removeAllListeners (Nfc.implementation s)) as H.
    destruct (Nfc.impl_removeAllListeners (Nfc.implementation s)) as [r p'].
    simpl in *. rewrite H. unfold Registry.get. rewrite lookup_empty.
    apply not_elem_of_nil.
  - now rewrite onMessage_state.
  - now rewrite backend_list_onReading.
Qed.

Lemma new_wired (w : Window.t) : wired (Nfc.new w).
Proof.
  unfold wired, backend_list, Nfc.new, Nfc.monitorNfcStatus. cbv zeta. simpl.
  match goal with
  | |- _ ∉ Registry.get _ (Nfc.impl_listeners (snd (Nfc.impl_addListener _ _ ?p))) =>
      destruct (impl_listeners_addListener "nfcStatusChanged" StatusMonitor p)
        as (_ & -> & _);
      assert (Hempty : Nfc.impl_listeners p = ∅)
  end.
  { destruct (_ && _); [reflexivity|]. destruct (_ && _); reflexivity. }
  rewrite Hempty. intros H. apply get_push in H as [H | [H _]].
  - unfold Registry.get in H. rewrite lookup_empty in H.
    now apply elem_of_nil in H.
  - discriminate H.
Qed.

Lemma reachable_wired (s : Nfc.t) : Nfc_reachable s -> wired s.
Proof.
  induction 1 as [w | s s' _ IH Hstep].
  - apply new_wired.
  - exact (step_preserves_wired s s' Hstep IH).
Qed.

(** Whoever an event calls is registered under the name of that event, in
    the backend's array or in the facade's set. *)
Lemma monitor_callee (s : Nfc.t) (data : Payload) (i : Invocation) :
  wired s ->
  StatusMonitor ∈ backend_list (event_of data) s ->
  i ∈ Nfc.monitor s data ->
  callee i ∈ facade_set (event_of (argument i)) s.
Proof.
  intros Hw Hin Hi. unfold Nfc.monitor in Hi.
  apply notifyListeners_callee in Hi as [Hc ->].
  destruct data as [tag|status]; simpl in *; [now apply Hw in Hin | exact Hc].
Qed.

Lemma onMessage_callee (event : MessageEvent) (s : Nfc.t) (i : Invocation) :
  wired s ->
  i ∈ snd (Nfc.onMessage event s) ->
  callee i ∈ backend_list (event_of (argument i)) s
  \/ callee i ∈ facade_set (event_of (argument i)) s.
Proof.
  intros Hw. unfold Nfc.onMessage.
  destruct (Nfc.implementation s) as [w|b|b] eqn:Hi; simpl.
  - intros H. now apply elem_of_nil in H.
  - unfold IosBridgeNfc.onMessage, IosBridgeNfc.handleNativeMessage.
    destruct (IosBridgeNfc.isBridgeAvailable b); simpl;
      [|intros H; now apply elem_of_nil in H].
    intros H. apply dispatchNativeMessage_callee in H as [H | (data & H1 & H2)].
    + left. unfold backend_list. now rewrite Hi.
    + right. apply (monitor_callee s data i Hw); [|exact H2].
      unfold backend_list. now rewrite Hi.
  - unfold AndroidBridgeNfc.onMessage, AndroidBridgeNfc.handleNativeMessage.
    destruct (AndroidBridgeNfc.isBridgeAvailable b); simpl;
      [|intros H; now apply elem_of_nil in H].
    intros H. apply dispatchNativeMessage_callee in H as [H | (data & H1 & H2)].
    + left. unfold backend_list. now rewrite Hi.
    + right. apply (monitor_callee s data i Hw); [|exact H2].
      unfold backend_list. now rewrite Hi.
Qed.

Lemma onReading_callee (abort : CallOutcome) (event : WebNfc.NDEFReadingEvent)
    (s : Nfc.t) (i : Invocation) :
  wired s ->
  i ∈ snd (Nfc.onReading abort event s) ->
  callee i ∈ backend_list (event_of (argument i)) s
  \/ callee i ∈ facade_set (event_of (argument i)) s.
Proof.
  intros Hw. unfold Nfc.onReading.
  destruct (Nfc.implementation s) as [w|b|b] eqn:Hi; simpl;
    try (intros H; now apply elem_of_nil in H).
  unfold WebNfc.onReading.
  destruct (negb _); simpl; [intros H; now apply elem_of_nil in H|].
  destruct (call_each _ _ _) as [trace threw] eqn:E.
  assert (Htrace : i ∈ trace ->
                   callee i ∈ backend_list (event_of (argument i)) s
                   \/ callee i ∈ facade_set (event_of (argument i)) s).
  { intros H.
    assert (H' : i ∈ fst (call_each (Nfc.monitor s)
                             (Registry.get "tagDetected" (WebNfc.listeners w))
                             (TagPayload (WebNfc.parseNdefReading event))))
      by now rewrite E.
    apply call_each_callee in H' as [[H1 H2] | [H1 H2]].
    - left. rewrite H2. unfold backend_list. now rewrite Hi.
    - exfalso. apply Hw. unfold backend_list. now rewrite Hi. }
  destruct threw; simpl; [exact Htrace|].
  destruct (WebNfc.scanOnce w); simpl; exact Htrace.
Qed.

Lemma typed_step_is_step (s s' : Nfc.t) :
  Nfc_typed_step s s' -> Nfc_step s s'.
Proof. intros []; constructor. Qed.

(** The methods that only forward leave the facade and its backend as they
    are. *)
Lemma typed_call_step_or_same (s s' : Nfc.t) :
  Nfc_typed_call s s' -> Nfc_step s s' \/ s' = s.
Proof.
  intros Hcall.
  destruct Hcall as [s s' Hstep | options radio native s | native s
                    | radio native s | radio native s | native s | native s];
    [left; now apply typed_step_is_step|..]; right;
    destruct s as [[w|b|b] ls ii ai];
    unfold Nfc.write, Nfc.makeReadOnly, Nfc.format, Nfc.erase, Nfc.share,
      Nfc.stopSharing, WebNfc.write, WebNfc.makeReadOnly, WebNfc.format,
      WebNfc.erase, WebNfc.format, WebNfc.share, WebNfc.stopSharing,
      IosBridgeNfc.write, IosBridgeNfc.makeReadOnly, IosBridgeNfc.format,
      IosBridgeNfc.erase, IosBridgeNfc.share, IosBridgeNfc.stopSharing,
      AndroidBridgeNfc.write, AndroidBridgeNfc.makeReadOnly,
      AndroidBridgeNfc.format, AndroidBridgeNfc.erase,
      AndroidBridgeNfc.share, AndroidBridgeNfc.stopSharing; simpl;
    repeat match goal with
           | |- context [if ?c then _ else _] => destruct c; simpl
           | |- context [match ?x with _ => _ end] =>
               is_var x; destruct x; simpl
           end; reflexivity.
Qed.

Lemma typed_reachable_reachable (s : Nfc.t) :
  Nfc_typed_reachable s -> Nfc_reachable s.
Proof.
  induction 1 as [w | s s' _ IH Hcall]; [apply nfc_reachable_new|].
  destruct (typed_call_step_or_same s s' Hcall) as [Hstep | ->];
    [exact (nfc_reachable_step s s' IH Hstep) | exact IH].
Qed.

Lemma typed_reachable_rtc (s t : Nfc.t) :
  Nfc_typed_reachable s -> rtc Nfc_typed_call s t -> Nfc_typed_reachable t.
Proof.
  intros Hs Hst. induction Hst as [s | s s' t Hcall _ IH]; [exact Hs|].
  apply IH. exact (typed_reachable_call s s' Hs Hcall).
Qed.

Lemma get_removeListener_filter (en e : string) (f : Callback)
    (r : gmap string (list Callback)) :
  Registry.get en (Registry.removeListener e f r)
  = if decide (en = e) then filter (fun l => l <> f) (Registry.get en r)
    else Registry.get en r.
Proof.
  unfold Registry.removeListener, Registry.get.
  destruct (decide (en = e)) as [->|Hne].
  - destruct (r !! e) as [ls|] eqn:He.
    + now rewrite lookup_insert_eq.
    + now rewrite He.
  - destruct (r !! e) as [ls|] eqn:He; [|reflexivity].
    now rewrite lookup_insert_ne by congruence.
Qed.

Lemma backend_list_remove_filter (en : string) (h : PluginListenerHandle)
    (s : Nfc.t) :
  backend_list en (snd (Nfc.remove h s))
  = if decide (en = h_eventName h)
    then filter (fun l => l <> h_listenerFunc h) (backend_list en s)
    else backend_list en s.
Proof.
  rewrite remove_state. unfold backend_list. simpl.
  destruct (impl_listeners_remove h (Nfc.implementation s)) as (_ & ->).
  apply get_removeListener_filter.
Qed.

Lemma facade_set_remove_filter (en : string) (h : PluginListenerHandle)
    (s : Nfc.t) :
  facade_set en (snd (Nfc.remove h s))
  = if decide (en = h_eventName h)
    then filter (fun l => l <> h_listenerFunc h) (facade_set en s)
    else facade_set en s.
Proof.
  rewrite remove_state. unfold facade_set. simpl.
  destruct (decide (en = h_eventName h)) as [->|Hne].
  - destruct (Nfc.listeners s !! h_eventName h) as [fs|] eqn:He.
    + now rewrite lookup_insert_eq.
    + now rewrite He.
  - destruct (Nfc.listeners s !! h_eventName h) as [fs|] eqn:He;
      [|reflexivity].
    now rewrite lookup_insert_ne by congruence.
Qed.

(** C8. A function of the caller's is registered through the facade under a
    declared event name, in any state the facade can be in: [addListener]
    resolves with a handle and the function is in the facade's set and in
    the bound backend's array for that name.  Whatever is done with the
    facade afterwards, other listeners being registered after it or not,
    the handle's [remove] then resolves and takes exactly that function out
    of the facade's set and out of the backend's array for that name,
    leaving every other function, in its place, under every name; an event
    delivered afterwards does not call the function for that name; and a
    second [remove] resolves and changes nothing. *)
Theorem removed_listener_is_not_called (s t : Nfc.t) (eventName : string)
    (ident : nat) (throws : bool) :
  Nfc_typed_reachable s ->
  declared_event eventName ->
  let f := UserFn ident throws in
  let h := {| h_eventName := eventName; h_listenerFunc := f |} in
  let added := Nfc.addListener eventName f s in
  rtc Nfc_typed_call (snd added) t ->
  let removed := Nfc.remove h t in
  let again := Nfc.remove h (snd removed) in
  fst added = Resolved h
  /\ f ∈ facade_set eventName (snd added)
  /\ f ∈ backend_list eventName (snd added)
  /\ fst removed = Resolved tt
  /\ (forall en,
        facade_set en (snd removed)
        = if decide (en = eventName)
          then filter (fun l => l <> f) (facade_set en t)
          else facade_set en t)
  /\ (forall en,
        backend_list en (snd removed)
        = if decide (en = eventName)
          then filter (fun l => l <> f) (backend_list en t)
          else backend_list en t)
  /\ (f ∉ facade_set eventName (snd removed))
  /\ (f ∉ backend_list eventName (snd removed))
  /\ (forall event,
        ~ called_for eventName f (snd (Nfc.onMessage event (snd removed))))
  /\ (forall abort event,
        ~ called_for eventName f
            (snd (Nfc.onReading abort event (snd removed))))
  /\ fst again = Resolved tt
  /\ snd again = snd removed.
Proof.
  intros Hreach Hdeclared f h added Hlater removed again.
  assert (Hwired : wired (snd removed)).
  { apply reachable_wired.
    eapply nfc_reachable_step; [|apply nfc_remove].
    apply typed_reachable_reachable.
    apply (typed_reachable_rtc (snd added) t); [|exact Hlater].
    eapply typed_reachable_call; [exact Hreach|].
    apply typed_call_step. now apply typed_addListener. }
  assert (Hfacade : f ∉ facade_set eventName (snd removed)).
  { subst removed. rewrite facade_set_remove. intros [_ H]. now apply H. }
  assert (Hbackend : f ∉ backend_list eventName (snd removed)).
  { subst removed. rewrite backend_list_remove. intros [_ H]. now apply H. }
  assert (Hnot : forall i, callee i = f -> event_of (argument i) = eventName ->
                 ~ (callee i ∈ backend_list (event_of (argument i)) (snd removed)
                    \/ callee i ∈ facade_set (event_of (argument i)) (snd removed))).
  { intros i -> ->. tauto. }
  repeat match goal with |- _ /\ _ => split end.
  - subst added. now rewrite addListener_state.
  - subst added. rewrite addListener_state. unfold facade_set. simpl.
    rewrite lookup_insert_eq. simpl. unfold Nfc.set_add.
    case_bool_decide as Hin; [exact Hin|].
    apply elem_of_app. right. now apply list_elem_of_singleton.
  - subst added. rewrite backend_list_addListener. now right.
  - subst removed. now rewrite remove_state.
  - intros en. subst removed. apply (facade_set_remove_filter en h t).
  - intros en. subst removed. apply (backend_list_remove_filter en h t).
  - exact Hfacade.
  - exact Hbackend.
  - intros event (i & Hi & Hc & He).
    apply (Hnot i Hc He). now apply (onMessage_callee event).
  - intros abort event (i & Hi & Hc & He).
    apply (Hnot i Hc He). now apply (onReading_callee abort event).
  - subst again. now rewrite remove_state.
  - subst again removed. apply remove_twice.
Qed.

(** Before its removal the listener is called by that message. *)
Example listener_called_before_removal :
  let f := UserFn 7 false in
  let added := Nfc.addListener "tagDetected" f (Nfc.new ios_webview) in
  calls_of f (snd (Nfc.onMessage tag_message (snd added))) = 1.
Proof. vm_compute. reflexivity. Qed.

Lemma removed_listener_is_not_called_witness :
  let f := UserFn 7 false in
  let g := UserFn 8 false in
  let h := {| h_eventName := "tagDetected"; h_listenerFunc := f |} in
  let added := Nfc.addListener "tagDetected" f (Nfc.new ios_webview) in
  let later := Nfc.addListener "tagDetected" g (snd added) in
  let removed := Nfc.remove h (snd later) in
  let again := Nfc.remove h (snd removed) in
  backend_list "tagDetected" (snd later) = [f; g]
  /\ fst removed = Resolved tt
  /\ backend_list "tagDetected" (snd removed) = [g]
  /\ facade_set "tagDetected" (snd removed) = [g]
  /\ ~ called_for "tagDetected" f
        (snd (Nfc.onMessage tag_message (snd removed)))
  /\ fst again = Resolved tt
  /\ snd again = snd removed.
Proof.
  intros f g h added later removed again.
  assert (Hlater : rtc Nfc_typed_call (snd added) (snd later)).
  { apply rtc_once. apply typed_call_step. apply typed_addListener.
    right. reflexivity. }
  destruct (removed_listener_is_not_called (Nfc.new ios_webview) (snd later)
              "tagDetected" 7 false (typed_reachable_new ios_webview)
              (or_intror eq_refl) Hlater)
    as (_ & _ & _ & Hr & Hf & Hb & _ & _ & Hmsg & _ & Ha & Hsame).
  split; [vm_compute; reflexivity|]. split; [exact Hr|].
  split; [etrans; [apply (Hb "tagDetected") | vm_compute; reflexivity]|].
  split; [etrans; [apply (Hf "tagDetected") | vm_compute; reflexivity]|].
  split; [apply Hmsg|]. split; [exact Ha | exact Hsame].
Defined.

(** * Further properties *)

(** ** The record codec, the helpers of utils.ts and the simple API *)

Lemma round_trip_uri (r : NdefRecord.t) (u : string) :
  well_formed_uri r u ->
  NdefRecord.uri (round_trip r) = Some (Js.TextDecoder_decode u)
  /\ NdefRecord.payload (round_trip r) = Some (Js.TextDecoder_decode u)
  /\ NdefRecord.text (round_trip r) = Some ""
  /\ NdefRecord.type (round_trip r) = "url"
  /\ NdefRecord.tnf (round_trip r) = NfcTnf.WELL_KNOWN
  /\ NdefRecord.languageCode (round_trip r) = Some "en".
Proof.
  intros (Ht & Hu & Hp & Hx & Hsome).
  unfold round_trip, WebNfc.fromUnifiedRecord. rewrite Ht.
  cbn [String.eqb Ascii.eqb Bool.eqb NfcRtd.URI].
  rewrite (opt_or_else_carried _ _ u Hu Hp Hx Hsome).
  unfold WebNfc.toUnifiedRecord, WebNfc.read_back.
  cbn [WebNfc.recordType WebNfc.data WebNfc.lang WebNfc.init_recordType
         WebNfc.init_data WebNfc.init_lang String.eqb Ascii.eqb Bool.eqb
         NdefRecord.text NdefRecord.payload NdefRecord.type NdefRecord.uri
         NdefRecord.tnf NdefRecord.languageCode Js.or_else Js.opt_or_else].
  repeat split.
Qed.

(** X1. A well-formed URI record whose content [u] is well-formed Unicode
    text that does not begin with U+FEFF comes back from the write mapping
    followed by the read mapping with [uri] and [payload] equal to [u]; its
    type comes back as the native keyword ["url"], and its language code as
    ["en"] whatever it was, since no language is written for a URI
    record. *)
Theorem uri_record_round_trip (r : NdefRecord.t) (u : string) :
  well_formed_uri r u ->
  kept_by_decoder u ->
  NdefRecord.uri (round_trip r) = Some u
  /\ NdefRecord.payload (round_trip r) = Some u
  /\ NdefRecord.text (round_trip r) = Some ""
  /\ NdefRecord.type (round_trip r) = "url"
  /\ NdefRecord.tnf (round_trip r) = NfcTnf.WELL_KNOWN
  /\ NdefRecord.languageCode (round_trip r) = Some "en".
Proof.
  intros Hr Hu.
  destruct (round_trip_uri r u Hr) as (H1 & H2 & H3).
  rewrite (TextDecoder_decode_kept u Hu) in H1, H2.
  split; [exact H1|]. split; [exact H2 | exact H3].
Qed.

Lemma uri_record_round_trip_witness :
  let r :=
    {| NdefRecord.id := ""; NdefRecord.tnf := NfcTnf.WELL_KNOWN;
       NdefRecord.type := "U"; NdefRecord.payload := None;
       NdefRecord.languageCode := Some "fr";
       NdefRecord.uri := Some "https://example.com/"; NdefRecord.text := None |} in
  NdefRecord.uri (round_trip r) = Some "https://example.com/"
  /\ NdefRecord.payload (round_trip r) = Some "https://example.com/"
  /\ NdefRecord.text (round_trip r) = Some ""
  /\ NdefRecord.type (round_trip r) = "url"
  /\ NdefRecord.tnf (round_trip r) = NfcTnf.WELL_KNOWN
  /\ NdefRecord.languageCode (round_trip r) = Some "en".
Proof.
  intros r. apply (uri_record_round_trip r "https://example.com/").
  - unfold well_formed_uri, carries. simpl.
    split; [reflexivity|]. split; [discriminate|]. split; [left; reflexivity|].
    split; [right; right; reflexivity | right; reflexivity].
  - split; reflexivity.
Defined.

Lemma round_trip_same_content (r : NdefRecord.t) (c : string) :
  kept_by_decoder c ->
  well_formed_text r c \/ well_formed_uri r c ->
  same_content r (round_trip r).
Proof.
  intros Hc [Hr | Hr]; exists c.
  - destruct (round_trip_text r c Hr) as (Ht & Hp & Hty & _).
    rewrite (TextDecoder_decode_kept c Hc) in Ht, Hp.
    split; [exact Hp|]. left. split; [exact Hr|]. split; [exact Hty | exact Ht].
  - destruct (round_trip_uri r c Hr) as (Hu & Hp & _ & Hty & _).
    rewrite (TextDecoder_decode_kept c Hc) in Hu, Hp.
    split; [exact Hp|]. right. split; [exact Hr|]. split; [exact Hty | exact Hu].
Qed.

Lemma written_then_read_messages (serial : option string)
    (rs : list NdefRecord.t) :
  TagDetectedEvent.messages
    (written_then_read serial {| message := {| records := rs |} |})
  = match rs with
    | [] => []
    | _ => [ {| records := map round_trip rs |} ]
    end.
Proof.
  unfold written_then_read, read_back_event, WebNfc.parseNdefReading,
    WebNfc.writeRecords.
  cbn [WebNfc.message records TagDetectedEvent.messages].
  rewrite !map_map. destruct rs; reflexivity.
Qed.

(** X2. A message of well-formed text and URI records, each with a content
    that the decoder keeps, and the reading event that carries the records
    as they were written: the tag is reported with the single technology
    ["ndef"] and one message, which has as many records as were written,
    each with the content of the written record at the same place.  A
    message without records is reported as no message at all. *)
Theorem message_round_trip (serial : option string) (rs : list NdefRecord.t) :
  Forall (fun r => exists c, kept_by_decoder c
                             /\ (well_formed_text r c \/ well_formed_uri r c))
    rs ->
  let tag := written_then_read serial {| message := {| records := rs |} |} in
  TagDetectedEvent.techTypes tag = ["ndef"]
  /\ TagDetectedEvent.id tag = Js.opt_or_else serial ""
  /\ (rs = [] -> TagDetectedEvent.messages tag = [])
  /\ (rs <> [] ->
      exists rs',
        TagDetectedEvent.messages tag = [ {| records := rs' |} ]
        /\ Forall2 same_content rs rs').
Proof.
  intros Hrs tag. subst tag.
  split; [reflexivity|]. split; [reflexivity|].
  rewrite written_then_read_messages. split.
  - intros ->. reflexivity.
  - intros Hne. exists (map round_trip rs). split.
    + destruct rs; [congruence | reflexivity].
    + clear Hne. induction Hrs as [|r rs (c & Hc & Hr) _ IH]; simpl.
      * constructor.
      * constructor; [exact (round_trip_same_content r c Hc Hr) | exact IH].
Qed.

Lemma message_round_trip_witness :
  let rs :=
    [NfcUtils.createUriRecord "https://example.com/";
     NfcUtils.createTextRecord "hello" None] in
  exists rs',
    TagDetectedEvent.messages
      (written_then_read None {| message := {| records := rs |} |})
    = [ {| records := rs' |} ]
    /\ Forall2 same_content rs rs'.
Proof.
  intros rs.
  apply (message_round_trip None rs); [|discriminate].
  repeat constructor.
  - exists "https://example.com/". split; [split; reflexivity|]. right.
    unfold well_formed_uri, carries. simpl.
    split; [reflexivity|]. split; [discriminate|].
    split; [right; right; reflexivity|].
    split; [right; right; reflexivity | left; reflexivity].
  - exists "hello". split; [split; reflexivity|]. left.
    unfold well_formed_text, carries. simpl.
    split; [reflexivity|]. split; [discriminate|].
    split; [right; right; reflexivity|].
    split; [right; right; reflexivity | left; reflexivity].
Defined.

Lemma firstOfRecords_truthy (pick : NdefRecord.t -> option string)
    (rs : list NdefRecord.t) (x : string) :
  (forall r y, pick r = Some y -> y <> "") ->
  NfcUtils.firstOfRecords pick rs = Some x -> x <> "".
Proof.
  intros Hpick. induction rs as [|r rs IH]; simpl; [discriminate|].
  destruct (pick r) as [y|] eqn:E; [|exact IH].
  intros [= <-]. exact (Hpick r y E).
Qed.

Lemma firstOfMessages_truthy (pick : NdefRecord.t -> option string)
    (ms : list NdefMessage) (x : string) :
  (forall r y, pick r = Some y -> y <> "") ->
  NfcUtils.firstOfMessages pick ms = Some x -> x <> "".
Proof.
  intros Hpick. induction ms as [|m ms IH]; simpl; [discriminate|].
  destruct (NfcUtils.firstOfRecords pick (records m)) as [y|] eqn:E;
    [|exact IH].
  intros [= <-]. exact (firstOfRecords_truthy pick _ y Hpick E).
Qed.

Lemma truthy_nonempty (o : option string) (y : string) :
  Js.truthy o = true -> o = Some y -> y <> "".
Proof. intros H ->. destruct y; [discriminate H | discriminate]. Qed.

Lemma textOfRecord_truthy (r : NdefRecord.t) (y : string) :
  NfcUtils.textOfRecord r = Some y -> y <> "".
Proof.
  unfold NfcUtils.textOfRecord.
  destruct (Js.truthy (NdefRecord.text r)) eqn:E1;
    [now apply truthy_nonempty|].
  destruct (_ && Js.truthy (NdefRecord.payload r)) eqn:E2; [|discriminate].
  apply andb_true_iff in E2 as [_ E2]. now apply truthy_nonempty.
Qed.

Lemma urlOfRecord_truthy (r : NdefRecord.t) (y : string) :
  NfcUtils.urlOfRecord r = Some y -> y <> "".
Proof.
  unfold NfcUtils.urlOfRecord.
  destruct (Js.truthy (NdefRecord.uri r)) eqn:E1;
    [now apply truthy_nonempty|].
  destruct (_ && Js.truthy (NdefRecord.payload r)) eqn:E2; [|discriminate].
  apply andb_true_iff in E2 as [_ E2]. now apply truthy_nonempty.
Qed.

(** X3. [getTextFromTag] and [getUrlFromTag] answer [null] for a tag without
    messages and never answer the empty string.  On a message that starts
    with a record made by [createTextRecord] with a non-empty text,
    [getTextFromTag] answers that text, and [getUrlFromTag] skips the record;
    and the same with text and URI exchanged. *)
Theorem getters_on_created_records :
  NfcUtils.getTextFromTag [] = None
  /\ NfcUtils.getUrlFromTag [] = None
  /\ (forall ms x, NfcUtils.getTextFromTag ms = Some x -> x <> "")
  /\ (forall ms x, NfcUtils.getUrlFromTag ms = Some x -> x <> "")
  /\ (forall text lang rest ms,
        text <> "" ->
        let m :=
          NfcUtils.createMessage (NfcUtils.createTextRecord text lang :: rest) in
        NfcUtils.getTextFromTag (m :: ms) = Some text
        /\ NfcUtils.getUrlFromTag (m :: ms)
           = NfcUtils.getUrlFromTag (NfcUtils.createMessage rest :: ms))
  /\ (forall uri rest ms,
        uri <> "" ->
        let m := NfcUtils.createMessage (NfcUtils.createUriRecord uri :: rest) in
        NfcUtils.getUrlFromTag (m :: ms) = Some uri
        /\ NfcUtils.getTextFromTag (m :: ms)
           = NfcUtils.getTextFromTag (NfcUtils.createMessage rest :: ms)).
Proof.
  split; [reflexivity|]. split; [reflexivity|]. split; [|split; [|split]].
  - intros ms x. apply firstOfMessages_truthy. exact textOfRecord_truthy.
  - intros ms x. apply firstOfMessages_truthy. exact urlOfRecord_truthy.
  - intros text lang rest ms Hne. simpl.
    destruct text as [|c text]; [congruence|]. split; reflexivity.
  - intros uri rest ms Hne. simpl.
    destruct uri as [|c uri]; [congruence|]. split; reflexivity.
Qed.

Lemma getters_on_created_records_witness :
  NfcUtils.getTextFromTag
    [NfcUtils.createMessage
       [NfcUtils.createTextRecord "hello" None;
        NfcUtils.createUriRecord "https://example.com"]] = Some "hello"
  /\ NfcUtils.getUrlFromTag
       [NfcUtils.createMessage
          [NfcUtils.createTextRecord "hello" None;
           NfcUtils.createUriRecord "https://example.com"]]
     = Some "https://example.com".
Proof.
  destruct getters_on_created_records as (_ & _ & _ & _ & Htext & Huri).
  destruct (Htext "hello" None [NfcUtils.createUriRecord "https://example.com"]
              [] ltac:(discriminate)) as [H1 H2].
  split; [exact H1|]. rewrite H2.
  apply (Huri "https://example.com" [] [] ltac:(discriminate)).
Defined.

Lemma round_trip_created_text (content : string) (lang : option string) :
  content <> "" -> kept_by_decoder content ->
  round_trip (NfcUtils.createTextRecord content lang)
  = {| NdefRecord.id := ""; NdefRecord.tnf := NfcTnf.WELL_KNOWN;
       NdefRecord.type := "text"; NdefRecord.payload := Some content;
       NdefRecord.languageCode :=
         Some (Js.or_else (default "en" lang) "en");
       NdefRecord.uri := Some ""; NdefRecord.text := Some content |}.
Proof.
  intros Hne Hc. unfold round_trip, WebNfc.read_back.
  assert (Hdata : WebNfc.init_data
                    (WebNfc.fromUnifiedRecord
                       (NfcUtils.createTextRecord content lang)) = content).
  { destruct content; [congruence | reflexivity]. }
  rewrite Hdata, (TextDecoder_decode_kept content Hc).
  unfold WebNfc.toUnifiedRecord. simpl.
  destruct (default "en" lang) as [|a l]; reflexivity.
Qed.

Lemma round_trip_created_uri (content : string) :
  content <> "" -> kept_by_decoder content ->
  round_trip (NfcUtils.createUriRecord content)
  = {| NdefRecord.id := ""; NdefRecord.tnf := NfcTnf.WELL_KNOWN;
       NdefRecord.type := "url"; NdefRecord.payload := Some content;
       NdefRecord.languageCode := Some "en";
       NdefRecord.uri := Some content; NdefRecord.text := Some "" |}.
Proof.
  intros Hne Hc. unfold round_trip, WebNfc.read_back.
  assert (Hdata : WebNfc.init_data
                    (WebNfc.fromUnifiedRecord
                       (NfcUtils.createUriRecord content)) = content).
  { destruct content; [congruence | reflexivity]. }
  rewrite Hdata, (TextDecoder_decode_kept content Hc).
  reflexivity.
Qed.

(** X4. The simple API end to end on the radio backend, for the reading
    event that carries the records as they were written.  A non-empty text
    that the decoder keeps, written by [writeText], is handed to the reading
    callback as that text with type ["text"], and written by [writeUrl] as
    that URL with type ["url"].  The empty string, and the text that
    consists of U+FEFF alone, which the decoder drops, are handed over as
    ["Unknown content"] with type ["other"], and a tag without records as
    ["Empty tag"]. *)
Theorem simple_write_then_read (serial : option string) (content : string) :
  (content <> "" -> kept_by_decoder content ->
   SimpleNfc.tagListener
     (written_then_read serial (SimpleNfc.writeText content))
   = (content, "text")
   /\ SimpleNfc.tagListener
        (written_then_read serial (SimpleNfc.writeUrl content))
      = (content, "url"))
  /\ SimpleNfc.tagListener (written_then_read serial (SimpleNfc.writeText ""))
     = ("Unknown content", "other")
  /\ SimpleNfc.tagListener (written_then_read serial (SimpleNfc.writeUrl ""))
     = ("Unknown content", "other")
  /\ SimpleNfc.tagListener
       (written_then_read serial (SimpleNfc.writeText Js.byte_order_mark))
     = ("Unknown content", "other")
  /\ SimpleNfc.tagListener
       (written_then_read serial {| message := {| records := [] |} |})
     = ("Empty tag", "other").
Proof.
  split; [|repeat split].
  intros Hne Hc. unfold SimpleNfc.tagListener, SimpleNfc.writeText,
    SimpleNfc.writeUrl.
  rewrite !written_then_read_messages. cbn [map].
  rewrite (round_trip_created_text content None Hne Hc).
  rewrite (round_trip_created_uri content Hne Hc).
  destruct content as [|c content]; [congruence|].
  split; reflexivity.
Qed.

Lemma simple_write_then_read_witness :
  SimpleNfc.tagListener (written_then_read None (SimpleNfc.writeText "hello"))
  = ("hello", "text")
  /\ SimpleNfc.tagListener
       (written_then_read None (SimpleNfc.writeUrl "https://example.com/"))
     = ("https://example.com/", "url").
Proof.
  split.
  - apply (proj1 (simple_write_then_read None "hello"));
      [discriminate | split; reflexivity].
  - apply (proj1 (simple_write_then_read None "https://example.com/"));
      [discriminate | split; reflexivity].
Defined.

(** ** The capability detectors *)

Lemma span_digits_app (d post : string) :
  digits d = true -> Js.starts_with_digit post = false ->
  Js.span_digits (d +:+ post) = (d, post).
Proof.
  intros Hd Hpost. induction d as [|c d IH].
  - now apply span_digits_no_digit.
  - simpl in Hd. apply andb_true_iff in Hd as [Hc Hd].
    change (String c d +:+ post) with (String c (d +:+ post)).
    simpl. rewrite Hc, (IH Hd). reflexivity.
Qed.

Lemma version_threshold (k major minor : Z) :
  Qle_bool (inject_Z k) (inject_Z major + inject_Z minor / 10)
  = (10 * k <=? 10 * major + minor)%Z.
Proof.
  unfold Qle_bool, Qplus, Qdiv, Qmult, Qinv, inject_Z. simpl.
  f_equal; lia.
Qed.

Lemma android_match_major_minor (major minor post : string) :
  digits major = true -> major <> "" ->
  digits minor = true -> minor <> "" ->
  Js.starts_with_digit post = false ->
  AndroidDetection.match_version_at
    ("Android " +:+ major +:+ "." +:+ minor +:+ post)
  = Some (major, Some minor).
Proof.
  intros Hd1 Hn1 Hd2 Hn2 Hpost. unfold AndroidDetection.match_version_at.
  change (Js.strip_prefix "Android "
            ("Android " +:+ major +:+ "." +:+ minor +:+ post))
    with (Some (major +:+ "." +:+ minor +:+ post)).
  cbv beta iota.
  rewrite (span_digits_app major ("." +:+ minor +:+ post) Hd1 eq_refl).
  destruct major as [|c major]; [congruence|].
  change ("." +:+ minor +:+ post) with (String "." (minor +:+ post)).
  cbv beta iota zeta.
  rewrite (span_digits_app minor _ Hd2 Hpost).
  destruct minor; [congruence | reflexivity].
Qed.

Lemma android_match_major_only (major post : string) :
  digits major = true -> major <> "" -> ends_version post = true ->
  AndroidDetection.match_version_at ("Android " +:+ major +:+ post)
  = Some (major, None).
Proof.
  intros Hd1 Hn1 Hpost. unfold AndroidDetection.match_version_at.
  change (Js.strip_prefix "Android " ("Android " +:+ major +:+ post))
    with (Some (major +:+ post)).
  cbv beta iota.
  assert (Hnd : Js.starts_with_digit post = false).
  { destruct post as [|c post]; [reflexivity|].
    unfold ends_version in Hpost.
    destruct (Ascii.eqb c ".") eqn:E.
    - apply Ascii.eqb_eq in E as ->. reflexivity.
    - simpl. apply negb_true_iff.
      destruct c as [[] [] [] [] [] [] [] []]; try exact Hpost;
        discriminate E. }
  rewrite (span_digits_app major _ Hd1 Hnd).
  destruct major as [|c major]; [congruence|].
  cbv beta iota zeta.
  destruct post as [|c' post]; [reflexivity|].
  destruct (Ascii.eqb c' ".") eqn:E.
  - apply Ascii.eqb_eq in E as ->. simpl in Hpost.
    apply negb_true_iff in Hpost.
    rewrite (span_digits_no_digit _ Hpost). reflexivity.
  - destruct c' as [[] [] [] [] [] [] [] []]; try reflexivity;
      discriminate E.
Qed.

(** X5. On a user agent whose first match of the version expression is
    [Android <major>.<minor>], the Android detector reports a version and
    reports native NFC support exactly when ten times the major number plus
    the minor number is at least 40; when the first match is
    [Android <major>] without a minor part, exactly when the major number is
    at least 4. *)
Theorem android_version_formula (pre major post : string) :
  digits major = true -> major <> "" ->
  (forall minor : string,
     digits minor = true -> minor <> "" ->
     Js.starts_with_digit post = false ->
     Js.no_match_in AndroidDetection.match_version_at pre
       ("Android " +:+ major +:+ "." +:+ minor +:+ post) = true ->
     let info :=
       AndroidDetection.getAndroidSupportInfo
         (pre +:+ "Android " +:+ major +:+ "." +:+ minor +:+ post) in
     AndroidDetection.isAndroid info = true
     /\ AndroidDetection.version info <> None
     /\ AndroidDetection.supportsNfc info
        = (40 <=? 10 * Js.parseInt major + Js.parseInt minor)%Z)
  /\ (ends_version post = true ->
      Js.no_match_in AndroidDetection.match_version_at pre
        ("Android " +:+ major +:+ post) = true ->
      let info :=
        AndroidDetection.getAndroidSupportInfo
          (pre +:+ "Android " +:+ major +:+ post) in
      AndroidDetection.isAndroid info = true
      /\ AndroidDetection.version info <> None
      /\ AndroidDetection.supportsNfc info = (4 <=? Js.parseInt major)%Z).
Proof.
  intros Hd1 Hn1. split.
  - intros minor Hd2 Hn2 Hpost Hpre info. subst info.
    unfold AndroidDetection.getAndroidSupportInfo.
    rewrite (test_i_app_r "android" pre
               ("Android " +:+ major +:+ "." +:+ minor +:+ post) eq_refl).
    simpl negb. cbv iota.
    unfold AndroidDetection.versionMatch.
    rewrite (regex_search_skip _ _ _ Hpre).
    rewrite (regex_search_here _ _ _
               (android_match_major_minor major minor post Hd1 Hn1 Hd2 Hn2
                  Hpost)).
    cbn [AndroidDetection.isAndroid AndroidDetection.version
           AndroidDetection.supportsNfc Js.opt_or_else].
    destruct minor as [|c minor]; [congruence|]. cbn [Js.or_else].
    split; [reflexivity|]. split; [discriminate|].
    apply (version_threshold 4).
  - intros Hpost Hpre info. subst info.
    unfold AndroidDetection.getAndroidSupportInfo.
    rewrite (test_i_app_r "android" pre ("Android " +:+ major +:+ post)
               eq_refl).
    simpl negb. cbv iota.
    unfold AndroidDetection.versionMatch.
    rewrite (regex_search_skip _ _ _ Hpre).
    rewrite (regex_search_here _ _ _
               (android_match_major_only major post Hd1 Hn1 Hpost)).
    cbn [AndroidDetection.isAndroid AndroidDetection.version
           AndroidDetection.supportsNfc Js.opt_or_else].
    split; [reflexivity|]. split; [discriminate|].
    change (Js.parseInt "0") with 0%Z.
    rewrite (version_threshold 4). apply eq_true_iff_eq.
    rewrite !Z.leb_le. lia.
Qed.

Lemma android_version_formula_witness :
  AndroidDetection.supportsNfc
    (AndroidDetection.getAndroidSupportInfo
       ("Mozilla/5.0 (Linux; U; " +:+ "Android " +:+ "2" +:+ "." +:+ "3"
        +:+ ".6; GT-S5830 Build/GINGERBREAD) AppleWebKit/533.1"))
  = (40 <=? 10 * Js.parseInt "2" + Js.parseInt "3")%Z
  /\ AndroidDetection.supportsNfc
       (AndroidDetection.getAndroidSupportInfo
          ("Mozilla/5.0 (Linux; " +:+ "Android " +:+ "13"
           +:+ "; Pixel 7) AppleWebKit/537.36"))
     = (4 <=? Js.parseInt "13")%Z.
Proof.
  split.
  - apply (proj1 (android_version_formula "Mozilla/5.0 (Linux; U; " "2"
                    ".6; GT-S5830 Build/GINGERBREAD) AppleWebKit/533.1"
                    eq_refl ltac:(discriminate)) "3");
      try reflexivity; discriminate.
  - apply (proj2 (android_version_formula "Mozilla/5.0 (Linux; " "13"
                    "; Pixel 7) AppleWebKit/537.36"
                    eq_refl ltac:(discriminate))); reflexivity.
Defined.

Lemma ios_match_major_minor (major minor post : string) :
  digits major = true -> major <> "" ->
  digits minor = true -> minor <> "" ->
  Js.starts_with_digit post = false ->
  IosDetection.match_version_at ("OS " +:+ major +:+ "_" +:+ minor +:+ post)
  = Some (major, minor).
Proof.
  intros Hd1 Hn1 Hd2 Hn2 Hpost. unfold IosDetection.match_version_at.
  change (Js.strip_prefix "OS " ("OS " +:+ major +:+ "_" +:+ minor +:+ post))
    with (Some (major +:+ "_" +:+ minor +:+ post)).
  cbv beta iota.
  rewrite (span_digits_app major ("_" +:+ minor +:+ post) Hd1 eq_refl).
  destruct major as [|c major]; [congruence|].
  change ("_" +:+ minor +:+ post) with (String "_" (minor +:+ post)).
  cbv beta iota zeta.
  rewrite (span_digits_app minor _ Hd2 Hpost).
  destruct minor; [congruence | reflexivity].
Qed.

(** X6. On an iOS user agent whose first match of the version expression is
    [OS <major>_<minor>], the iOS detector reports a version, reports NFC
    support exactly when ten times the major number plus the minor number is
    at least 110, and reports that a native app is required. *)
Theorem ios_version_formula (pre major minor post : string) :
  digits major = true -> major <> "" ->
  digits minor = true -> minor <> "" ->
  Js.starts_with_digit post = false ->
  Js.no_match_in IosDetection.match_version_at pre
    ("OS " +:+ major +:+ "_" +:+ minor +:+ post) = true ->
  let info :=
    IosDetection.getIosSupportInfo
      (pre +:+ "OS " +:+ major +:+ "_" +:+ minor +:+ post) in
  IosDetection.isIos info = true ->
  IosDetection.version info <> None
  /\ IosDetection.supportsNfc info
     = (110 <=? 10 * Js.parseInt major + Js.parseInt minor)%Z
  /\ IosDetection.requiresNative info = true.
Proof.
  intros Hd1 Hn1 Hd2 Hn2 Hpost Hpre info. subst info.
  unfold IosDetection.getIosSupportInfo.
  destruct (negb _) eqn:E; [discriminate|]. intros _.
  unfold IosDetection.versionMatch.
  rewrite (regex_search_skip _ _ _ Hpre).
  rewrite (regex_search_here _ _ _
             (ios_match_major_minor major minor post Hd1 Hn1 Hd2 Hn2 Hpost)).
  cbn [IosDetection.version IosDetection.supportsNfc
         IosDetection.requiresNative].
  split; [discriminate|]. split; [|reflexivity].
  apply (version_threshold 11).
Qed.

Lemma ios_version_formula_witness :
  let info :=
    IosDetection.getIosSupportInfo
      ("Mozilla/5.0 (iPhone; CPU iPhone " +:+ "OS " +:+ "10" +:+ "_" +:+ "3"
       +:+ "_1 like Mac OS X) AppleWebKit/603.1.30") in
  IosDetection.version info <> None
  /\ IosDetection.supportsNfc info
     = (110 <=? 10 * Js.parseInt "10" + Js.parseInt "3")%Z
  /\ IosDetection.requiresNative info = true.
Proof.
  apply (ios_version_formula "Mozilla/5.0 (iPhone; CPU iPhone " "10" "3"
           "_1 like Mac OS X) AppleWebKit/603.1.30");
    try reflexivity; discriminate.
Defined.

Lemma android_supportsNfc_version (ua : string) :
  AndroidDetection.supportsNfc (AndroidDetection.getAndroidSupportInfo ua)
  = true ->
  AndroidDetection.isAndroid (AndroidDetection.getAndroidSupportInfo ua) = true
  /\ exists v,
       AndroidDetection.version (AndroidDetection.getAndroidSupportInfo ua)
       = Some v /\ (4 <= v)%Q.
Proof.
  unfold AndroidDetection.getAndroidSupportInfo.
  destruct (Js.test_i "android" ua); simpl; [|discriminate].
  destruct (AndroidDetection.versionMatch ua) as [[g1 g2]|]; simpl;
    [|discriminate].
  intros H. split; [reflexivity|]. eexists. split; [reflexivity|].
  now apply Qle_bool_iff.
Qed.

(** X7. The facts reported by the Android detector are consistent: off
    Android every fact is negative and the version is [null]; native support
    is reported only with a parsed version of at least 4;
    [hasNativeNfcSupport] is that fact; [shouldUseNativeBridge] answers
    [true] only with native support, and [hasWebNfcSupport] only on Android
    with the reader constructor present; the guidance text is empty exactly
    off Android. *)
Theorem android_facts_consistent (ua : string) (NDEFReader : bool) :
  let info := AndroidDetection.getAndroidSupportInfo ua in
  AndroidDetection.isAndroid info = Js.test_i "android" ua
  /\ (AndroidDetection.isAndroid info = false ->
      AndroidDetection.version info = None
      /\ AndroidDetection.supportsNfc info = false
      /\ AndroidDetection.supportsWebNfc info = false)
  /\ (AndroidDetection.supportsNfc info = true ->
      exists v, AndroidDetection.version info = Some v /\ (4 <= v)%Q)
  /\ AndroidDetection.hasNativeNfcSupport ua = AndroidDetection.supportsNfc info
  /\ (AndroidDetection.shouldUseNativeBridge ua = true ->
      AndroidDetection.hasNativeNfcSupport ua = true)
  /\ (AndroidDetection.hasWebNfcSupport ua NDEFReader = true ->
      AndroidDetection.isAndroid info = true /\ NDEFReader = true)
  /\ (AndroidDetection.getAndroidNfcGuidance ua = ""
      <-> AndroidDetection.isAndroid info = false).
Proof.
  intros info.
  assert (Hnative : AndroidDetection.hasNativeNfcSupport ua
                    = AndroidDetection.supportsNfc info).
  { unfold AndroidDetection.hasNativeNfcSupport. fold info.
    destruct (AndroidDetection.supportsNfc info) eqn:E.
    - destruct (android_supportsNfc_version ua E) as [H _]. fold info in H.
      now rewrite H.
    - apply andb_false_r. }
  split; [|split; [|split; [|split; [|split; [|split]]]]].
  - subst info. unfold AndroidDetection.getAndroidSupportInfo.
    destruct (Js.test_i "android" ua); reflexivity.
  - subst info. unfold AndroidDetection.getAndroidSupportInfo.
    destruct (Js.test_i "android" ua); simpl; [discriminate|].
    intros _. repeat split.
  - intros H. exact (proj2 (android_supportsNfc_version ua H)).
  - exact Hnative.
  - rewrite Hnative. unfold AndroidDetection.shouldUseNativeBridge. fold info.
    destruct (negb (AndroidDetection.isAndroid info)); [discriminate|].
    intros H. now apply andb_true_iff in H as [_ H].
  - unfold AndroidDetection.hasWebNfcSupport. fold info. intros H.
    apply andb_true_iff in H as [H ->]. apply andb_true_iff in H as [-> _].
    split; reflexivity.
  - unfold AndroidDetection.getAndroidNfcGuidance. fold info.
    destruct (AndroidDetection.isAndroid info); simpl.
    + destruct (negb (AndroidDetection.supportsNfc info)); split; discriminate.
    + split; reflexivity.
Qed.

Lemma android_facts_consistent_witness :
  AndroidDetection.hasNativeNfcSupport (Window.userAgent android_webview)
  = true
  /\ exists v,
       AndroidDetection.version
         (AndroidDetection.getAndroidSupportInfo
            (Window.userAgent android_webview)) = Some v
       /\ (4 <= v)%Q.
Proof.
  pose proof (android_facts_consistent (Window.userAgent android_webview) true)
    as (_ & _ & Hv & _ & Hb & _).
  assert (H : AndroidDetection.hasNativeNfcSupport
                (Window.userAgent android_webview) = true)
    by (apply Hb; reflexivity).
  split; [exact H|]. apply Hv. reflexivity.
Defined.

(** X8. The facts reported by the iOS detector are consistent:
    [requiresNative] is [isIos]; off iOS the version is [null] and no support
    is reported; support is reported only with a parsed version of at least
    11; [hasNfcHardware] answers [true] exactly for an iOS device with
    support and for a user agent that names Android and no iOS device; the
    guidance text is empty exactly off iOS. *)
Theorem ios_facts_consistent (ua : string) :
  let info := IosDetection.getIosSupportInfo ua in
  IosDetection.requiresNative info = IosDetection.isIos info
  /\ (IosDetection.isIos info = false ->
      IosDetection.version info = None
      /\ IosDetection.supportsNfc info = false)
  /\ (IosDetection.supportsNfc info = true ->
      IosDetection.isIos info = true
      /\ exists v, IosDetection.version info = Some v /\ (11 <= v)%Q)
  /\ (IosDetection.hasNfcHardware ua = true
      <-> IosDetection.supportsNfc info = true
          \/ (IosDetection.isIos info = false
              /\ Js.test_i "android" ua = true))
  /\ (IosDetection.getIosNfcGuidance ua = ""
      <-> IosDetection.isIos info = false).
Proof.
  intros info.
  assert (Hsup : IosDetection.supportsNfc info = true ->
                 IosDetection.isIos info = true
                 /\ exists v, IosDetection.version info = Some v
                              /\ (11 <= v)%Q).
  { subst info. unfold IosDetection.getIosSupportInfo.
    destruct (negb _) eqn:E; simpl; [discriminate|].
    apply negb_false_iff in E. rewrite E.
    destruct (IosDetection.versionMatch ua) as [[g1 g2]|]; simpl;
      [|discriminate].
    intros H. split; [reflexivity|]. eexists. split; [reflexivity|].
    now apply Qle_bool_iff. }
  split; [|split; [|split; [|split]]].
  - subst info. unfold IosDetection.getIosSupportInfo.
    destruct (negb _) eqn:E; simpl; [reflexivity|].
    apply negb_false_iff in E. now rewrite E.
  - subst info. unfold IosDetection.getIosSupportInfo.
    destruct (negb _) eqn:E; simpl; [intros _; split; reflexivity|].
    apply negb_false_iff in E. rewrite E. discriminate.
  - exact Hsup.
  - unfold IosDetection.hasNfcHardware. fold info.
    destruct (IosDetection.isIos info) eqn:E.
    + split; [now left|]. intros [H | [H _]]; [exact H | discriminate H].
    + split; [intros H; right; now split|].
      intros [H | [_ H]]; [|exact H].
      destruct (Hsup H) as [H' _]. congruence.
  - unfold IosDetection.getIosNfcGuidance. fold info.
    destruct (IosDetection.isIos info); simpl.
    + destruct (negb (IosDetection.supportsNfc info)); split; discriminate.
    + split; reflexivity.
Qed.

Lemma ios_facts_consistent_witness :
  IosDetection.hasNfcHardware (Window.userAgent ios_webview) = true
  /\ IosDetection.hasNfcHardware (Window.userAgent chrome_android) = true
  /\ IosDetection.hasNfcHardware (Window.userAgent desktop) = false.
Proof.
  split; [|split].
  - apply (proj1 (proj2 (proj2 (proj2 (ios_facts_consistent
                                          (Window.userAgent ios_webview)))))).
    left. reflexivity.
  - apply (proj1 (proj2 (proj2 (proj2 (ios_facts_consistent
                                          (Window.userAgent chrome_android)))))).
    right. split; reflexivity.
  - apply not_true_is_false. intros H.
    apply (proj1 (proj2 (proj2 (proj2 (ios_facts_consistent
                                          (Window.userAgent desktop)))))) in H.
    destruct H as [H | [_ H]]; discriminate H.
Defined.

(** X9. In a window whose user agent names neither Android nor an iOS
    device, both detectors report the platform absent with a [null] version,
    no native bridge is asked for, the facade binds the radio backend, and
    [isEnabled], like [isAvailable] of the simple API, resolves to the
    presence of the reader constructor. *)
Theorem no_platform_marker_binds_web (w : Window.t) (pf : Nfc.Platform) :
  Js.test_i "android" (Window.userAgent w) = false ->
  Js.test_i "iphone" (Window.userAgent w) = false ->
  Js.test_i "ipad" (Window.userAgent w) = false ->
  Js.test_i "ipod" (Window.userAgent w) = false ->
  let ios := IosDetection.getIosSupportInfo (Window.userAgent w) in
  let android := AndroidDetection.getAndroidSupportInfo (Window.userAgent w) in
  IosDetection.isIos ios = false
  /\ IosDetection.version ios = None
  /\ AndroidDetection.isAndroid android = false
  /\ AndroidDetection.version android = None
  /\ AndroidDetection.shouldUseNativeBridge (Window.userAgent w) = false
  /\ Nfc.kind (Nfc.implementation (Nfc.new w)) = Nfc.WebKind
  /\ fst (Nfc.isEnabled pf (Nfc.new w))
     = Resolved {| enabled := Window.NDEFReader w |}
  /\ fst (SimpleNfc.isAvailable pf (Nfc.new w))
     = Resolved (Window.NDEFReader w).
Proof.
  intros Ha Hi1 Hi2 Hi3 ios android.
  assert (Hios : IosDetection.isIos ios = false).
  { subst ios. unfold IosDetection.getIosSupportInfo.
    rewrite Hi1, Hi2, Hi3. reflexivity. }
  assert (Hkind : Nfc.kind (Nfc.implementation (Nfc.new w)) = Nfc.WebKind).
  { apply new_otherwise_binds_web. now left. }
  split; [exact Hios|]. split.
  { subst ios. unfold IosDetection.getIosSupportInfo.
    rewrite Hi1, Hi2, Hi3. reflexivity. }
  split.
  { subst android. unfold AndroidDetection.getAndroidSupportInfo.
    rewrite Ha. reflexivity. }
  split.
  { subst android. unfold AndroidDetection.getAndroidSupportInfo.
    rewrite Ha. reflexivity. }
  split.
  { unfold AndroidDetection.shouldUseNativeBridge,
      AndroidDetection.getAndroidSupportInfo. rewrite Ha. reflexivity. }
  split; [exact Hkind|].
  assert (He : Nfc.isEnabled pf (Nfc.new w)
               = (Resolved {| enabled := Window.NDEFReader w |},
                  snd (Nfc.isEnabled pf (Nfc.new w)))).
  { unfold Nfc.isEnabled. rewrite (new_implementation_web w Hkind). simpl.
    unfold WebNfc.isEnabled. simpl. fold ios. rewrite Hios. reflexivity. }
  split; [now rewrite He|].
  unfold SimpleNfc.isAvailable. rewrite He. reflexivity.
Qed.

Lemma no_platform_marker_binds_web_witness :
  Nfc.kind (Nfc.implementation (Nfc.new desktop)) = Nfc.WebKind
  /\ fst (Nfc.isEnabled failing_platform (Nfc.new desktop))
     = Resolved {| enabled := false |}.
Proof.
  pose proof (no_platform_marker_binds_web desktop failing_platform eq_refl
                eq_refl eq_refl eq_refl) as (_ & _ & _ & _ & _ & Hk & He & _).
  split; [exact Hk | exact He].
Defined.

(** ** The operations of the backends *)

(** X10. A bridge backend whose bridge object is missing, or lacks
    [isNfcEnabled] or [startNfcScan], is unavailable for its lifetime:
    [isEnabled] resolves to [false], [startScanSession], [write] and
    [openSettings] reject with their bridge-not-available errors,
    [stopScanSession] resolves, no message reaches a listener, and nothing
    changes the state. *)
Theorem unavailable_bridge (w : Window.t) (nb : Completion bool)
    (n : Completion unit) (options : option StartScanSessionOptions)
    (monitor : Payload -> list Invocation) (event : MessageEvent) :
  (match Window.nativeNfcBridge w with
   | None => True
   | Some b =>
       NativeIosBridge.isNfcEnabled b = false
       \/ NativeIosBridge.startNfcScan b = false
   end ->
   let i := IosBridgeNfc.new w in
   IosBridgeNfc.isEnabled nb i = (Resolved {| enabled := false |}, i)
   /\ IosBridgeNfc.startScanSession options n i
      = (Rejected
           (new_Error "NFC scan cannot be started - bridge not available"), i)
   /\ IosBridgeNfc.write n i
      = (Rejected
           (new_Error "NFC write is not supported - bridge not available"), i)
   /\ IosBridgeNfc.openSettings n i
      = (Rejected
           (new_Error "NFC settings cannot be opened - bridge not available"),
         i)
   /\ IosBridgeNfc.stopScanSession n i = (Resolved tt, i)
   /\ forall ls,
        IosBridgeNfc.onMessage monitor event (IosBridgeNfc.set_listeners ls i)
        = (IosBridgeNfc.set_listeners ls i, []))
  /\ (match Window.nativeAndroidNfcBridge w with
      | None => True
      | Some b =>
          NativeAndroidBridge.isNfcEnabled b = false
          \/ NativeAndroidBridge.startNfcScan b = false
      end ->
      let a := AndroidBridgeNfc.new w in
      AndroidBridgeNfc.isEnabled nb a = (Resolved {| enabled := false |}, a)
      /\ AndroidBridgeNfc.startScanSession options n a
         = (Rejected
              (new_Error "NFC scan cannot be started - bridge not available"),
            a)
      /\ AndroidBridgeNfc.write n a
         = (Rejected
              (new_Error "NFC write is not supported - bridge not available"),
            a)
      /\ AndroidBridgeNfc.openSettings n a
         = (Rejected
              (new_Error
                 "NFC settings cannot be opened - bridge not available"), a)
      /\ AndroidBridgeNfc.stopScanSession n a = (Resolved tt, a)
      /\ forall ls,
           AndroidBridgeNfc.onMessage monitor event
             (AndroidBridgeNfc.set_listeners ls a)
           = (AndroidBridgeNfc.set_listeners ls a, [])).
Proof.
  split.
  - intros Hb i.
    assert (Hav : IosBridgeNfc.isBridgeAvailable i = false).
    { subst i. unfold IosBridgeNfc.new. simpl.
      destruct (Window.nativeNfcBridge w) as [b|]; simpl; [|reflexivity].
      destruct Hb as [-> | ->]; [reflexivity | apply andb_false_r]. }
    clearbody i.
    unfold IosBridgeNfc.isEnabled, IosBridgeNfc.startScanSession,
      IosBridgeNfc.write, IosBridgeNfc.openSettings,
      IosBridgeNfc.stopScanSession, IosBridgeNfc.onMessage.
    simpl. rewrite Hav. simpl. repeat split.
  - intros Hb a.
    assert (Hav : AndroidBridgeNfc.isBridgeAvailable a = false).
    { subst a. unfold AndroidBridgeNfc.new. simpl.
      destruct (Window.nativeAndroidNfcBridge w) as [b|]; simpl;
        [|reflexivity].
      destruct Hb as [-> | ->]; [reflexivity | apply andb_false_r]. }
    clearbody a.
    unfold AndroidBridgeNfc.isEnabled, AndroidBridgeNfc.startScanSession,
      AndroidBridgeNfc.write, AndroidBridgeNfc.openSettings,
      AndroidBridgeNfc.stopScanSession, AndroidBridgeNfc.onMessage.
    simpl. rewrite Hav. simpl. repeat split.
Qed.

Lemma unavailable_bridge_witness :
  IosBridgeNfc.isEnabled (Resolved true) (IosBridgeNfc.new desktop)
  = (Resolved {| enabled := false |}, IosBridgeNfc.new desktop)
  /\ AndroidBridgeNfc.write (Resolved tt) (AndroidBridgeNfc.new desktop)
     = (Rejected
          (new_Error "NFC write is not supported - bridge not available"),
        AndroidBridgeNfc.new desktop).
Proof.
  destruct (unavailable_bridge desktop (Resolved true) (Resolved tt) None
              no_monitor tag_message) as [Hi Ha].
  split.
  - apply (Hi I).
  - apply (Ha I).
Defined.

(** X11. The operations that a backend has no means to perform reject in
    every state and leave it unchanged: [makeReadOnly], [share] and
    [stopSharing] on the radio backend; [makeReadOnly], [format], [erase],
    [share] and [stopSharing] on the iOS bridge; and so [makeReadOnly],
    [share] and [stopSharing] on a facade bound to either. *)
Theorem unsupported_operations_reject :
  (forall s : WebNfc.t,
     (exists e, WebNfc.makeReadOnly s = (Rejected e, s))
     /\ (exists e, WebNfc.share s = (Rejected e, s))
     /\ (exists e, WebNfc.stopSharing s = (Rejected e, s)))
  /\ (forall s : IosBridgeNfc.t,
        (exists e, IosBridgeNfc.makeReadOnly s = (Rejected e, s))
        /\ (exists e, IosBridgeNfc.format s = (Rejected e, s))
        /\ (exists e, IosBridgeNfc.erase s = (Rejected e, s))
        /\ (exists e, IosBridgeNfc.share s = (Rejected e, s))
        /\ (exists e, IosBridgeNfc.stopSharing s = (Rejected e, s)))
  /\ (forall (s : Nfc.t) (native : Completion unit),
        Nfc.kind (Nfc.implementation s) <> Nfc.AndroidBridgeKind ->
        (exists e, Nfc.makeReadOnly native s = (Rejected e, s))
        /\ (exists e, Nfc.share native s = (Rejected e, s))
        /\ (exists e, Nfc.stopSharing native s = (Rejected e, s))).
Proof.
  split; [|split].
  - intros s. unfold WebNfc.makeReadOnly, WebNfc.share, WebNfc.stopSharing.
    destruct (negb (WebNfc.nfcSupported s)); repeat split; eauto.
  - intros s. repeat split; eexists; reflexivity.
  - intros [[w|b|b] ls ii ai] native Hk; simpl in Hk; [| |congruence].
    + unfold Nfc.makeReadOnly, Nfc.share, Nfc.stopSharing,
        WebNfc.makeReadOnly, WebNfc.share, WebNfc.stopSharing. simpl.
      destruct (negb (WebNfc.nfcSupported w)); repeat split; eauto.
    + repeat split; eexists; reflexivity.
Qed.

Lemma unsupported_operations_reject_witness :
  exists e, Nfc.share (Resolved tt) (Nfc.new ios_webview)
            = (Rejected e, Nfc.new ios_webview).
Proof.
  apply (proj2 (proj2 unsupported_operations_reject) (Nfc.new ios_webview)
           (Resolved tt)).
  discriminate.
Defined.

(** X12. On the radio backend [write], [format] and [erase] leave the
    state as it is; they resolve exactly when the backend is supported and
    the platform's write succeeds; and when the backend is not supported
    they reject with the compatibility error whatever the platform would
    do. *)
Theorem radio_write_outcomes (options : WriteOptions)
    (platform : WebNfc.WriteOutcome) (s : WebNfc.t) :
  snd (WebNfc.write options platform s) = s
  /\ snd (WebNfc.format platform s) = s
  /\ WebNfc.erase platform s = WebNfc.format platform s
  /\ (fst (WebNfc.write options platform s) = Resolved tt
      <-> WebNfc.nfcSupported s = true /\ platform = WebNfc.WriteResolves)
  /\ (fst (WebNfc.format platform s) = Resolved tt
      <-> WebNfc.nfcSupported s = true /\ platform = WebNfc.WriteResolves)
  /\ (WebNfc.nfcSupported s = false ->
      fst (WebNfc.write options platform s)
      = Rejected (WebNfc.createCompatibilityError s)
      /\ fst (WebNfc.format platform s)
         = Rejected (WebNfc.createCompatibilityError s)).
Proof.
  unfold WebNfc.erase, WebNfc.write, WebNfc.format.
  destruct (WebNfc.nfcSupported s); simpl.
  - destruct platform; simpl; repeat split; try tauto; try discriminate;
      intros [_ H]; discriminate H.
  - repeat split; try discriminate; intros [H _]; discriminate H.
Qed.

Lemma radio_write_outcomes_witness :
  fst (WebNfc.write (SimpleNfc.writeText "hello") WebNfc.WriteResolves
         (WebNfc.new desktop))
  = Rejected (WebNfc.createCompatibilityError (WebNfc.new desktop))
  /\ fst (WebNfc.write (SimpleNfc.writeText "hello") WebNfc.WriteResolves
            (WebNfc.new chrome_android)) = Resolved tt.
Proof.
  split.
  - apply (radio_write_outcomes (SimpleNfc.writeText "hello")
             WebNfc.WriteResolves (WebNfc.new desktop)). reflexivity.
  - apply (radio_write_outcomes (SimpleNfc.writeText "hello")
             WebNfc.WriteResolves (WebNfc.new chrome_android)).
    split; reflexivity.
Defined.

(** X13. What [stopScanSession] achieves.  On the radio backend, from any
    state, the reading events that follow call no listener and change
    nothing.  On the bridge backends it changes nothing in the backend: the
    messages that follow are dispatched as before. *)
Theorem stopScanSession_effect :
  (forall (abort abort' : CallOutcome) (monitor : Payload -> list Invocation)
          (event : WebNfc.NDEFReadingEvent) (s : WebNfc.t),
     let stopped := snd (WebNfc.stopScanSession abort s) in
     WebNfc.onReading monitor abort' event stopped = (stopped, []))
  /\ (forall (native : Completion unit) (s : IosBridgeNfc.t),
        snd (IosBridgeNfc.stopScanSession native s) = s)
  /\ (forall (native : Completion unit) (s : AndroidBridgeNfc.t),
        snd (AndroidBridgeNfc.stopScanSession native s) = s).
Proof.
  split; [|split].
  - intros abort abort' monitor event s stopped. subst stopped.
    rewrite stopScanSession_state. now apply onReading_inactive.
  - intros native s. unfold IosBridgeNfc.stopScanSession.
    destruct (_ || _); [reflexivity|]. destruct native; reflexivity.
  - intros native s. unfold AndroidBridgeNfc.stopScanSession.
    destruct (_ || _); [reflexivity|]. destruct native; reflexivity.
Qed.

(** X14. [openSettings] on the radio backend leaves the state as it is and
    resolves exactly on an iOS device or with Web NFC support; it then shows
    one text, which on an iOS device is the guidance of the detector, and
    when it rejects it shows none. *)
Theorem radio_openSettings (userAgent : string) (s : WebNfc.t) :
  let '(r, s', alerts) := WebNfc.openSettings userAgent s in
  s' = s
  /\ (r = Resolved tt
      <-> IosDetection.isIos (WebNfc.iosInfo s) = true
          \/ WebNfc.nfcSupported s = true)
  /\ (r = Resolved tt -> exists text, alerts = [text])
  /\ (r <> Resolved tt ->
      r = Rejected (WebNfc.createCompatibilityError s) /\ alerts = [])
  /\ (IosDetection.isIos (WebNfc.iosInfo s) = true ->
      alerts = [IosDetection.getIosNfcGuidance userAgent]).
Proof.
  unfold WebNfc.openSettings.
  destruct (IosDetection.isIos (WebNfc.iosInfo s)); simpl.
  { repeat split; eauto; congruence. }
  destruct (WebNfc.nfcSupported s); simpl.
  - destruct (Js.test_i "android" userAgent); repeat split; eauto;
      congruence.
  - repeat split; try congruence; try discriminate.
    intros [H | H]; discriminate H.
Qed.

Lemma radio_openSettings_witness :
  WebNfc.openSettings (Window.userAgent ios_webview)
    (WebNfc.new ios_webview)
  = (Resolved tt, WebNfc.new ios_webview,
     ["NFC on iOS requires a native app. The web browser cannot directly access NFC hardware on iOS devices."]).
Proof.
  pose proof (radio_openSettings (Window.userAgent ios_webview)
                (WebNfc.new ios_webview)) as H.
  destruct (WebNfc.openSettings _ _) as [[r s'] alerts].
  destruct H as (-> & Hr & _ & _ & Ha).
  rewrite (Ha eq_refl). rewrite (proj2 Hr (or_introl eq_refl)). reflexivity.
Defined.

(** ** Dispatch to listeners *)

Lemma call_each_returning (monitor : Payload -> list Invocation)
    (ls : list Callback) (data : Payload) :
  Forall returning ls ->
  call_each monitor ls data = (invocations ls data, false).
Proof.
  induction 1 as [|f ls [n ->] _ IH]; [reflexivity|].
  simpl. rewrite IH. reflexivity.
Qed.

Lemma call_each_thrower (monitor : Payload -> list Invocation)
    (pre post : list Callback) (n : nat) (data : Payload) :
  Forall returning pre ->
  call_each monitor (pre ++ UserFn n true :: post) data
  = (invocations (pre ++ [UserFn n true]) data, true).
Proof.
  induction 1 as [|f pre [m ->] _ IH]; [reflexivity|].
  simpl. simpl in IH. rewrite IH. reflexivity.
Qed.

(** X15. When every listener returns normally, an event calls each listener
    registered for it once, in the order of registration, with the same
    argument: on the radio backend for a reading event of an active session
    (which stays active unless it was started with [once]), on the bridge
    backends for a tag message and for a status message. *)
Theorem every_listener_is_called_once
    (monitor : Payload -> list Invocation) :
  (forall (abort : CallOutcome) (event : WebNfc.NDEFReadingEvent)
          (s : WebNfc.t),
     WebNfc.scanSessionActive s = true ->
     Forall returning (Registry.get "tagDetected" (WebNfc.listeners s)) ->
     snd (WebNfc.onReading monitor abort event s)
     = invocations (Registry.get "tagDetected" (WebNfc.listeners s))
         (TagPayload (WebNfc.parseNdefReading event))
     /\ WebNfc.scanSessionActive (fst (WebNfc.onReading monitor abort event s))
        = negb (WebNfc.scanOnce s))
  /\ (forall (s : IosBridgeNfc.t) (tag : TagDetectedEvent.t) (b : bool),
        IosBridgeNfc.isBridgeAvailable s = true ->
        (Forall returning (Registry.get "tagDetected" (IosBridgeNfc.listeners s)) ->
         snd (IosBridgeNfc.onMessage monitor (tag_detected tag) s)
         = invocations (Registry.get "tagDetected" (IosBridgeNfc.listeners s))
             (TagPayload tag))
        /\ (Forall returning
              (Registry.get "nfcStatusChanged" (IosBridgeNfc.listeners s)) ->
            snd (IosBridgeNfc.onMessage monitor (status_changed b) s)
            = invocations
                (Registry.get "nfcStatusChanged" (IosBridgeNfc.listeners s))
                (StatusPayload {| enabled := b |})))
  /\ (forall (s : AndroidBridgeNfc.t) (tag : TagDetectedEvent.t) (b : bool),
        AndroidBridgeNfc.isBridgeAvailable s = true ->
        (Forall returning
           (Registry.get "tagDetected" (AndroidBridgeNfc.listeners s)) ->
         snd (AndroidBridgeNfc.onMessage monitor (tag_detected tag) s)
         = invocations
             (Registry.get "tagDetected" (AndroidBridgeNfc.listeners s))
             (TagPayload tag))
        /\ (Forall returning
              (Registry.get "nfcStatusChanged" (AndroidBridgeNfc.listeners s)) ->
            snd (AndroidBridgeNfc.onMessage monitor (status_changed b) s)
            = invocations
                (Registry.get "nfcStatusChanged"
                   (AndroidBridgeNfc.listeners s))
                (StatusPayload {| enabled := b |}))).
Proof.
  split; [|split].
  - intros abort event s Hactive Hret. unfold WebNfc.onReading.
    rewrite Hactive. simpl. rewrite (call_each_returning _ _ _ Hret).
    destruct (WebNfc.scanOnce s); simpl; [|split; [reflexivity | exact Hactive]].
    rewrite stopScanSession_state. split; reflexivity.
  - intros s tag b Hav. unfold IosBridgeNfc.onMessage. rewrite Hav.
    unfold IosBridgeNfc.handleNativeMessage, dispatchNativeMessage. simpl.
    split; intros Hret; rewrite (call_each_returning _ _ _ Hret); reflexivity.
  - intros s tag b Hav. unfold AndroidBridgeNfc.onMessage. rewrite Hav.
    unfold AndroidBridgeNfc.handleNativeMessage, dispatchNativeMessage. simpl.
    split; intros Hret; rewrite (call_each_returning _ _ _ Hret); reflexivity.
Qed.

Lemma every_listener_is_called_once_witness :
  let s :=
    snd (WebNfc.addListener "tagDetected" (UserFn 2 false)
           (scanning (UserFn 1 false))) in
  snd (WebNfc.onReading no_monitor Returns hello_reading s)
  = invocations [UserFn 1 false; UserFn 2 false]
      (TagPayload (WebNfc.parseNdefReading hello_reading)).
Proof.
  intros s.
  apply (proj1 (every_listener_is_called_once no_monitor) Returns
           hello_reading s eq_refl).
  repeat constructor; eexists; reflexivity.
Defined.

(** X16. A backend leaves its loop over the listeners at the first one that
    throws: the listeners registered after it are not called for that
    event.  On the radio backend the error is swallowed and the session
    stays as it was, even when it was started with [once]. *)
Theorem throwing_listener_stops_dispatch
    (monitor : Payload -> list Invocation) (pre post : list Callback)
    (n : nat) :
  Forall returning pre ->
  (forall (abort : CallOutcome) (event : WebNfc.NDEFReadingEvent)
          (s : WebNfc.t),
     WebNfc.scanSessionActive s = true ->
     Registry.get "tagDetected" (WebNfc.listeners s)
     = pre ++ UserFn n true :: post ->
     WebNfc.onReading monitor abort event s
     = (s, invocations (pre ++ [UserFn n true])
             (TagPayload (WebNfc.parseNdefReading event))))
  /\ (forall (s : IosBridgeNfc.t) (tag : TagDetectedEvent.t),
        IosBridgeNfc.isBridgeAvailable s = true ->
        Registry.get "tagDetected" (IosBridgeNfc.listeners s)
        = pre ++ UserFn n true :: post ->
        snd (IosBridgeNfc.onMessage monitor (tag_detected tag) s)
        = invocations (pre ++ [UserFn n true]) (TagPayload tag))
  /\ (forall (s : AndroidBridgeNfc.t) (tag : TagDetectedEvent.t),
        AndroidBridgeNfc.isBridgeAvailable s = true ->
        Registry.get "tagDetected" (AndroidBridgeNfc.listeners s)
        = pre ++ UserFn n true :: post ->
        snd (AndroidBridgeNfc.onMessage monitor (tag_detected tag) s)
        = invocations (pre ++ [UserFn n true]) (TagPayload tag)).
Proof.
  intros Hpre. split; [|split].
  - intros abort event s Hactive Hls. unfold WebNfc.onReading.
    rewrite Hactive, Hls. simpl.
    rewrite (call_each_thrower monitor pre post n _ Hpre). reflexivity.
  - intros s tag Hav Hls. unfold IosBridgeNfc.onMessage. rewrite Hav.
    unfold IosBridgeNfc.handleNativeMessage, dispatchNativeMessage. simpl.
    rewrite Hls, (call_each_thrower monitor pre post n _ Hpre). reflexivity.
  - intros s tag Hav Hls. unfold AndroidBridgeNfc.onMessage. rewrite Hav.
    unfold AndroidBridgeNfc.handleNativeMessage, dispatchNativeMessage. simpl.
    rewrite Hls, (call_each_thrower monitor pre post n _ Hpre). reflexivity.
Qed.

Lemma throwing_listener_stops_dispatch_witness :
  let s :=
    snd (WebNfc.addListener "tagDetected" (UserFn 2 false)
           (scanning (UserFn 1 true))) in
  WebNfc.onReading no_monitor Returns hello_reading s
  = (s, invocations [UserFn 1 true]
          (TagPayload (WebNfc.parseNdefReading hello_reading))).
Proof.
  intros s.
  apply (proj1 (throwing_listener_stops_dispatch no_monitor [] [UserFn 2 false]
                  1 (Forall_nil_2 _)) Returns hello_reading s eq_refl eq_refl).
Defined.

Lemma flat_map_user_functions (fs : list Callback) (data : Payload) :
  Forall user_function fs ->
  flat_map (fun f => fst (call no_monitor f data)) fs = invocations fs data.
Proof.
  induction 1 as [|f fs (n & throws & ->) _ IH]; [reflexivity|].
  simpl. now rewrite IH.
Qed.

(** X17. [notifyListeners] of the facade calls every member of the set of
    the event once, in insertion order, whether or not members throw; for
    an event name without a set it calls nothing. *)
Theorem notifyListeners_calls_every_member
    (listeners : gmap string (list Callback)) (eventName : string)
    (data : Payload) :
  (listeners !! eventName = None ->
   Nfc.notifyListeners listeners eventName data = [])
  /\ (forall fs,
        listeners !! eventName = Some fs ->
        Forall user_function fs ->
        Nfc.notifyListeners listeners eventName data = invocations fs data).
Proof.
  unfold Nfc.notifyListeners. split.
  - intros ->. reflexivity.
  - intros fs -> Hfs. now apply flat_map_user_functions.
Qed.

Lemma notifyListeners_calls_every_member_witness :
  Nfc.notifyListeners
    (<["nfcStatusChanged" := [UserFn 1 true; UserFn 2 false]]> ∅)
    "nfcStatusChanged" (StatusPayload {| enabled := true |})
  = invocations [UserFn 1 true; UserFn 2 false]
      (StatusPayload {| enabled := true |})
  /\ Nfc.notifyListeners ∅ "nfcStatusChanged"
       (StatusPayload {| enabled := true |}) = [].
Proof.
  split.
  - apply (proj2 (notifyListeners_calls_every_member
                    (<["nfcStatusChanged" := [UserFn 1 true; UserFn 2 false]]> ∅)
                    "nfcStatusChanged" (StatusPayload {| enabled := true |}))
             [UserFn 1 true; UserFn 2 false]).
    + vm_compute. reflexivity.
    + repeat constructor; eexists; eexists; reflexivity.
  - apply (proj1 (notifyListeners_calls_every_member ∅ "nfcStatusChanged"
                    (StatusPayload {| enabled := true |}))).
    reflexivity.
Defined.

(** ** The facade and its two registries *)

Lemma get_push_same (e : string) (f : Callback)
    (r : gmap string (list Callback)) :
  Registry.get e (Registry.push e f r) = Registry.get e r ++ [f].
Proof. unfold Registry.get, Registry.push. now rewrite lookup_insert_eq. Qed.

Lemma get_push_other (en e : string) (f : Callback)
    (r : gmap string (list Callback)) :
  e <> en -> Registry.get en (Registry.push e f r) = Registry.get en r.
Proof.
  intros Hne. unfold Registry.get, Registry.push.
  now rewrite lookup_insert_ne.
Qed.

Lemma get_empty (e : string) : Registry.get e ∅ = [].
Proof. unfold Registry.get. now rewrite lookup_empty. Qed.

Lemma calls_of_cons_same (f : Callback) (data : Payload)
    (t : list Invocation) :
  calls_of f ({| callee := f; argument := data |} :: t) = S (calls_of f t).
Proof.
  unfold calls_of.
  rewrite (filter_cons (fun i => callee i = f)), decide_True by reflexivity.
  reflexivity.
Qed.

Lemma new_implementation_ios (w : Window.t) (b : NativeIosBridge.t) :
  IosDetection.isIos (IosDetection.getIosSupportInfo (Window.userAgent w))
  = true ->
  Window.nativeNfcBridge w = Some b ->
  Nfc.implementation (Nfc.new w)
  = Nfc.IosBridge
      {| IosBridgeNfc.bridge := b;
         IosBridgeNfc.listeners :=
           Registry.push "nfcStatusChanged" StatusMonitor ∅;
         IosBridgeNfc.isBridgeAvailable :=
           NativeIosBridge.isNfcEnabled b && NativeIosBridge.startNfcScan b |}
  /\ Nfc.listeners (Nfc.new w) = ∅.
Proof.
  intros Hios Hb. unfold Nfc.new. cbv zeta. rewrite Hios.
  rewrite bool_decide_true by (rewrite Hb; discriminate).
  unfold IosBridgeNfc.new. rewrite Hb. split; reflexivity.
Qed.

(** X18. On a facade that the constructor bound to an available iOS
    bridge, a function registered through the facade for [tagDetected] is
    called once by a tag message, and a function registered for
    [nfcStatusChanged] is called twice by a status message: once by the
    backend, in whose array [addListener] put it, and once by the facade's
    own re-broadcast of the backend's status event. *)
Theorem facade_listener_call_counts (w : Window.t) (b : NativeIosBridge.t)
    (n : nat) (throws : bool) (tag : TagDetectedEvent.t) (enabled : bool) :
  IosDetection.isIos (IosDetection.getIosSupportInfo (Window.userAgent w))
  = true ->
  Window.nativeNfcBridge w = Some b ->
  NativeIosBridge.isNfcEnabled b = true ->
  NativeIosBridge.startNfcScan b = true ->
  let f := UserFn n throws in
  calls_of f
    (snd (Nfc.onMessage (tag_detected tag)
            (snd (Nfc.addListener "tagDetected" f (Nfc.new w))))) = 1
  /\ calls_of f
       (snd (Nfc.onMessage (status_changed enabled)
               (snd (Nfc.addListener "nfcStatusChanged" f (Nfc.new w))))) = 2.
Proof.
  intros Hios Hb H1 H2 f.
  destruct (new_implementation_ios w b Hios Hb) as [Himpl Hls].
  rewrite H1, H2 in Himpl. cbn [andb] in Himpl.
  set (s0 := Nfc.new w) in *. clearbody s0.
  destruct s0 as [impl ls ii ai].
  cbn [Nfc.implementation Nfc.listeners] in Himpl, Hls. subst impl ls.
  split.
  - rewrite addListener_state. unfold Nfc.onMessage. simpl.
    unfold IosBridgeNfc.handleNativeMessage, dispatchNativeMessage. simpl.
    rewrite get_push_same, get_push_other by discriminate.
    rewrite get_empty. simpl.
    destruct throws; simpl; rewrite calls_of_cons_same; reflexivity.
  - rewrite addListener_state. unfold Nfc.onMessage. simpl.
    unfold IosBridgeNfc.handleNativeMessage, dispatchNativeMessage. simpl.
    rewrite !get_push_same, get_empty. simpl.
    unfold Nfc.monitor, Nfc.notifyListeners. simpl.
    rewrite lookup_insert_eq, lookup_empty. simpl.
    destruct throws; simpl; rewrite !calls_of_cons_same; reflexivity.
Qed.

Lemma facade_listener_call_counts_witness :
  calls_of (UserFn 7 false)
    (snd (Nfc.onMessage (status_changed true)
            (snd (Nfc.addListener "nfcStatusChanged" (UserFn 7 false)
                    (Nfc.new ios_webview))))) = 2.
Proof.
  apply (facade_listener_call_counts ios_webview
           (NativeIosBridge.Build_t true true true true true) 7 false
           {| TagDetectedEvent.id := ""; TagDetectedEvent.techTypes := [];
              TagDetectedEvent.messages := [] |} true);
    reflexivity.
Defined.

Lemma dispatchNativeMessage_empty (monitor : Payload -> list Invocation)
    (event : MessageEvent) :
  dispatchNativeMessage monitor ∅ event = [].
Proof.
  unfold dispatchNativeMessage.
  destruct (msg_data event) as [d|]; [|reflexivity].
  rewrite !get_empty. simpl.
  destruct (String.eqb (msg_type d) "nfcTagDetected"), (msg_tag d);
    destruct (String.eqb (msg_type d) "nfcStatusChanged"), (msg_enabled d);
    reflexivity.
Qed.

(** X19. After [removeAllListeners] of the facade both registries are empty
    for every event name, and no message and no reading event calls any
    function.  The backend's array then no longer holds the facade's status
    monitor either: a function registered afterwards for [nfcStatusChanged]
    on an available bridge is called once by a status message. *)
Theorem removeAllListeners_silences (s : Nfc.t) :
  let cleared := snd (Nfc.removeAllListeners s) in
  fst (Nfc.removeAllListeners s) = Resolved tt
  /\ (forall e, facade_set e cleared = [] /\ backend_list e cleared = [])
  /\ (forall event, snd (Nfc.onMessage event cleared) = [])
  /\ (forall abort event, snd (Nfc.onReading abort event cleared) = [])
  /\ (forall (n : nat) (throws enabled : bool),
        Nfc.kind (Nfc.implementation s) <> Nfc.WebKind ->
        availability (Nfc.implementation s) = true ->
        calls_of (UserFn n throws)
          (snd (Nfc.onMessage (status_changed enabled)
                  (snd (Nfc.addListener "nfcStatusChanged" (UserFn n throws)
                          cleared)))) = 1).
Proof.
  destruct s as [[w|b|b] ls ii ai]; simpl.
  - split; [reflexivity|]. split.
    { intros e. unfold facade_set, backend_list. simpl.
      rewrite lookup_empty, get_empty. split; reflexivity. }
    split; [reflexivity|]. split.
    { intros abort event. unfold Nfc.onReading, WebNfc.onReading. simpl.
      rewrite get_empty. simpl.
      destruct (negb (WebNfc.scanSessionActive w)); [reflexivity|].
      destruct (WebNfc.scanOnce w); reflexivity. }
    intros n throws enabled Hk. congruence.
  - split; [reflexivity|]. split.
    { intros e. unfold facade_set, backend_list. simpl.
      rewrite lookup_empty, get_empty. split; reflexivity. }
    split.
    { intros event. unfold Nfc.onMessage, IosBridgeNfc.onMessage. simpl.
      destruct (IosBridgeNfc.isBridgeAvailable b); simpl; [|reflexivity].
      apply dispatchNativeMessage_empty. }
    split; [reflexivity|].
    intros n throws enabled _ Hav.
    unfold Nfc.onMessage, Nfc.addListener, IosBridgeNfc.onMessage. simpl.
    rewrite Hav. simpl. unfold dispatchNativeMessage. simpl.
    rewrite get_push_same, get_empty. simpl.
    destruct throws; simpl; rewrite calls_of_cons_same; reflexivity.
  - split; [reflexivity|]. split.
    { intros e. unfold facade_set, backend_list. simpl.
      rewrite lookup_empty, get_empty. split; reflexivity. }
    split.
    { intros event. unfold Nfc.onMessage, AndroidBridgeNfc.onMessage. simpl.
      destruct (AndroidBridgeNfc.isBridgeAvailable b); simpl; [|reflexivity].
      apply dispatchNativeMessage_empty. }
    split; [reflexivity|].
    intros n throws enabled _ Hav.
    unfold Nfc.onMessage, Nfc.addListener, AndroidBridgeNfc.onMessage. simpl.
    rewrite Hav. simpl. unfold dispatchNativeMessage. simpl.
    rewrite get_push_same, get_empty. simpl.
    destruct throws; simpl; rewrite calls_of_cons_same; reflexivity.
Qed.

Lemma removeAllListeners_silences_witness :
  calls_of (UserFn 7 false)
    (snd (Nfc.onMessage (status_changed true)
            (snd (Nfc.addListener "nfcStatusChanged" (UserFn 7 false)
                    (snd (Nfc.removeAllListeners (Nfc.new ios_webview)))))))
  = 1.
Proof.
  apply (removeAllListeners_silences (Nfc.new ios_webview));
    [discriminate | reflexivity].
Defined.

Lemma facade_set_addListener (en e : string) (f x : Callback) (s : Nfc.t) :
  x ∈ facade_set en (snd (Nfc.addListener e f s))
  <-> x ∈ facade_set en s \/ (en = e /\ x = f).
Proof.
  rewrite addListener_state. unfold facade_set. simpl.
  destruct (decide (e = en)) as [<-|Hne].
  - rewrite lookup_insert_eq. simpl. unfold Nfc.set_add.
    case_bool_decide as Hin.
    + split; [tauto|]. intros [H | [_ ->]]; [exact H | exact Hin].
    + rewrite elem_of_app, list_elem_of_singleton. tauto.
  - rewrite lookup_insert_ne by exact Hne. split; [tauto|].
    intros [H | [-> _]]; [exact H | congruence].
Qed.

Lemma facade_listeners_isEnabled (pf : Nfc.Platform) (s : Nfc.t) :
  Nfc.listeners (snd (Nfc.isEnabled pf s)) = Nfc.listeners s.
Proof.
  unfold Nfc.isEnabled.
  destruct (Nfc.impl_isEnabled pf (Nfc.implementation s)) as [[r|err] p'];
    reflexivity.
Qed.

Lemma facade_listeners_startScanSession
    (options : option StartScanSessionOptions) (pf : Nfc.Platform)
    (s : Nfc.t) :
  Nfc.listeners (snd (Nfc.startScanSession options pf s)) = Nfc.listeners s.
Proof.
  unfold Nfc.startScanSession.
  destruct (Nfc.impl_startScanSession options pf (Nfc.implementation s))
    as [[r|err] p']; reflexivity.
Qed.

Lemma facade_listeners_stopScanSession (pf : Nfc.Platform) (s : Nfc.t) :
  Nfc.listeners (snd (Nfc.stopScanSession pf s)) = Nfc.listeners s.
Proof.
  unfold Nfc.stopScanSession.
  destruct (Nfc.impl_stopScanSession pf (Nfc.implementation s)) as [r p'].
  reflexivity.
Qed.

Lemma facade_listeners_onReading (abort : CallOutcome)
    (event : WebNfc.NDEFReadingEvent) (s : Nfc.t) :
  Nfc.listeners (fst (Nfc.onReading abort event s)) = Nfc.listeners s.
Proof.
  unfold Nfc.onReading.
  destruct (Nfc.implementation s) as [w|b|b]; try reflexivity.
  destruct (WebNfc.onReading (Nfc.monitor s) abort event w). reflexivity.
Qed.

Lemma removeAllListeners_registries (s : Nfc.t) (e : string) :
  facade_set e (snd (Nfc.removeAllListeners s)) = []
  /\ backend_list e (snd (Nfc.removeAllListeners s)) = [].
Proof.
  unfold facade_set, backend_list, Nfc.removeAllListeners.
  pose proof (impl_listeners_removeAllListeners (Nfc.implementation s)) as H.
  destruct (Nfc.impl_removeAllListeners (Nfc.implementation s)) as [r p'].
  simpl in *. rewrite H, lookup_empty, get_empty. split; reflexivity.
Qed.

Lemma step_preserves_agreement (s s' : Nfc.t) :
  Nfc_step s s' -> registries_agree s -> registries_agree s'.
Proof.
  unfold registries_agree. intros Hstep Hagree e x.
  destruct (Hagree e x) as [Hfb Hbf]. destruct Hstep.
  - unfold facade_set. rewrite facade_listeners_isEnabled.
    rewrite backend_list_isEnabled. exact (Hagree e x).
  - unfold facade_set. rewrite facade_listeners_startScanSession.
    rewrite backend_list_startScanSession. exact (Hagree e x).
  - unfold facade_set. rewrite facade_listeners_stopScanSession.
    rewrite backend_list_stopScanSession. exact (Hagree e x).
  - rewrite facade_set_addListener, backend_list_addListener. tauto.
  - rewrite facade_set_remove, backend_list_remove. tauto.
  - destruct (removeAllListeners_registries s e) as [-> ->].
    split; intros H; now apply elem_of_nil in H.
  - rewrite onMessage_state. exact (Hagree e x).
  - unfold facade_set. rewrite facade_listeners_onReading.
    rewrite backend_list_onReading. exact (Hagree e x).
Qed.

Lemma new_agreement (w : Window.t) : registries_agree (Nfc.new w).
Proof.
  intros e x. unfold facade_set, backend_list, Nfc.new, Nfc.monitorNfcStatus.
  cbv zeta. simpl.
  match goal with
  | |- context [Nfc.impl_addListener _ _ ?p] =>
      destruct (impl_listeners_addListener "nfcStatusChanged" StatusMonitor p)
        as (_ & -> & _);
      assert (Hempty : Nfc.impl_listeners p = ∅)
  end.
  { destruct (_ && _); [reflexivity|]. destruct (_ && _); reflexivity. }
  rewrite Hempty, lookup_empty. simpl. split.
  - intros H. now apply elem_of_nil in H.
  - intros H. apply get_push in H as [H | [-> ->]].
    + rewrite get_empty in H. now apply elem_of_nil in H.
    + right. split; reflexivity.
Qed.

(** X20. The two registries stay consistent.  In every state that a facade
    goes through when it is used as declared, its listeners being
    registered and removed under the declared event names, a function is in
    the facade's set for an event exactly when it is in the bound backend's
    array for that event, the status monitor that the constructor
    registered with the backend apart. *)
Theorem registries_stay_consistent (s : Nfc.t) :
  Nfc_typed_reachable s -> registries_agree s.
Proof.
  induction 1 as [w | s s' _ IH Hcall].
  - apply new_agreement.
  - destruct (typed_call_step_or_same s s' Hcall) as [Hstep | ->];
      [exact (step_preserves_agreement s s' Hstep IH) | exact IH].
Qed.

Lemma registries_stay_consistent_witness :
  registries_agree
    (snd (Nfc.addListener "tagDetected" (UserFn 7 false)
            (Nfc.new ios_webview))).
Proof.
  apply registries_stay_consistent.
  eapply typed_reachable_call; [apply typed_reachable_new|].
  apply typed_call_step. apply typed_addListener. right. reflexivity.
Defined.

Ltac break_bool :=
  match goal with
  | |- context [if ?c then _ else _] =>
      match type of c with bool => destruct c eqn:? end
  end.

Ltac use_equations :=
  repeat match goal with
         | H : ?x = _ |- context [?x] => rewrite H
         end.

Ltac same_backend :=
  simpl; unfold availability, can_scan; simpl;
  repeat (break_bool; simpl); use_equations; simpl;
  repeat split; reflexivity.

(** The kind of a backend and its availability. *)
Lemma impl_selection_startScanSession
    (options : option StartScanSessionOptions) (pf : Nfc.Platform)
    (p : Nfc.NfcPlugin) :
  Nfc.kind (snd (Nfc.impl_startScanSession options pf p)) = Nfc.kind p
  /\ availability (snd (Nfc.impl_startScanSession options pf p))
     = availability p.
Proof.
  destruct p as [w|b|b]; simpl.
  - unfold WebNfc.startScanSession, can_scan.
    destruct (Nfc.scan pf); same_backend.
  - unfold IosBridgeNfc.startScanSession.
    destruct (Nfc.native pf); same_backend.
  - unfold AndroidBridgeNfc.startScanSession.
    destruct (Nfc.native pf); same_backend.
Qed.

Lemma impl_selection_stopScanSession (pf : Nfc.Platform) (p : Nfc.NfcPlugin) :
  Nfc.kind (snd (Nfc.impl_stopScanSession pf p)) = Nfc.kind p
  /\ availability (snd (Nfc.impl_stopScanSession pf p)) = availability p.
Proof.
  destruct p as [w|b|b]; simpl.
  - rewrite stopScanSession_state. split; reflexivity.
  - unfold IosBridgeNfc.stopScanSession.
    destruct (Nfc.native pf); same_backend.
  - unfold AndroidBridgeNfc.stopScanSession.
    destruct (Nfc.native pf); same_backend.
Qed.

Lemma step_preserves_selection (s s' : Nfc.t) :
  Nfc_step s s' ->
  Nfc.kind (Nfc.implementation s') = Nfc.kind (Nfc.implementation s)
  /\ availability (Nfc.implementation s')
     = availability (Nfc.implementation s)
  /\ Nfc.iosInfo s' = Nfc.iosInfo s
  /\ Nfc.androidInfo s' = Nfc.androidInfo s.
Proof.
  intros Hstep. destruct Hstep.
  - unfold Nfc.isEnabled.
    destruct (impl_isEnabled_resolves pf (Nfc.implementation s)) as [r ->].
    repeat split.
  - unfold Nfc.startScanSession.
    pose proof (impl_selection_startScanSession options pf
                  (Nfc.implementation s)) as [H1 H2].
    destruct (Nfc.impl_startScanSession options pf (Nfc.implementation s))
      as [[r|err] p']; simpl in *; repeat split; assumption.
  - unfold Nfc.stopScanSession.
    pose proof (impl_selection_stopScanSession pf (Nfc.implementation s))
      as [H1 H2].
    destruct (Nfc.impl_stopScanSession pf (Nfc.implementation s)) as [r p'].
    simpl in *. repeat split; assumption.
  - rewrite addListener_state. simpl.
    destruct (Nfc.implementation s); repeat split.
  - rewrite remove_state. simpl.
    destruct (Nfc.implementation s); repeat split.
  - unfold Nfc.removeAllListeners.
    destruct (Nfc.implementation s) eqn:E; simpl; rewrite ?E; repeat split.
  - rewrite onMessage_state. repeat split.
  - unfold Nfc.onReading.
    destruct (Nfc.implementation s) as [w|b|b] eqn:E; simpl; rewrite ?E;
      try (repeat split; reflexivity).
    pose proof (onReading_state (Nfc.monitor s) abort event w) as H.
    destruct (WebNfc.onReading (Nfc.monitor s) abort event w) as [w' trace].
    simpl in *. rewrite ?E. destruct H as [-> | ->]; repeat split.
Qed.

Lemma call_preserves_selection (s s' : Nfc.t) :
  Nfc_call s s' ->
  Nfc.kind (Nfc.implementation s') = Nfc.kind (Nfc.implementation s)
  /\ availability (Nfc.implementation s')
     = availability (Nfc.implementation s)
  /\ Nfc.iosInfo s' = Nfc.iosInfo s
  /\ Nfc.androidInfo s' = Nfc.androidInfo s.
Proof.
  intros Hcall. destruct Hcall as [s s' Hstep| | | | | |].
  - now apply step_preserves_selection.
  - destruct s as [[w|b|b] ls ii ai];
      unfold Nfc.write, WebNfc.write, IosBridgeNfc.write,
        AndroidBridgeNfc.write;
      destruct radio, native; same_backend.
  - destruct s as [[w|b|b] ls ii ai];
      unfold Nfc.makeReadOnly, WebNfc.makeReadOnly,
        IosBridgeNfc.makeReadOnly, AndroidBridgeNfc.makeReadOnly;
      destruct native; same_backend.
  - destruct s as [[w|b|b] ls ii ai];
      unfold Nfc.format, WebNfc.format, IosBridgeNfc.format,
        AndroidBridgeNfc.format;
      destruct radio, native; same_backend.
  - destruct s as [[w|b|b] ls ii ai];
      unfold Nfc.erase, WebNfc.erase, WebNfc.format, IosBridgeNfc.erase,
        AndroidBridgeNfc.erase;
      destruct radio, native; same_backend.
  - destruct s as [[w|b|b] ls ii ai];
      unfold Nfc.share, WebNfc.share, IosBridgeNfc.share,
        AndroidBridgeNfc.share;
      destruct native; same_backend.
  - destruct s as [[w|b|b] ls ii ai];
      unfold Nfc.stopSharing, WebNfc.stopSharing, IosBridgeNfc.stopSharing,
        AndroidBridgeNfc.stopSharing;
      destruct native; same_backend.
Qed.

(** X21. The selection made by the constructor is final: through any
    sequence of calls of the facade's methods and of events, the kind of
    the bound backend, its availability as found at construction, and the
    two records of capability facts stay what they were.  With the radio
    backend bound, [isEnabled] therefore gives the same answer at any
    time. *)
Theorem selection_is_final (s s' : Nfc.t) :
  rtc Nfc_call s s' ->
  Nfc.kind (Nfc.implementation s') = Nfc.kind (Nfc.implementation s)
  /\ availability (Nfc.implementation s')
     = availability (Nfc.implementation s)
  /\ Nfc.iosInfo s' = Nfc.iosInfo s
  /\ Nfc.androidInfo s' = Nfc.androidInfo s
  /\ (forall pf,
        Nfc.kind (Nfc.implementation s) = Nfc.WebKind ->
        fst (Nfc.isEnabled pf s') = fst (Nfc.isEnabled pf s)).
Proof.
  intros Hrtc.
  assert (H : Nfc.kind (Nfc.implementation s')
              = Nfc.kind (Nfc.implementation s)
              /\ availability (Nfc.implementation s')
                 = availability (Nfc.implementation s)
              /\ Nfc.iosInfo s' = Nfc.iosInfo s
              /\ Nfc.androidInfo s' = Nfc.androidInfo s).
  { induction Hrtc as [s | s s1 s' Hcall _ IH]; [repeat split|].
    destruct (call_preserves_selection s s1 Hcall) as (H1 & H2 & H3 & H4).
    destruct IH as (I1 & I2 & I3 & I4).
    repeat split; congruence. }
  destruct H as (Hk & Ha & Hi & Han).
  repeat match goal with |- _ /\ _ => split end; try assumption.
  intros pf Hweb. rewrite Hweb in Hk.
  destruct s as [[w|b|b] ls ii ai]; simpl in Hweb; try discriminate.
  destruct s' as [[w'|b'|b'] ls' ii' ai']; simpl in Hk; try discriminate.
  simpl in Ha. unfold can_scan in Ha.
  unfold Nfc.isEnabled. simpl. unfold WebNfc.isEnabled. revert Ha.
  destruct (IosDetection.isIos (WebNfc.iosInfo w')),
    (IosDetection.isIos (WebNfc.iosInfo w)); simpl;
    try reflexivity; intros H; first [rewrite H | rewrite <- H];
    reflexivity.
Qed.

Lemma selection_is_final_witness :
  let s' :=
    snd (Nfc.startScanSession None failing_platform
           (snd (Nfc.addListener "tagDetected" (UserFn 7 false)
                   (Nfc.new desktop)))) in
  Nfc.kind (Nfc.implementation s') = Nfc.WebKind
  /\ fst (Nfc.isEnabled failing_platform s')
     = Resolved {| enabled := false |}.
Proof.
  intros s'.
  assert (Hrtc : rtc Nfc_call (Nfc.new desktop) s').
  { eapply rtc_l; [apply call_step, nfc_addListener|].
    eapply rtc_l; [apply call_step, nfc_startScanSession|].
    apply rtc_refl. }
  destruct (selection_is_final (Nfc.new desktop) s' Hrtc)
    as (Hk & _ & _ & _ & He).
  split; [exact Hk|]. rewrite (He failing_platform eq_refl). reflexivity.
Defined.

(** ** Errors of the backends as the facade reports them *)

Lemma append_nonempty (c : ascii) (a b : string) : String c a +:+ b <> "".
Proof. discriminate. Qed.

(** X22. With the radio backend bound, every rejection of
    [startScanSession] reaches the caller with the backend's message
    unchanged, which is never empty.  A refusal of the permission by the
    platform (an error named [NotAllowedError]) is classified
    PERMISSION_DENIED and a platform error named [NotSupportedError] is
    classified NOT_SUPPORTED, whatever their messages. *)
Theorem radio_start_errors_at_facade (s : Nfc.t) (w : WebNfc.t)
    (options : option StartScanSessionOptions) (pf : Nfc.Platform)
    (e : JsError.t) :
  Nfc.implementation s = Nfc.Web w ->
  fst (WebNfc.startScanSession options (Nfc.scan pf) w) = Rejected e ->
  exists m,
    JsError.message e = Some m
    /\ m <> ""
    /\ fst (Nfc.startScanSession options pf s)
       = Rejected {| JsError.name := Some "Error";
                     JsError.message := Some m;
                     JsError.code := Some (Nfc.codeFor e) |}
    /\ (can_scan w = true ->
        forall e0,
          Nfc.scan pf = WebNfc.ConstructorThrows e0
          \/ (exists r, Nfc.scan pf = WebNfc.ScanRejects r e0) ->
          (JsError.name e0 = Some "NotAllowedError" ->
           Nfc.codeFor e = PERMISSION_DENIED)
          /\ (JsError.name e0 = Some "NotSupportedError" ->
              Nfc.codeFor e = NOT_SUPPORTED)).
Proof.
  intros Himpl Hrej.
  assert (Hfacade : fst (Nfc.startScanSession options pf s)
                    = Rejected (Nfc.nfcError e)).
  { apply startScanSession_rejection. rewrite Himpl. simpl.
    destruct (WebNfc.startScanSession options (Nfc.scan pf) w) as [r w'].
    simpl in *. now rewrite Hrej. }
  assert (Hcatch : forall e0,
             exists m, JsError.message (WebNfc.startScanError e0) = Some m
                       /\ m <> "").
  { intros e0. unfold WebNfc.startScanError.
    repeat case_bool_decide; eexists; (split; [reflexivity|]);
      [discriminate | discriminate | apply append_nonempty]. }
  assert (Hmsg : exists m, JsError.message e = Some m /\ m <> "").
  { revert Hrej. unfold WebNfc.startScanSession,
      WebNfc.createCompatibilityError.
    destruct (IosDetection.isIos (WebNfc.iosInfo w)); simpl.
    { intros [= <-]. eexists. split; [reflexivity | discriminate]. }
    destruct (negb (WebNfc.nfcSupported w)); simpl.
    { intros [= <-]. eexists. split; [reflexivity | discriminate]. }
    destruct (Nfc.scan pf) as [e0|r e0|r]; simpl;
      [intros [= <-]; apply Hcatch | intros [= <-]; apply Hcatch
      | discriminate]. }
  destruct Hmsg as (m & Hm & Hne). exists m.
  split; [exact Hm|]. split; [exact Hne|]. split.
  - rewrite Hfacade. unfold Nfc.nfcError. rewrite Hm. simpl.
    destruct m; [congruence | reflexivity].
  - intros Hcan e0 Hscan.
    unfold can_scan in Hcan. apply andb_true_iff in Hcan as [Hios Hsup].
    apply negb_true_iff in Hios.
    assert (He : e = WebNfc.startScanError e0).
    { revert Hrej. unfold WebNfc.startScanSession. rewrite Hios, Hsup. simpl.
      destruct Hscan as [-> | [r ->]]; simpl; now intros [= <-]. }
    subst e. unfold WebNfc.startScanError. split.
    + intros Hname. rewrite bool_decide_true by exact Hname. reflexivity.
    + intros Hname.
      rewrite bool_decide_false by (rewrite Hname; discriminate).
      rewrite bool_decide_true by exact Hname. reflexivity.
Qed.

Lemma radio_start_errors_at_facade_witness :
  let denied :=
    {| JsError.name := Some "NotAllowedError";
       JsError.message := Some "NFC permission request denied.";
       JsError.code := None |} in
  let pf :=
    {| Nfc.scan := WebNfc.ScanRejects (reader 1) denied;
       Nfc.abort := Returns;
       Nfc.native_enabled := Resolved true;
       Nfc.native := Resolved tt |} in
  fst (Nfc.startScanSession None pf (Nfc.new chrome_android))
  = Rejected
      {| JsError.name := Some "Error";
         JsError.message :=
           Some "NFC permission denied. Please allow NFC scanning when prompted.";
         JsError.code := Some PERMISSION_DENIED |}.
Proof.
  intros denied pf.
  destruct (radio_start_errors_at_facade (Nfc.new chrome_android)
              (snd (WebNfc.addListener "nfcStatusChanged" StatusMonitor
                      (WebNfc.new chrome_android)))
              None pf
              (new_Error "NFC permission denied. Please allow NFC scanning when prompted.")
              (new_implementation_web chrome_android eq_refl) eq_refl)
    as (m & Hm & _ & Hfacade & Hcode).
  injection Hm as <-.
  rewrite Hfacade.
  rewrite (proj1 (Hcode eq_refl denied
                    (or_intror (ex_intro _ (reader 1) eq_refl))) eq_refl).
  reflexivity.
Defined.

(** X23. With a bridge backend bound whose bridge is unavailable, the
    facade's [startScanSession] rejects with the backend's message and the
    code UNEXPECTED_ERROR, and its [write] rejects with the backend's own
    error, which carries no code. *)
Theorem unavailable_bridge_at_facade (s : Nfc.t)
    (options : option StartScanSessionOptions) (pf : Nfc.Platform)
    (written : WriteOptions) (radio : WebNfc.WriteOutcome)
    (native : Completion unit) :
  Nfc.kind (Nfc.implementation s) <> Nfc.WebKind ->
  availability (Nfc.implementation s) = false ->
  fst (Nfc.startScanSession options pf s)
  = Rejected
      {| JsError.name := Some "Error";
         JsError.message :=
           Some "NFC scan cannot be started - bridge not available";
         JsError.code := Some UNEXPECTED_ERROR |}
  /\ fst (Nfc.write written radio native s)
     = Rejected
         {| JsError.name := Some "Error";
            JsError.message :=
              Some "NFC write is not supported - bridge not available";
            JsError.code := None |}.
Proof.
  destruct s as [[w|b|b] ls ii ai]; simpl; intros Hk Hav; [congruence| |].
  - unfold Nfc.startScanSession, Nfc.write. simpl.
    unfold IosBridgeNfc.startScanSession, IosBridgeNfc.write.
    rewrite Hav. simpl. split; reflexivity.
  - unfold Nfc.startScanSession, Nfc.write. simpl.
    unfold AndroidBridgeNfc.startScanSession, AndroidBridgeNfc.write.
    rewrite Hav. simpl. split; reflexivity.
Qed.

Lemma unavailable_bridge_at_facade_witness :
  let incomplete :=
    {| Window.userAgent := Window.userAgent ios_webview;
       Window.nativeNfcBridge :=
         Some (NativeIosBridge.Build_t true false false true false);
       Window.nativeAndroidNfcBridge := None;
       Window.NDEFReader := false |} in
  fst (Nfc.startScanSession None failing_platform (Nfc.new incomplete))
  = Rejected
      {| JsError.name := Some "Error";
         JsError.message :=
           Some "NFC scan cannot be started - bridge not available";
         JsError.code := Some UNEXPECTED_ERROR |}.
Proof.
  intros incomplete.
  apply (unavailable_bridge_at_facade (Nfc.new incomplete) None
           failing_platform (SimpleNfc.writeText "hello")
           WebNfc.WriteResolves (Resolved tt));
    [discriminate | reflexivity].
Defined.

(** ** More on the codec and on the facade *)

Lemma includes_slash_urn_free :
  Js.includes "/" "" = false /\ Js.includes "/" "text" = false
  /\ Js.includes "/" "url" = false /\ Js.startsWith "urn:" "" = false
  /\ Js.startsWith "urn:" "text" = false /\ Js.startsWith "urn:" "url" = false.
Proof. repeat split. Qed.

(** X24. The classification of a native record type is decided in this
    order: the empty type is EMPTY; ["text"] and ["url"] are WELL_KNOWN; any
    other type that contains a slash is MIME_MEDIA, also when it starts with
    ["urn:"]; a type that starts with ["urn:"] and has no slash is
    ABSOLUTE_URI; everything else is EXTERNAL_TYPE.  The values UNKNOWN,
    UNCHANGED and RESERVED are never produced. *)
Theorem mapRecordTypeToTnf_classes (recordType : string) :
  let tnf := WebNfc.mapRecordTypeToTnf recordType in
  (tnf = NfcTnf.EMPTY <-> recordType = "")
  /\ (tnf = NfcTnf.WELL_KNOWN <-> recordType = "text" \/ recordType = "url")
  /\ (tnf = NfcTnf.MIME_MEDIA <-> Js.includes "/" recordType = true)
  /\ (tnf = NfcTnf.ABSOLUTE_URI
      <-> Js.startsWith "urn:" recordType = true
          /\ Js.includes "/" recordType = false)
  /\ (tnf = NfcTnf.EMPTY \/ tnf = NfcTnf.WELL_KNOWN \/ tnf = NfcTnf.MIME_MEDIA
      \/ tnf = NfcTnf.ABSOLUTE_URI \/ tnf = NfcTnf.EXTERNAL_TYPE).
Proof.
  destruct includes_slash_urn_free as (S0 & S1 & S2 & U0 & U1 & U2).
  unfold WebNfc.mapRecordTypeToTnf, NfcTnf.EMPTY, NfcTnf.WELL_KNOWN,
    NfcTnf.MIME_MEDIA, NfcTnf.ABSOLUTE_URI, NfcTnf.EXTERNAL_TYPE.
  destruct (String.eqb recordType "") eqn:E0.
  { apply String.eqb_eq in E0 as ->. cbv zeta. simpl.
    intuition (discriminate || congruence). }
  apply String.eqb_neq in E0.
  destruct (String.eqb recordType "text") eqn:E1.
  { apply String.eqb_eq in E1 as ->. cbv zeta. simpl.
    intuition (discriminate || congruence). }
  apply String.eqb_neq in E1.
  destruct (String.eqb recordType "url") eqn:E2.
  { apply String.eqb_eq in E2 as ->. cbv zeta. simpl.
    intuition (discriminate || congruence). }
  apply String.eqb_neq in E2. cbv zeta. simpl.
  destruct (Js.includes "/" recordType) eqn:E3;
    [intuition (discriminate || congruence)|].
  destruct (Js.startsWith "urn:" recordType) eqn:E4;
    intuition (discriminate || congruence).
Qed.

Lemma mapRecordTypeToTnf_classes_witness :
  WebNfc.mapRecordTypeToTnf "urn:nfc:ext:example.com/type" = NfcTnf.MIME_MEDIA
  /\ WebNfc.mapRecordTypeToTnf "urn:nfc:ext:example" = NfcTnf.ABSOLUTE_URI.
Proof.
  split.
  - apply (proj2 (proj1 (proj2 (proj2 (mapRecordTypeToTnf_classes
                                         "urn:nfc:ext:example.com/type"))))).
    reflexivity.
  - apply (proj2 (proj1 (proj2 (proj2 (proj2 (mapRecordTypeToTnf_classes
                                                "urn:nfc:ext:example")))))).
    split; reflexivity.
Defined.

(** X25. Every record that the radio backend reports has an empty [id], has
    [payload], [text], [uri] and [languageCode] present, and a language code
    that is not empty; its [text] is not empty only for the native type
    ["text"], its [uri] only for ["url"], and each then equals the
    [payload]. *)
Theorem parsed_record_shape (record : WebNfc.NDEFRecord) :
  let r := WebNfc.toUnifiedRecord record in
  NdefRecord.id r = ""
  /\ NdefRecord.type r = WebNfc.recordType record
  /\ (exists p t u l,
        NdefRecord.payload r = Some p /\ NdefRecord.text r = Some t
        /\ NdefRecord.uri r = Some u /\ NdefRecord.languageCode r = Some l
        /\ l <> ""
        /\ (t <> "" -> WebNfc.recordType record = "text" /\ t = p)
        /\ (u <> "" -> WebNfc.recordType record = "url" /\ u = p)
        /\ (WebNfc.data record = None -> p = "")).
Proof.
  unfold WebNfc.toUnifiedRecord.
  split; [destruct (WebNfc.data record); repeat break_bool; reflexivity|].
  split.
  { assert (H : forall s, Js.or_else s "" = s) by (intros []; reflexivity).
    destruct (WebNfc.data record); repeat break_bool; simpl; apply H. }
  assert (Hl : Js.opt_or_else (WebNfc.lang record) "en" <> "").
  { destruct (WebNfc.lang record) as [[|c l]|]; simpl; discriminate. }
  destruct (WebNfc.data record) as [d|]; simpl.
  - destruct (String.eqb (WebNfc.recordType record) "text") eqn:E1.
    + apply String.eqb_eq in E1. do 4 eexists. simpl.
      repeat split; try reflexivity; try assumption; try congruence;
        try discriminate.
    + destruct (String.eqb (WebNfc.recordType record) "url") eqn:E2.
      * apply String.eqb_eq in E2. do 4 eexists. simpl.
        repeat split; try reflexivity; try assumption; try congruence;
          try discriminate.
      * do 4 eexists. simpl.
        repeat split; try reflexivity; try assumption; try congruence;
          try discriminate.
  - do 4 eexists. simpl.
    repeat split; try reflexivity; try assumption; try congruence.
Qed.

Lemma parsed_record_shape_witness :
  let r :=
    WebNfc.toUnifiedRecord
      {| WebNfc.recordType := "text"; WebNfc.data := Some "hello";
         WebNfc.lang := None |} in
  NdefRecord.text r = Some "hello" /\ NdefRecord.payload r = Some "hello".
Proof.
  intros r.
  assert (Ht : NdefRecord.text r = Some "hello") by reflexivity.
  split; [exact Ht|].
  destruct (parsed_record_shape
              {| WebNfc.recordType := "text"; WebNfc.data := Some "hello";
                 WebNfc.lang := None |})
    as (_ & _ & p & t & u & l & Hp & Ht' & _ & _ & _ & Htext & _).
  fold r in Hp, Ht'. rewrite Hp. rewrite Ht' in Ht. injection Ht as ->.
  destruct (Htext ltac:(discriminate)) as [_ <-]. reflexivity.
Defined.

(** X26. Four methods of the facade never reject, whatever the bound
    backend, its state and the platform: [stopScanSession] and
    [removeAllListeners], and, for a declared event name, [addListener] and
    the [remove] of a handle. *)
Theorem facade_methods_that_never_reject (s : Nfc.t) (pf : Nfc.Platform)
    (eventName : string) (f : Callback) :
  declared_event eventName ->
  let h := {| h_eventName := eventName; h_listenerFunc := f |} in
  fst (Nfc.stopScanSession pf s) = Resolved tt
  /\ fst (Nfc.addListener eventName f s) = Resolved h
  /\ fst (Nfc.remove h s) = Resolved tt
  /\ fst (Nfc.removeAllListeners s) = Resolved tt.
Proof.
  intros _ h. split; [|split; [|split]].
  - unfold Nfc.stopScanSession.
    destruct (Nfc.implementation s) as [w|b|b]; simpl.
    + rewrite stopScanSession_state. reflexivity.
    + unfold IosBridgeNfc.stopScanSession.
      destruct (_ || _); [reflexivity|]. destruct (Nfc.native pf); reflexivity.
    + unfold AndroidBridgeNfc.stopScanSession.
      destruct (_ || _); [reflexivity|]. destruct (Nfc.native pf); reflexivity.
  - now rewrite addListener_state.
  - now rewrite remove_state.
  - unfold Nfc.removeAllListeners.
    destruct (Nfc.implementation s); reflexivity.
Qed.

Lemma facade_methods_that_never_reject_witness :
  let f := UserFn 7 true in
  let h := {| h_eventName := "nfcStatusChanged"; h_listenerFunc := f |} in
  let s := Nfc.new android_webview in
  fst (Nfc.stopScanSession failing_platform s) = Resolved tt
  /\ fst (Nfc.addListener "nfcStatusChanged" f s) = Resolved h
  /\ fst (Nfc.remove h s) = Resolved tt
  /\ fst (Nfc.removeAllListeners s) = Resolved tt.
Proof.
  intros f h s.
  apply (facade_methods_that_never_reject s failing_platform
           "nfcStatusChanged" f).
  left. reflexivity.
Defined.
